(** * Kissanbandi storefront: order totals, GST ledger, invoice identity
      and checkout settlement.

    Shallow embedding of
      - [src/config/config.js]  (the [CheckoutPage] component),
      - [src/pages/vegetables/FreshVegetables.jsx]  (the [Orders] component
        with [getInvoiceOrderNumber], [getIndividualProductGST],
        [calculateGSTBreakdown], [generateInvoicePDF], [convertToWords],
        [filteredOrders], [formatAddress], [getProductImage]; and the
        [FreshVegetables] component with [loadProducts],
        [getProductStatus], [handleAddToCart], [toggleWishlist]), and
      - [middleware/auth.js]  ([auth], [adminAuth]).

    Conventions of the embedding.
      - A JavaScript number is a binary64 float; its value is a rational
        ([Q]), and [undefined] and [NaN] are [None].  The modules
        [Binary64], [Checkout64], [Orders64] and [CheckoutFlow] compute
        as the browser does: every operation rounds its exact result to
        the nearest binary64 value.  The modules [Checkout] and [Orders]
        are the same functions over the exact results; what is stated
        over them holds of the code wherever no arithmetic is involved,
        and at inputs whose intermediate results are binary64 values
        (whole numbers of rupees, for one).  Numbers of magnitude 1e21
        and above (where [toFixed] switches to exponent notation),
        overflow and division by zero are outside the model.
      - Equality of numbers is [Qeq] ([==]); formatted output is a [string]
        and compared with [=].  A string is a sequence of bytes; the
        identifiers and numbers the components handle are ASCII, so its
        length is the JavaScript [length].
      - React state is passed explicitly; calls to collaborators
        ([ordersApi], the Razorpay widget, [toast], [navigate]) are recorded
        in the page state, and what a collaborator answers is an input.
        [Checkout.step] follows one attempt of the payment flow;
        [CheckoutFlow.step] keeps the continuation of every attempt, with
        the closures of the render it started from, and takes the
        shopper's changes of cart, address and payment method as
        events. *)

From Stdlib Require Import ZArith QArith Qround Qabs Qpower String Ascii List Bool.
From Stdlib Require Import Lia Lqa.
From Stdlib Require Import DecimalString DecimalN Permutation.
From Equations Require Import Equations.
Import ListNotations.

Open Scope string_scope.
Open Scope Q_scope.

(* ===================================================================== *)
(** ** JavaScript values and built-ins used by the two components *)
(* ===================================================================== *)

Module JS.

(** Truthiness of a number: [0] (and [NaN]) are falsy. *)
Definition truthyNum (x : Q) : bool := negb (Qeq_bool x 0).

(** Truthiness of a possibly-[undefined] number. *)
Definition truthy (o : option Q) : bool :=
  match o with Some x => truthyNum x | None => false end.

(** Truthiness of a possibly-[undefined] string: [""] is falsy. *)
Definition truthyStr (o : option string) : bool :=
  match o with Some "" => false | Some _ => true | None => false end.

(** A JavaScript value, as far as a condition tells values apart. *)
Inductive Value :=
| VUndefined
| VNull
| VBool (b : bool)
| VNumber (x : Q)
| VNaN
| VString (s : string)
| VObject.

(** [if (v)] *)
Definition truthyValue (v : Value) : bool :=
  match v with
  | VUndefined | VNull | VNaN => false
  | VBool b => b
  | VNumber x => truthyNum x
  | VString s => negb (String.eqb s "")
  | VObject => true
  end.

(** [a || b] on possibly-[undefined] numbers. *)
Definition or_ (a b : option Q) : option Q := if truthy a then a else b.

(** [a || d] where [d] is a number literal. *)
Definition orNum (a : option Q) (d : Q) : Q :=
  match a with
  | Some x => if truthyNum x then x else d
  | None => d
  end.

(** [a || b] on possibly-[undefined] strings. *)
Definition orStr (a b : option string) : option string :=
  if truthyStr a then a else b.

(** [a || d] where [d] is a string literal. *)
Definition orStrLit (a : option string) (d : string) : string :=
  match a with
  | Some s => if truthyStr a then s else d
  | None => d
  end.

(** [parseFloat(x)] at a number or [undefined]: the number itself, or
    [NaN]. *)
Definition parseFloatNum (x : option Q) : option Q := x.

Definition ltb (x y : Q) : bool := negb (Qle_bool y x).
Definition gtb (x y : Q) : bool := ltb y x.
Definition geb (x y : Q) : bool := Qle_bool y x.

(** [Math.round]: the nearest integer, ties towards plus infinity. *)
Definition Math_round (x : Q) : Z := Qfloor (x + (1 # 2)).

(** [Math.round(x * 100) / 100]. *)
Definition round2 (x : Q) : Q := inject_Z (Math_round (x * 100)) / 100.

(** [Math.round(x * 10) / 10]. *)
Definition round1 (x : Q) : Q := inject_Z (Math_round (x * 10)) / 10.

(** Decimal digits of a non-negative integer ([String(n)]). *)
Definition digits (n : Z) : string :=
  NilZero.string_of_uint (N.to_uint (Z.to_N n)).

(** [String(n)] for an integer. *)
Definition String_ (n : Z) : string :=
  if (n <? 0)%Z then "-" ++ digits (- n) else digits n.

Fixpoint zeros (k : nat) : string :=
  match k with
  | O => ""
  | S k' => String "0" (zeros k')
  end.

(** [s.padStart(len, '0')]. *)
Definition padStart0 (len : nat) (s : string) : string :=
  zeros (len - String.length s) ++ s.

(** [s.slice(-k)]: the last [k] characters (all of [s] when shorter). *)
Definition sliceLast (k : nat) (s : string) : string :=
  substring (String.length s - k) k s.

(** [s.startsWith(p)]. *)
Definition startsWith (p s : string) : bool := String.prefix p s.

(** The integer [n] of [Number.prototype.toFixed]: the integer nearest to
    [|x| * 10^d], the larger one on a tie. *)
Definition toFixed_units (d : nat) (x : Q) : Z :=
  Qfloor (Qabs x * inject_Z (10 ^ Z.of_nat d) + (1 # 2)).

(** [x.toFixed(d)]: sign, then the digits of [n] padded to [d + 1] places
    with the decimal point before the last [d]. *)
Definition toFixed (d : nat) (x : Q) : string :=
  let m := padStart0 (S d) (digits (toFixed_units d x)) in
  let k := (String.length m - d)%nat in
  (if ltb x 0 then "-" else "") ++
  match d with
  | O => m
  | _ => substring 0 k m ++ "." ++ substring k d m
  end.

(** Value of a decimal digit character. *)
Definition digitVal (c : ascii) : option Z :=
  let n := nat_of_ascii c in
  if ((48 <=? n) && (n <=? 57))%nat then Some (Z.of_nat (n - 48)) else None.

(** Longest prefix of decimal digits: its value, its length, the rest. *)
Fixpoint readDigits (s : string) (acc : Z) (len : nat) : Z * nat * string :=
  match s with
  | String c rest =>
      match digitVal c with
      | Some v => readDigits rest (acc * 10 + v)%Z (S len)
      | None => (acc, len, s)
      end
  | EmptyString => (acc, len, s)
  end.

(** [parseFloat(s)] on a string: an optional sign, digits, an optional
    fraction; what follows is ignored; [NaN] without any digit.  Exponents,
    leading blanks and ["Infinity"] are not modelled: no string the
    components parse has them. *)
Definition parseFloat (s : string) : option Q :=
  let '(neg, body) :=
    match s with
    | String "-" r => (true, r)
    | String "+" r => (false, r)
    | _ => (false, s)
    end in
  let '(ip, il, rest) := readDigits body 0%Z O in
  let '(fp, fl) :=
    match rest with
    | String "." r => let '(v, l, _) := readDigits r 0%Z O in (v, l)
    | _ => (0%Z, O)
    end in
  match (il + fl)%nat with
  | O => None
  | _ =>
      let v := inject_Z ip + inject_Z fp / inject_Z (10 ^ Z.of_nat fl) in
      Some (if neg then - v else v)
  end.

(** [Math.floor(x)], as a number. *)
Definition Math_floor (x : Q) : Q := inject_Z (Qfloor x).

(** Integer part of [x] towards zero. *)
Definition trunc (x : Q) : Z := if Qle_bool 0 x then Qfloor x else Qceiling x.

(** [x % m]: the remainder has the sign of the dividend. *)
Definition rem (x m : Q) : Q := x - m * inject_Z (trunc (x / m)).

(** [l[x]] on an array of strings: the element when [x] is an index of
    [l], else [undefined]. *)
Definition index (l : list string) (x : Q) : option string :=
  let i := Qfloor x in
  if Qeq_bool (inject_Z i) x && (0 <=? i)%Z then nth_error l (Z.to_nat i) else None.

(** A possibly-[undefined] string inside a concatenation or a template
    literal. *)
Definition str (v : option string) : string :=
  match v with Some s => s | None => "undefined" end.

End JS.

(* ===================================================================== *)
(** ** Stored order data ([FreshVegetables.jsx], the [Orders] component) *)
(* ===================================================================== *)

(** The product document an order item points to; only the fields the
    ledger reads. *)
Module Product.
Record t := mk {
  name : option string;
  hsn : option string;
  hsnCode : option string;
  gstRate : option Q;
  gst : option Q
}.
End Product.

(** A stored line item.  [price] and [quantity] are always present; every
    tax field may be [undefined]. *)
Module Item.
Record t := mk {
  product : option Product.t;
  quantity : Q;
  price : Q;
  basePrice : option Q;
  gst : option Q;
  gstAmount : option Q;
  gstRate : option Q;
  hsn : option string
}.
End Item.

(** A stored order as the API returns it.  [items = None] stands for a
    missing field or a value that is not an array. *)
Module Order.
Record t := mk {
  _id : option string;
  invoiceNumber : option string;
  invoiceOrderNumber : option string;
  orderNumber : option Z;
  formattedOrderNumber : option string;
  createdAt : option string;
  items : option (list Item.t);
  discount : option Q;
  discountedSubtotal : option Q;
  gstAmount : option Q;
  shippingCharge : option Q;
  totalAmount : option Q;
  couponCode : option string
}.
End Order.

(** What [getIndividualProductGST] returns: every amount already formatted
    by [toFixed]. *)
Module GstData.
Record t := mk {
  basePrice : string;
  gstRate : string;
  gstAmountPerUnit : string;
  totalGstAmount : string;
  cgstAmount : string;
  sgstAmount : string;
  totalAmount : string;
  hsn : string
}.
End GstData.

(** What [calculateGSTBreakdown] returns. *)
Module GstBreakdown.
Record t := mk {
  cgst : Q;
  sgst : Q;
  totalGST : Q;
  cgstRate : Q;
  sgstRate : Q;
  totalRate : Q
}.
End GstBreakdown.

(* ===================================================================== *)
(** ** Invoice identity, GST ledger and amount in words *)
(* ===================================================================== *)

Module Orders.
Import JS.

Section InvoiceIdentity.
(** [new Date(s).getFullYear()] for a stored creation date, and the
    year the clock shows ([new Date().getFullYear()]). *)
Variable getFullYear : string -> Z.
Variable currentYear : Z.

Definition orderNumberTruthy (n : option Z) : bool :=
  match n with Some k => negb (k =? 0)%Z | None => false end.

(** [getInvoiceOrderNumber]: six methods, the first applicable wins. *)
Definition getInvoiceOrderNumber (orderData : Order.t) : string :=
  let year := String_ (getFullYear (orStrLit (Order.createdAt orderData) "")) in
  (* Method 1: existing 10-character invoice number *)
  if truthyStr (Order.invoiceNumber orderData)
     && (String.length (orStrLit (Order.invoiceNumber orderData) "") =? 10)%nat
  then orStrLit (Order.invoiceNumber orderData) ""
  (* Method 2: the virtual field *)
  else if truthyStr (Order.invoiceOrderNumber orderData)
  then orStrLit (Order.invoiceOrderNumber orderData) ""
  (* Method 3: orderNumber and createdAt *)
  else if orderNumberTruthy (Order.orderNumber orderData)
          && truthyStr (Order.createdAt orderData)
  then year ++ padStart0 6
                 (String_ (match Order.orderNumber orderData with
                           | Some k => k | None => 0%Z end))
  (* Method 4: formattedOrderNumber and createdAt *)
  else if truthyStr (Order.formattedOrderNumber orderData)
          && truthyStr (Order.createdAt orderData)
  then year ++ orStrLit (Order.formattedOrderNumber orderData) ""
  (* Method 5: createdAt and _id *)
  else if truthyStr (Order.createdAt orderData)
          && truthyStr (Order._id orderData)
  then year ++ sliceLast 6 (orStrLit (Order._id orderData) "")
  (* Method 6: absolute fallback *)
  else String_ currentYear ++ "000001".
End InvoiceIdentity.

(** When a method of [getInvoiceOrderNumber] does not apply. *)

(** No stored invoice number of exactly 10 characters. *)
Definition noTenCharInvoiceNumber (o : Order.t) : Prop :=
  forall s, Order.invoiceNumber o = Some s -> String.length s <> 10%nat.

(** The field is [undefined] or empty. *)
Definition absent (f : option string) : Prop := f = None \/ f = Some "".

(** No sequential order number ([undefined] or 0). *)
Definition noOrderNumber (o : Order.t) : Prop :=
  Order.orderNumber o = None \/ Order.orderNumber o = Some 0%Z.

(** [item.product?.f] *)
Definition productField {A} (f : Product.t -> option A) (item : Item.t) : option A :=
  match Item.product item with
  | Some p => f p
  | None => None
  end.

(** [item.hsn || item.product?.hsn || item.product?.hsnCode || '1234'] *)
Definition hsnOf (item : Item.t) : string :=
  orStrLit (orStr (orStr (Item.hsn item) (productField Product.hsn item))
                  (productField Product.hsnCode item))
           "1234".

Definition defined {A} (o : option A) : bool :=
  match o with Some _ => true | None => false end.

(** The guard of Method 1 of [getIndividualProductGST]. *)
Definition hasStoredGst (item : Item.t) : bool :=
  (defined (Item.basePrice item) || defined (Item.gst item))
  && (defined (Item.gst item) || defined (Item.gstAmount item)).

(** Method 1: the per-unit GST amount read from the item. *)
Definition storedGstAmountPerUnit (item : Item.t) : Q :=
  orNum (parseFloatNum (or_ (Item.gst item) (Item.gstAmount item))) 0.

(** Method 1: the stored base price, or the price less the GST amount. *)
Definition storedBasePrice (item : Item.t) : Q :=
  let gstAmountPerUnit := storedGstAmountPerUnit item in
  let basePrice := orNum (parseFloatNum (Item.basePrice item)) 0 in
  if Qeq_bool basePrice 0 && truthyNum (Item.price item) && gtb gstAmountPerUnit 0
  then Item.price item - gstAmountPerUnit
  else basePrice.

(** Method 1: the rate from the amounts, else the stored rate or 18. *)
Definition storedGstRate (item : Item.t) : Q :=
  let gstAmountPerUnit := storedGstAmountPerUnit item in
  let basePrice := storedBasePrice item in
  if gtb basePrice 0 && gtb gstAmountPerUnit 0
  then (gstAmountPerUnit / basePrice) * 100
  else orNum (parseFloatNum (Item.gstRate item)) 18.

(** Method 2: [item.gst || item.product?.gstRate || item.product?.gst || 18] *)
Definition productGstRate (item : Item.t) : Q :=
  orNum (or_ (or_ (Item.gst item) (productField Product.gstRate item))
             (productField Product.gst item))
        18.

(** The stored per-unit tax amount [g], read as
    [item.gst || item.gstAmount]. *)
Definition storedTaxAmount (item : Item.t) (g : Q) : Prop :=
  Item.gst item = Some g
  \/ (truthy (Item.gst item) = false /\ Item.gstAmount item = Some g).

(** The base price [b]: the stored one, or the unit price less the tax
    amount [g] when none is stored. *)
Definition derivableBasePrice (item : Item.t) (g b : Q) : Prop :=
  (Item.basePrice item = Some b /\ ~ b == 0)
  \/ (truthy (Item.basePrice item) = false
      /\ ~ Item.price item == 0 /\ b = Item.price item - g).

(** [getIndividualProductGST(item, orderData)] *)
Definition getIndividualProductGST (item : Item.t) (orderData : Order.t) : GstData.t :=
  if hasStoredGst item then
    (* Method 1: stored GST information *)
    let gstAmountPerUnit := storedGstAmountPerUnit item in
    let basePrice := storedBasePrice item in
    let gstRate := storedGstRate item in
    let hsn := hsnOf item in
    let totalGstAmount := gstAmountPerUnit * Item.quantity item in
    let cgstAmount := totalGstAmount / 2 in
    let sgstAmount := totalGstAmount / 2 in
    {| GstData.basePrice := toFixed 2 basePrice;
       GstData.gstRate := toFixed 1 gstRate;
       GstData.gstAmountPerUnit := toFixed 2 gstAmountPerUnit;
       GstData.totalGstAmount := toFixed 2 totalGstAmount;
       GstData.cgstAmount := toFixed 2 cgstAmount;
       GstData.sgstAmount := toFixed 2 sgstAmount;
       GstData.totalAmount := toFixed 2 (Item.price item * Item.quantity item);
       GstData.hsn := hsn |}
  else
    (* Method 2: the price is taken to include GST *)
    let totalItemAmount :=
      orNum (Some (Item.price item)) 0 * orNum (Some (Item.quantity item)) 0 in
    let productGstRate := productGstRate item in
    let hsn := hsnOf item in
    let basePrice := totalItemAmount / (1 + productGstRate / 100) in
    let totalGstAmount := totalItemAmount - basePrice in
    let gstAmountPerUnit := totalGstAmount / orNum (Some (Item.quantity item)) 1 in
    let cgstAmount := totalGstAmount / 2 in
    let sgstAmount := totalGstAmount / 2 in
    let basePricePerUnit := basePrice / orNum (Some (Item.quantity item)) 1 in
    let calculatedGstRate :=
      if gtb basePricePerUnit 0 && gtb gstAmountPerUnit 0
      then (gstAmountPerUnit / basePricePerUnit) * 100
      else productGstRate in
    {| GstData.basePrice := toFixed 2 basePrice;
       GstData.gstRate := toFixed 1 calculatedGstRate;
       GstData.gstAmountPerUnit := toFixed 2 gstAmountPerUnit;
       GstData.totalGstAmount := toFixed 2 totalGstAmount;
       GstData.cgstAmount := toFixed 2 cgstAmount;
       GstData.sgstAmount := toFixed 2 sgstAmount;
       GstData.totalAmount := toFixed 2 totalItemAmount;
       GstData.hsn := hsn |}.

(** The five running sums of the [forEach] loop of
    [calculateGSTBreakdown]. *)
Record Sums := mkSums {
  totalCGST : Q;
  totalSGST : Q;
  totalGST : Q;
  weightedGSTRate : Q;
  totalBaseAmount : Q
}.

(** One iteration of the loop. *)
Definition addItem (orderData : Order.t) (s : Sums) (item : Item.t) : Sums :=
  let itemGstData := getIndividualProductGST item orderData in
  let itemCGST := orNum (parseFloat (GstData.cgstAmount itemGstData)) 0 in
  let itemSGST := orNum (parseFloat (GstData.sgstAmount itemGstData)) 0 in
  let itemGST := orNum (parseFloat (GstData.totalGstAmount itemGstData)) 0 in
  let itemBasePrice := orNum (parseFloat (GstData.basePrice itemGstData)) 0 in
  let gstRate := orNum (parseFloat (GstData.gstRate itemGstData)) 0 in
  let qty := orNum (Some (Item.quantity item)) 1 in
  {| totalCGST := totalCGST s + itemCGST;
     totalSGST := totalSGST s + itemSGST;
     totalGST := totalGST s + itemGST;
     totalBaseAmount := totalBaseAmount s + itemBasePrice * qty;
     weightedGSTRate := weightedGSTRate s + gstRate * (itemBasePrice * qty) |}.

(** [calculateGSTBreakdown(orderData, subtotalAfterDiscount)] *)
Definition calculateGSTBreakdown (orderData : Order.t) (subtotalAfterDiscount : Q)
  : GstBreakdown.t :=
  match Order.items orderData with
  | Some items =>
      (* first: from the individual items (any array, also an empty one) *)
      let s := fold_left (addItem orderData) items (mkSums 0 0 0 0 0) in
      let finalGSTRate :=
        if gtb (totalBaseAmount s) 0
        then weightedGSTRate s / totalBaseAmount s else 0 in
      {| GstBreakdown.cgst := round2 (totalCGST s);
         GstBreakdown.sgst := round2 (totalSGST s);
         GstBreakdown.totalGST := round2 (totalGST s);
         GstBreakdown.cgstRate := finalGSTRate / 2;
         GstBreakdown.sgstRate := finalGSTRate / 2;
         GstBreakdown.totalRate := finalGSTRate |}
  | None =>
      if truthy (Order.gstAmount orderData)
         && gtb (orNum (Order.gstAmount orderData) 0) 0
      then
        (* second: from the order's total GST amount *)
        let totalGST := orNum (Order.gstAmount orderData) 0 in
        let cgst := totalGST / 2 in
        let sgst := totalGST / 2 in
        let taxableAmount :=
          orNum (Order.discountedSubtotal orderData) subtotalAfterDiscount in
        let effectiveRate :=
          if gtb taxableAmount 0 then (totalGST / taxableAmount) * 100 else 0 in
        {| GstBreakdown.cgst := round2 cgst;
           GstBreakdown.sgst := round2 sgst;
           GstBreakdown.totalGST := round2 totalGST;
           GstBreakdown.cgstRate := round1 (effectiveRate / 2);
           GstBreakdown.sgstRate := round1 (effectiveRate / 2);
           GstBreakdown.totalRate := round1 effectiveRate |}
      else
        (* fallback: no GST data found *)
        {| GstBreakdown.cgst := 0;
           GstBreakdown.sgst := 0;
           GstBreakdown.totalGST := 0;
           GstBreakdown.cgstRate := 0;
           GstBreakdown.sgstRate := 0;
           GstBreakdown.totalRate := 0 |}
  end.

(** *** Amount in words *)

Definition ones : list string :=
  [""; "One"; "Two"; "Three"; "Four"; "Five"; "Six"; "Seven"; "Eight"; "Nine"].
Definition teens : list string :=
  ["Ten"; "Eleven"; "Twelve"; "Thirteen"; "Fourteen"; "Fifteen"; "Sixteen";
   "Seventeen"; "Eighteen"; "Nineteen"].
Definition tens : list string :=
  [""; ""; "Twenty"; "Thirty"; "Forty"; "Fifty"; "Sixty"; "Seventy"; "Eighty";
   "Ninety"].

(** [convertToWords(amount)].  The two recursive calls are on
    [Math.floor(amount / 1000)] and on a remainder, both smaller than
    [amount] where they are made. *)
Equations? convertToWords (amount : Q) : option string
  by wf (Z.to_nat (Qfloor amount)) lt :=
  convertToWords amount with Qeq_dec amount 0 => {
    | left _ => Some "Zero"
    | right _ with Qlt_le_dec amount 10 => {
      | left _ => index ones amount
      | right _ with Qlt_le_dec amount 20 => {
        | left _ => index teens (amount - 10)
        | right _ with Qlt_le_dec amount 100 => {
          | left _ =>
              Some (str (index tens (Math_floor (amount / 10))) ++
                    (if negb (Qeq_bool (rem amount 10) 0)
                     then " " ++ str (index ones (rem amount 10)) else ""))
          | right _ with Qlt_le_dec amount 1000 => {
            | left _ =>
                Some (str (index ones (Math_floor (amount / 100))) ++ " Hundred" ++
                      (if negb (Qeq_bool (rem amount 100) 0)
                       then " " ++ str (convertToWords (rem amount 100)) else ""))
            | right _ with Qlt_le_dec amount 100000 => {
              | left _ =>
                  Some (str (convertToWords (Math_floor (amount / 1000))) ++ " Thousand" ++
                        (if negb (Qeq_bool (rem amount 1000) 0)
                         then " " ++ str (convertToWords (rem amount 1000)) else ""))
              | right _ => Some "Amount too large" } } } } } }.
Proof.
  (* the remainder of a non-negative number is below the divisor *)
  all: assert (rem_lt : forall x m : Q, 0 < m -> 0 <= x -> rem x m < m).
  all: try (intros x m Hm Hx; unfold rem, trunc;
            assert (H0 : 0 <= x / m) by (apply Qle_shift_div_l; [exact Hm | lra]);
            apply Qle_bool_iff in H0; rewrite H0;
            pose proof (Qlt_floor (x / m)) as Hf;
            assert (Hxm : x / m * m == x) by (field; lra);
            assert (Hk : x < inject_Z (Qfloor (x / m) + 1) * m)
              by (rewrite <- Hxm at 1; apply Qmult_lt_compat_r; assumption);
            rewrite inject_Z_plus in Hk; change (inject_Z 1) with 1 in Hk;
            set (t := inject_Z (Qfloor (x / m))) in *; clearbody t;
            assert (x - m * t < m <-> x < (t + 1) * m) as ->;
            [split; intro; lra | exact Hk]).
  (* the recursion descends on the integer part *)
  all: assert (descends : forall (x y : Q) (k : Z),
                 (0 < k)%Z -> x < inject_Z k -> inject_Z k <= y ->
                 (Z.to_nat (Qfloor x) < Z.to_nat (Qfloor y))%nat).
  all: try (intros x y k Hk Hx Hy;
            assert (Qfloor x < k)%Z
              by (pose proof (Qfloor_le x); rewrite Zlt_Qlt; lra);
            assert (k <= Qfloor y)%Z
              by (rewrite <- (Qfloor_Z k); apply Qfloor_resp_le; exact Hy);
            lia).
  - change (Z.to_nat (Qfloor (rem amount 100)) < Z.to_nat (Qfloor amount))%nat.
    apply (descends _ _ 100%Z); [lia | | assumption].
    exact (rem_lt amount 100 ltac:(lra) ltac:(lra)).
  - change (Z.to_nat (Qfloor (Math_floor (amount / 1000))) < Z.to_nat (Qfloor amount))%nat.
    apply (descends _ _ 1000%Z); [lia | | assumption].
    unfold Math_floor. pose proof (Qfloor_le (amount / 1000)).
    assert (amount / 1000 < 1000) by (apply Qlt_shift_div_r; lra).
    change (inject_Z 1000) with 1000. lra.
  - change (Z.to_nat (Qfloor (rem amount 1000)) < Z.to_nat (Qfloor amount))%nat.
    apply (descends _ _ 1000%Z); [lia | | assumption].
    exact (rem_lt amount 1000 ltac:(lra) ltac:(lra)).
Qed.

(** *** The invoice document *)

(** What the collaborators of one [generateInvoicePDF] run answer. *)
Record Api := mkApi {
  (** [api.get(`/orders/${orderId}`)]: [response.data.order], or [None]
      when the request is rejected *)
  getOrder : string -> option Order.t;
  (** [api.get('orders/next-order-number')]: the field
      [data.nextFormattedOrderNumber], or [None] when the request fails *)
  nextOrderNumber : option (option string);
  (** [new Date().getFullYear()] when the invoice is generated *)
  clockYear : Z;
  (** [window.open] returned a window *)
  popupOpens : bool
}.

(** The interpolations of the invoice template that carry identity and
    money, in the order of the template.  Customer, address, coupon and
    payment lines and all styling are presentation and left out. *)
Record InvoiceDocument := mkInvoice {
  title : string;
  invoiceNo : string;
  invoiceDate : string;
  orderIdLine : string;
  rows : list GstData.t;
  taxableAmountLine : string;
  cgstLine : string;
  sgstLine : string;
  totalGstLine : string;
  subtotalLine : string;
  discountLine : option string;
  shippingLine : string;
  grandTotalLine : string;
  amountInWords : string
}.

(** A document with its invoice number blanked. *)
Definition withoutInvoiceNo (d : InvoiceDocument) : InvoiceDocument :=
  mkInvoice (title d) "" (invoiceDate d) (orderIdLine d) (rows d)
            (taxableAmountLine d) (cgstLine d) (sgstLine d) (totalGstLine d)
            (subtotalLine d) (discountLine d) (shippingLine d) (grandTotalLine d)
            (amountInWords d).

(** [itemsSubtotal]: [(orderData.items || []).reduce(...)] *)
Definition itemsSubtotal (orderData : Order.t) : Q :=
  fold_left (fun sum item => sum + Item.price item * Item.quantity item)
            (match Order.items orderData with Some l => l | None => [] end) 0.

(** [subtotalAfterDiscount = itemsSubtotal - couponDiscount] *)
Definition subtotalAfterDiscount (orderData : Order.t) : Q :=
  let couponDiscount := orNum (Order.discount orderData) 0 in
  itemsSubtotal orderData - couponDiscount.

Section InvoiceDocument.
(** [new Date(orderData.createdAt).toLocaleDateString('en-IN')] *)
Variable toLocaleDateString : option string -> string.

(** [generateInvoicePDF(orderId)]: the document written to the print
    window, or [None] when the run ends in the [catch] block. *)
Definition generateInvoicePDF (api : Api) (orderId : string) : option InvoiceDocument :=
  match getOrder api orderId with
  | None => None
  | Some orderData =>
      let nextFormattedOrderNumber :=
        match nextOrderNumber api with
        | Some formatted => String_ (clockYear api) ++ orStrLit formatted ""
        | None => ""
        end in
      let itemsSubtotal := itemsSubtotal orderData in
      let couponDiscount := orNum (Order.discount orderData) 0 in
      let subtotalAfterDiscount := subtotalAfterDiscount orderData in
      let gstBreakdown := calculateGSTBreakdown orderData subtotalAfterDiscount in
      let shipping :=
        orNum (Order.shippingCharge orderData)
              (if geb subtotalAfterDiscount 500 then 0 else 50) in
      let invoiceContent :=
        {| title := "Invoice - " ++ str (Order._id orderData);
           invoiceNo := nextFormattedOrderNumber;
           invoiceDate := toLocaleDateString (Order.createdAt orderData);
           orderIdLine := str (Order._id orderData);
           rows := match Order.items orderData with
                   | Some l => map (fun item => getIndividualProductGST item orderData) l
                   | None => []
                   end;
           taxableAmountLine := toFixed 2 subtotalAfterDiscount;
           cgstLine := toFixed 2 (GstBreakdown.cgst gstBreakdown);
           sgstLine := toFixed 2 (GstBreakdown.sgst gstBreakdown);
           totalGstLine := toFixed 2 (GstBreakdown.totalGST gstBreakdown);
           subtotalLine := toFixed 2 itemsSubtotal;
           discountLine := if gtb couponDiscount 0
                           then Some (toFixed 2 couponDiscount) else None;
           shippingLine := if Qeq_bool shipping 0 then "Free" else toFixed 2 shipping;
           grandTotalLine := toFixed 2 (orNum (Order.totalAmount orderData) 0);
           amountInWords :=
             str (convertToWords (orNum (Order.totalAmount orderData) 0))
             ++ " Rupees Only" |} in
      if popupOpens api then Some invoiceContent else None
  end.
End InvoiceDocument.

End Orders.

(* ===================================================================== *)
(** ** The checkout page ([config.js], the [CheckoutPage] component) *)
(* ===================================================================== *)

(** [user.address] *)
Module UserAddress.
Record t := mk {
  street : option string;
  locality : option string;
  city : option string;
  state : option string;
  pincode : option string
}.
End UserAddress.

(** The signed-in user ([useAuth().user]). *)
Module User.
Record t := mk {
  name : option string;
  email : option string;
  phone : option string;
  address : option UserAddress.t;
  city : option string;
  state : option string;
  pincode : option string
}.
End User.

(** The address shape [getShippingAddress] returns ([customAddress] has
    the same shape). *)
Module ShippingAddress.
Record t := mk {
  address : string;
  city : string;
  state : string;
  pincode : string;
  phone : string
}.
End ShippingAddress.

(** An entry of the cart ([state.items]). *)
Module CartItem.
Record t := mk {
  _id : option string;
  id : option string;
  quantity : Q;
  price : Q
}.
End CartItem.

Module Checkout.
Import JS.

(** *** Totals *)

(** [GST_RATES] *)
Definition GST_RATES_CGST : Q := 25 # 10.
Definition GST_RATES_SGST : Q := 25 # 10.
Definition GST_RATES_IGST : Q := 5.

(** [calculateSubtotal()] *)
Definition calculateSubtotal (items : list CartItem.t) : Q :=
  fold_left (fun total item => total + CartItem.price item * CartItem.quantity item)
            items 0.

(** What [calculateGST] returns. *)
Record Gst := mkGst { cgst : Q; sgst : Q; totalGST : Q }.

(** [calculateGST(subtotal)] *)
Definition calculateGST (subtotal : Q) : Gst :=
  let cgst := (subtotal * GST_RATES_CGST) / 100 in
  let sgst := (subtotal * GST_RATES_SGST) / 100 in
  let totalGST := cgst + sgst in
  {| cgst := round2 cgst; sgst := round2 sgst; totalGST := round2 totalGST |}.

(** [const shipping = subtotal >= 500 ? 0 : 50] *)
Definition shipping (subtotal : Q) : Q := if geb subtotal 500 then 0 else 50.

(** [const total = subtotal + gstCalculation.totalGST + shipping] *)
Definition total (items : list CartItem.t) : Q :=
  let subtotal := calculateSubtotal items in
  let gstCalculation := calculateGST subtotal in
  subtotal + totalGST gstCalculation + shipping subtotal.

(** *** Page state and collaborators *)

Inductive ToastKind := ToastError | ToastSuccess | ToastDismiss.

(** A request sent to a collaborator. *)
Inductive ApiCall :=
| CreateRazorpayOrder (amount subtotal gst shipping : Q)
| OpenWidget (order_id : string) (amount : Q)
| VerifyPayment (razorpay_order_id razorpay_payment_id razorpay_signature : string)
                (items : list CartItem.t) (shippingAddress : ShippingAddress.t)
                (shipping gst : Q)
| CreateOrder (items : list CartItem.t) (shippingAddress : ShippingAddress.t)
              (shipping gst : Q).

(** The states of the checkout flow.  The code has no such variable: a
    phase names the place the flow has reached. *)
Inductive Phase :=
| Idle
| GatewayInitiating
| GatewayAwaitingUserAction
| VerificationPending
| Settled
| Failed
| Cancelled.

(** The continuation the page waits on. *)
Inductive Pending :=
| NothingPending
| AwaitRazorpayOrder (razorpayKey : string)
| WidgetOpen
| AwaitVerification
| AwaitCreateOrder.

Record Page := mkPage {
  cart : list CartItem.t;
  user : option User.t;
  paymentMethod : string;
  isProcessing : bool;
  useRegisteredAddress : bool;
  customAddress : ShippingAddress.t;
  route : option string;
  toasts : list (ToastKind * string);
  apiCalls : list ApiCall;
  phase : Phase;
  pending : Pending
}.

Definition setIsProcessing (b : bool) (p : Page) : Page :=
  mkPage (cart p) (user p) (paymentMethod p) b (useRegisteredAddress p)
         (customAddress p) (route p) (toasts p) (apiCalls p) (phase p) (pending p).

Definition toast (k : ToastKind) (msg : string) (p : Page) : Page :=
  mkPage (cart p) (user p) (paymentMethod p) (isProcessing p) (useRegisteredAddress p)
         (customAddress p) (route p) (toasts p ++ [(k, msg)]) (apiCalls p) (phase p)
         (pending p).

Definition navigate (path : string) (p : Page) : Page :=
  mkPage (cart p) (user p) (paymentMethod p) (isProcessing p) (useRegisteredAddress p)
         (customAddress p) (Some path) (toasts p) (apiCalls p) (phase p) (pending p).

Definition call (c : ApiCall) (p : Page) : Page :=
  mkPage (cart p) (user p) (paymentMethod p) (isProcessing p) (useRegisteredAddress p)
         (customAddress p) (route p) (toasts p) (apiCalls p ++ [c]) (phase p) (pending p).

Definition enter (ph : Phase) (k : Pending) (p : Page) : Page :=
  mkPage (cart p) (user p) (paymentMethod p) (isProcessing p) (useRegisteredAddress p)
         (customAddress p) (route p) (toasts p) (apiCalls p) ph k.

(** Modelled from the spec: the [CLEAR_CART] case of the cart reducer
    ([CartContext], not among the sources); the cart is cleared atomically,
    that is, left without items. *)
Definition dispatch_CLEAR_CART (p : Page) : Page :=
  mkPage [] (user p) (paymentMethod p) (isProcessing p) (useRegisteredAddress p)
         (customAddress p) (route p) (toasts p) (apiCalls p) (phase p) (pending p).

(** Statements in sequence: [p |> f |> g] runs [f], then [g]. *)
Notation "p |> f" := (f p) (at level 45, left associativity, only parsing).

(** What a promise settles to. *)
Inductive Answer (A : Type) :=
| Resolves (a : A)
| Rejects.
Arguments Resolves {A} a.
Arguments Rejects {A}.

(** What the Razorpay widget reports. *)
Inductive WidgetEvent :=
| PaymentCompleted (razorpay_order_id razorpay_payment_id razorpay_signature : string)
| PaymentFailed (description : string)
| Dismissed.

(** What happens to the page. *)
Inductive Event :=
| ClickProceed
| RazorpayOrderAnswer (orderId : Answer (option string))
| Widget (e : WidgetEvent)
| VerificationAnswer (success : Answer Value)
| CreateOrderAnswer (_id : Answer (option string)).

(** What the page reads from its host. *)
Record Host := mkHost {
  (** [import.meta.env.VITE_RAZORPAY_KEY_ID] *)
  VITE_RAZORPAY_KEY_ID : option string;
  (** [window.Razorpay] is there *)
  windowRazorpay : bool
}.

(** *** Address *)

Fixpoint join (sep : string) (parts : list string) : string :=
  match parts with
  | [] => ""
  | [x] => x
  | x :: rest => x ++ sep ++ join sep rest
  end.

Definition pushIf (o : option string) : list string :=
  if truthyStr o then [orStrLit o ""] else [].

(** [formatAddress(addressObj)] at an address object. *)
Definition formatAddress (addressObj : UserAddress.t) : string :=
  join ", " (pushIf (UserAddress.street addressObj)
             ++ pushIf (UserAddress.locality addressObj)
             ++ pushIf (UserAddress.city addressObj)
             ++ pushIf (UserAddress.state addressObj)
             ++ pushIf (UserAddress.pincode addressObj)).

(** [user?.address] *)
Definition userAddress (p : Page) : option UserAddress.t :=
  match user p with Some u => User.address u | None => None end.

(** [getShippingAddress()] *)
Definition getShippingAddress (p : Page) : ShippingAddress.t :=
  match useRegisteredAddress p, user p with
  | true, Some u =>
      match User.address u with
      | Some a =>
          {| ShippingAddress.address := formatAddress a;
             ShippingAddress.city := orStrLit (orStr (UserAddress.city a) (User.city u)) "";
             ShippingAddress.state := orStrLit (orStr (UserAddress.state a) (User.state u)) "";
             ShippingAddress.pincode :=
               orStrLit (orStr (UserAddress.pincode a) (User.pincode u)) "";
             ShippingAddress.phone := orStrLit (User.phone u) "" |}
      | None => customAddress p
      end
  | _, _ => customAddress p
  end.

Definition nonEmpty (s : string) : bool := negb (String.length s =? 0)%nat.

(** [validateAddress()]: the page after the toast, and the verdict. *)
Definition validateAddress (p : Page) : Page * bool :=
  let address := getShippingAddress p in
  match useRegisteredAddress p, userAddress p with
  | true, Some a =>
      let hasRequiredFields :=
        truthyStr (UserAddress.street a) && truthyStr (UserAddress.city a)
        && truthyStr (UserAddress.state a) && truthyStr (UserAddress.pincode a) in
      if negb hasRequiredFields then
        (p |> toast ToastError "Please complete your registered address in profile settings",
         false)
      else if negb (String.length (orStrLit (UserAddress.pincode a) "") =? 6)%nat then
        (p |> toast ToastError "Please enter a valid 6-digit pincode in your profile",
         false)
      else (p, true)
  | _, _ =>
      if negb (nonEmpty (ShippingAddress.address address))
         || negb (nonEmpty (ShippingAddress.city address))
         || negb (nonEmpty (ShippingAddress.state address))
         || negb (nonEmpty (ShippingAddress.pincode address)) then
        (p |> toast ToastError "Please fill in all address fields", false)
      else if negb (String.length (ShippingAddress.pincode address) =? 6)%nat then
        (p |> toast ToastError "Please enter a valid 6-digit pincode", false)
      else (p, true)
  end.

(** *** The payment flow

    [handleProceedToPayment] is an [async] function: it runs until its
    first [await], and the rest runs when the promise settles.  Each
    definition below is one such stretch of the source. *)

(** [items: state.items.map(item => ({product, quantity, price}))] keeps
    the entries; the payload is recorded as the cart it was built from. *)
Definition orderItems (p : Page) : list CartItem.t := cart p.

(** [handleCODOrder], up to [await ordersApi.createOrder(...)]. *)
Definition handleCODOrder (p : Page) : Page :=
  let subtotal := calculateSubtotal (cart p) in
  let gstCalculation := calculateGST subtotal in
  p |> call (CreateOrder (orderItems p) (getShippingAddress p)
                         (if geb subtotal 500 then 0 else 50)
                         (totalGST gstCalculation))
    |> enter VerificationPending AwaitCreateOrder.

(** [handleCODOrder], from the answer of [createOrder] on. *)
Definition handleCODOrder_resume (response : Answer (option string)) (p : Page) : Page :=
  match response with
  | Resolves _id =>
      if truthyStr _id then
        p |> toast ToastSuccess "Order placed successfully!"
          |> dispatch_CLEAR_CART
          |> navigate "/orders"
          |> setIsProcessing false
          |> enter Settled NothingPending
      else
        (* throw new Error('Failed to create order'), caught below *)
        p |> toast ToastError "Failed to place order. Please try again."
          |> setIsProcessing false
          |> enter Failed NothingPending
  | Rejects =>
      p |> toast ToastError "Failed to place order. Please try again."
        |> setIsProcessing false
        |> enter Failed NothingPending
  end.

(** [handleProceedToPayment], up to its first [await].  Nothing in this
    stretch throws in the model, so the outer [catch] of the source
    ("Payment failed. Please try again.") is never entered. *)
Definition handleProceedToPayment (h : Host) (p : Page) : Page :=
  match user p with
  | None =>
      p |> navigate "/login" |> toast ToastError "Please login to continue"
  | Some _ =>
      let '(p, valid) := validateAddress p in
      if negb valid then p
      else
        let p := p |> setIsProcessing true in
        if String.eqb (paymentMethod p) "razorpay" then
          let razorpayKey := VITE_RAZORPAY_KEY_ID h in
          if negb (truthyStr razorpayKey)
             || negb (startsWith "rzp_" (orStrLit razorpayKey "")) then
            p |> toast ToastDismiss "cart-empty"
              |> toast ToastError "Invalid Razorpay configuration. Please contact support."
              |> setIsProcessing false
              |> enter Failed NothingPending
          else
            let subtotal := calculateSubtotal (cart p) in
            let gstCalculation := calculateGST subtotal in
            p |> call (CreateRazorpayOrder (total (cart p)) subtotal
                                           (totalGST gstCalculation) (shipping subtotal))
              |> enter GatewayInitiating (AwaitRazorpayOrder (orStrLit razorpayKey ""))
        else handleCODOrder p
  end.

(** [handleProceedToPayment], from the answer of [createRazorpayOrder]
    to [razorpay.open()]. *)
Definition handleProceedToPayment_resume (h : Host)
    (orderResponse : Answer (option string)) (p : Page) : Page :=
  let orderError :=
    p |> toast ToastError "Failed to initiate payment. Please try again."
      |> setIsProcessing false
      |> enter Failed NothingPending in
  match orderResponse with
  | Resolves orderId =>
      if negb (truthyStr orderId) then
        (* throw new Error('Failed to create order') *)
        orderError
      else if negb (windowRazorpay h) then
        p |> toast ToastDismiss "cart-empty"
          |> toast ToastError "Payment system not loaded. Please refresh and try again."
          |> setIsProcessing false
          |> enter Failed NothingPending
      else
        p |> call (OpenWidget (orStrLit orderId "") (total (cart p) * 100))
          |> enter GatewayAwaitingUserAction WidgetOpen
  | Rejects => orderError
  end.

(** [options.handler], up to [await ordersApi.verifyPayment(...)]. *)
Definition handler (razorpay_order_id razorpay_payment_id razorpay_signature : string)
    (p : Page) : Page :=
  let subtotal := calculateSubtotal (cart p) in
  let gstCalculation := calculateGST subtotal in
  p |> call (VerifyPayment razorpay_order_id razorpay_payment_id razorpay_signature
                           (orderItems p) (getShippingAddress p)
                           (if geb subtotal 500 then 0 else 50)
                           (totalGST gstCalculation))
    |> enter VerificationPending AwaitVerification.

(** [options.handler], from the answer of [verifyPayment] on:
    [if (verificationResponse.success)] tests the field for truthiness. *)
Definition handler_resume (verificationResponse : Answer Value) (p : Page) : Page :=
  let error :=
    p |> toast ToastDismiss "cart-empty"
      |> toast ToastError "Payment verification failed. Please contact support."
      |> setIsProcessing false
      |> enter Failed NothingPending in
  match verificationResponse with
  | Resolves success =>
      if truthyValue success then
        p |> toast ToastDismiss "cart-empty"
          |> toast ToastSuccess "Payment successful!"
          |> dispatch_CLEAR_CART
          |> navigate "/orders"
          |> setIsProcessing false
          |> enter Settled NothingPending
      else
        (* throw new Error('Payment verification failed') *)
        error
  | Rejects => error
  end.

(** [options.modal.ondismiss]: the flag is cleared; [toast.info] is not
    a function of the toast library, so the call that follows throws and
    shows nothing. *)
Definition ondismiss (p : Page) : Page :=
  p |> setIsProcessing false
    |> enter Cancelled NothingPending.

(** [razorpay.on('payment.failed', ...)]; the widget stays open. *)
Definition payment_failed (description : string) (p : Page) : Page :=
  p |> toast ToastDismiss "cart-empty"
    |> toast ToastError ("Payment failed: " ++ description)
    |> setIsProcessing false
    |> enter Failed WidgetOpen.

(** The Proceed button is part of the regular view, which the component
    renders only when [state.items.length !== 0]; it carries
    [disabled={isProcessing}].  A click reaches [handleProceedToPayment]
    only through an enabled button, and the button a click meets shows the
    state the event before it left: the page is rendered again after every
    event. *)
Definition proceedButtonEnabled (p : Page) : bool :=
  negb (length (cart p) =? 0)%nat && negb (isProcessing p).

(** One event of one attempt, run to completion.  An answer or a widget
    event the page does not wait for changes nothing.  The page follows
    one attempt at a time; [CheckoutFlow] below keeps the continuation of
    every attempt. *)
Definition step (h : Host) (p : Page) (e : Event) : Page :=
  match e, pending p with
  | ClickProceed, _ =>
      if proceedButtonEnabled p then handleProceedToPayment h p else p
  | RazorpayOrderAnswer orderResponse, AwaitRazorpayOrder _ =>
      handleProceedToPayment_resume h orderResponse p
  | Widget (PaymentCompleted oid pid sig), WidgetOpen => handler oid pid sig p
  | Widget (PaymentFailed description), WidgetOpen => payment_failed description p
  | Widget Dismissed, WidgetOpen => ondismiss p
  | VerificationAnswer verificationResponse, AwaitVerification =>
      handler_resume verificationResponse p
  | CreateOrderAnswer response, AwaitCreateOrder => handleCODOrder_resume response p
  | _, _ => p
  end.

(** A sequence of events. *)
Definition run (h : Host) (p : Page) (es : list Event) : Page :=
  fold_left (step h) es p.

(** Number of gateway orders requested so far. *)
Definition gatewayOrders (p : Page) : nat :=
  length (filter (fun c => match c with CreateRazorpayOrder _ _ _ _ => true | _ => false end)
                 (apiCalls p)).

End Checkout.

(* ===================================================================== *)
(** ** The specification's amount-to-words decomposition *)
(* ===================================================================== *)

(** The words of an integer amount as the specification describes them:
    ones, teens and tens below a hundred, a hundreds group, a thousands
    group.  Written without recursion, to be compared with
    [Orders.convertToWords]. *)
Module Spec.

Definition word (l : list string) (k : Z) : string := nth (Z.to_nat k) l "".

Definition belowHundred (n : Z) : string :=
  if (n <? 10)%Z then word Orders.ones n
  else if (n <? 20)%Z then word Orders.teens (n - 10)
  else word Orders.tens (n / 10)
       ++ (if (n mod 10 =? 0)%Z then "" else " " ++ word Orders.ones (n mod 10)).

Definition belowThousand (n : Z) : string :=
  if (n <? 100)%Z then belowHundred n
  else word Orders.ones (n / 100) ++ " Hundred"
       ++ (if (n mod 100 =? 0)%Z then "" else " " ++ belowHundred (n mod 100)).

Definition amountToWords (n : Z) : string :=
  if (n =? 0)%Z then "Zero"
  else if (n <? 1000)%Z then belowThousand n
  else belowHundred (n / 1000) ++ " Thousand"
       ++ (if (n mod 1000 =? 0)%Z then "" else " " ++ belowThousand (n mod 1000)).

(** The words of [count] amounts from [n] on are not the placeholder. *)
Fixpoint wordsFrom (count : nat) (n : Z) : bool :=
  match count with
  | O => true
  | S count' =>
      negb (String.eqb (amountToWords n) "Amount too large")
      && wordsFrom count' (n + 1)
  end.

End Spec.

(* ===================================================================== *)
(** ** Sample data *)
(* ===================================================================== *)

Module Samples.
Import Checkout Orders.

Definition orderId : string := "64f0c2a9e1b2c3d4e5f6a7b8".

(** An order item without product document: price, quantity, the stored
    [gst] amount and the stored [gstRate]. *)
Definition item (price quantity : Q) (gst gstRate : option Q) : Item.t :=
  {| Item.product := None; Item.quantity := quantity; Item.price := price;
     Item.basePrice := None; Item.gst := gst; Item.gstAmount := None;
     Item.gstRate := gstRate; Item.hsn := None |}.

(** Order number 124 of 14 March 2025, with the given items. *)
Definition order (items : option (list Item.t)) : Order.t :=
  {| Order._id := Some orderId;
     Order.invoiceNumber := None; Order.invoiceOrderNumber := None;
     Order.orderNumber := Some 124%Z; Order.formattedOrderNumber := Some "000124";
     Order.createdAt := Some "2025-03-14T10:00:00.000Z";
     Order.items := items;
     Order.discount := None; Order.discountedSubtotal := None;
     Order.gstAmount := None; Order.shippingCharge := None;
     Order.totalAmount := None; Order.couponCode := None |}.

(** An order without an items array, with order-level amounts only. *)
Definition orderLevel (gstAmount discountedSubtotal : option Q) : Order.t :=
  {| Order._id := Some orderId;
     Order.invoiceNumber := None; Order.invoiceOrderNumber := None;
     Order.orderNumber := Some 124%Z; Order.formattedOrderNumber := Some "000124";
     Order.createdAt := Some "2025-03-14T10:00:00.000Z";
     Order.items := None;
     Order.discount := None; Order.discountedSubtotal := discountedSubtotal;
     Order.gstAmount := gstAmount; Order.shippingCharge := None;
     Order.totalAmount := None; Order.couponCode := None |}.


(** An order that stores every identity field. *)
Definition identified : Order.t :=
  {| Order._id := Some orderId;
     Order.invoiceNumber := Some "2025000042";
     Order.invoiceOrderNumber := Some "2025000077";
     Order.orderNumber := Some 7%Z; Order.formattedOrderNumber := Some "000007";
     Order.createdAt := Some "2025-03-14T10:00:00.000Z";
     Order.items := None;
     Order.discount := None; Order.discountedSubtotal := None;
     Order.gstAmount := None; Order.shippingCharge := None;
     Order.totalAmount := None; Order.couponCode := None |}.

(** A stand-in for the host's calendar on ISO 8601 stamps: the year the
    stamp starts with. *)
Definition yearOfStamp (s : string) : Z :=
  match JS.parseFloat (substring 0 4 s) with
  | Some q => Qfloor q
  | None => 0%Z
  end.

(** A stand-in for [toLocaleDateString('en-IN')] on ISO 8601 stamps. *)
Definition formatDate (createdAt : option string) : string :=
  match createdAt with
  | Some s => substring 8 2 s ++ "/" ++ substring 5 2 s ++ "/" ++ substring 0 4 s
  | None => "Invalid Date"
  end.

(** The order service answers with [o]; the counter stands at [next]. *)
Definition api (o : Order.t) (next : string) (year : Z) : Api :=
  {| getOrder := fun _ => Some o; nextOrderNumber := Some (Some next);
     clockYear := year; popupOpens := true |}.

Definition shopper : User.t :=
  {| User.name := Some "Asha"; User.email := Some "asha@example.com";
     User.phone := Some "9000000000";
     User.address := Some {| UserAddress.street := Some "12 MG Road";
                             UserAddress.locality := None;
                             UserAddress.city := Some "Pune";
                             UserAddress.state := Some "MH";
                             UserAddress.pincode := Some "411001" |};
     User.city := None; User.state := None; User.pincode := None |}.

(** Two units at 150.00: a subtotal of 300.00. *)
Definition basket : list CartItem.t :=
  [ {| CartItem._id := Some "p1"; CartItem.id := None;
       CartItem.quantity := 2; CartItem.price := 150 |} ].

(** The checkout page as it mounts for [shopper] with [basket]. *)
Definition page (method : string) : Page :=
  {| cart := basket; user := Some shopper; paymentMethod := method;
     isProcessing := false; useRegisteredAddress := true;
     customAddress := ShippingAddress.mk "" "" "" "" "";
     route := None; toasts := []; apiCalls := [];
     phase := Idle; pending := NothingPending |}.

Definition host : Host :=
  {| VITE_RAZORPAY_KEY_ID := Some "rzp_test_1"; windowRazorpay := true |}.

End Samples.

(* ===================================================================== *)
(** ** String built-ins of the list views and the middleware *)
(* ===================================================================== *)

Module JSString.

(** One character of [toLowerCase]: the ASCII capitals. *)
Definition lowerChar (c : ascii) : ascii :=
  let n := nat_of_ascii c in
  if ((65 <=? n) && (n <=? 90))%nat then ascii_of_nat (n + 32) else c.

(** [s.toLowerCase()] *)
Fixpoint toLowerCase (s : string) : string :=
  match s with
  | String c r => String (lowerChar c) (toLowerCase r)
  | EmptyString => ""
  end.

(** [s.includes(t)] *)
Fixpoint includes (s t : string) : bool :=
  String.prefix t s
  || match s with
     | String _ r => includes r t
     | EmptyString => false
     end.

(** [s] without its prefix [p], when it starts with [p]. *)
Fixpoint stripPrefix (p s : string) : option string :=
  match p, s with
  | EmptyString, _ => Some s
  | String a p', String b s' => if Ascii.eqb a b then stripPrefix p' s' else None
  | String _ _, EmptyString => None
  end.

(** [s.replace(pat, rep)] with a string pattern: the first occurrence of
    [pat] is replaced ([rep] without [$]). *)
Fixpoint replace (pat rep s : string) : string :=
  match stripPrefix pat s with
  | Some rest => rep ++ rest
  | None =>
      match s with
      | String c r => String c (replace pat rep r)
      | EmptyString => ""
      end
  end.

(** [s.split(sep)] with a one-character separator. *)
Fixpoint split (sep : ascii) (s : string) : list string :=
  match s with
  | EmptyString => [""]
  | String c r =>
      if Ascii.eqb c sep then "" :: split sep r
      else match split sep r with
           | x :: xs => String c x :: xs
           | [] => [String c ""]
           end
  end.

(** [l.pop()]: the last element, [undefined] on an empty array. *)
Fixpoint pop (l : list string) : option string :=
  match l with
  | [] => None
  | [x] => Some x
  | _ :: rest => pop rest
  end.

End JSString.

(* ===================================================================== *)
(** ** Reading the digits of a number *)
(* ===================================================================== *)

(** What [JS.readDigits] and [JS.parseFloat] compute, named: used to state
    that [parseFloat] reads back what [toFixed] wrote. *)
Module NumberText.
Import JS.

(** Every character is a decimal digit. *)
Fixpoint allDigits (s : string) : bool :=
  match s with
  | String c r => match digitVal c with Some _ => allDigits r | None => false end
  | EmptyString => true
  end.

Definition startsWithDigit (s : string) : bool :=
  match s with
  | String c _ => match digitVal c with Some _ => true | None => false end
  | EmptyString => false
  end.

(** The number a string of digits denotes, after the digits [acc]. *)
Fixpoint valueOf (s : string) (acc : Z) : Z :=
  match s with
  | String c r =>
      match digitVal c with
      | Some v => valueOf r (acc * 10 + v)%Z
      | None => acc
      end
  | EmptyString => acc
  end.

(** The number a decimal numeral denotes, after the digits [acc]. *)
Fixpoint uintValue (d : Decimal.uint) (acc : Z) : Z :=
  match d with
  | Decimal.Nil => acc
  | Decimal.D0 l => uintValue l (acc * 10 + 0)%Z
  | Decimal.D1 l => uintValue l (acc * 10 + 1)%Z
  | Decimal.D2 l => uintValue l (acc * 10 + 2)%Z
  | Decimal.D3 l => uintValue l (acc * 10 + 3)%Z
  | Decimal.D4 l => uintValue l (acc * 10 + 4)%Z
  | Decimal.D5 l => uintValue l (acc * 10 + 5)%Z
  | Decimal.D6 l => uintValue l (acc * 10 + 6)%Z
  | Decimal.D7 l => uintValue l (acc * 10 + 7)%Z
  | Decimal.D8 l => uintValue l (acc * 10 + 8)%Z
  | Decimal.D9 l => uintValue l (acc * 10 + 9)%Z
  end.

(** [parseFloat] after the sign: the body of [JS.parseFloat]. *)
Definition parseBody (neg : bool) (body : string) : option Q :=
  let '(ip, il, rest) := readDigits body 0%Z O in
  let '(fp, fl) :=
    match rest with
    | String "." r => let '(v, l, _) := readDigits r 0%Z O in (v, l)
    | _ => (0%Z, O)
    end in
  match (il + fl)%nat with
  | O => None
  | _ =>
      let v := inject_Z ip + inject_Z fp / inject_Z (10 ^ Z.of_nat fl) in
      Some (if neg then - v else v)
  end.

(** The sign [toFixed] writes, as a factor. *)
Definition signOf (x : Q) : Q := if ltb x 0 then - (1) else 1.

End NumberText.

(* ===================================================================== *)
(** ** The amounts of a ledger line before formatting *)
(* ===================================================================== *)

Module Ledger.
Import JS Orders.

(** [totalGstAmount] of [getIndividualProductGST], the number that is
    then formatted with [toFixed(2)]: in Method 1 the stored per-unit
    amount times the quantity, in Method 2 the line amount less its base
    price. *)
Definition totalGstAmount (item : Item.t) : Q :=
  if hasStoredGst item then storedGstAmountPerUnit item * Item.quantity item
  else
    let totalItemAmount :=
      orNum (Some (Item.price item)) 0 * orNum (Some (Item.quantity item)) 0 in
    totalItemAmount - totalItemAmount / (1 + productGstRate item / 100).

(** The sum of [totalGstAmount] over the items. *)
Definition exactTotalGst (items : list Item.t) : Q :=
  fold_right (fun item sum => totalGstAmount item + sum) 0 items.

(** Method 2 divides by [1 + rate / 100]; an item is within the model
    when it is handled by Method 1 or that divisor is not zero. *)
Definition divisible (item : Item.t) : Prop :=
  hasStoredGst item = true \/ ~ 1 + productGstRate item / 100 == 0.

End Ledger.

(* ===================================================================== *)
(** ** The list of orders ([FreshVegetables.jsx], the [Orders] component) *)
(* ===================================================================== *)

(** [order.shippingAddress] *)
Module OrderAddress.
Record t := mk {
  address : option string;
  city : option string;
  state : option string;
  pincode : option string;
  phone : option string
}.
End OrderAddress.

(** An order of the list: the stored order with the two fields only the
    list reads. *)
Module ListedOrder.
Record t := mk {
  order : Order.t;
  status : option string;
  shippingAddress : option OrderAddress.t
}.
End ListedOrder.

Module OrderList.
Import JS JSString Orders.

Definition FALLBACK_IMAGE : string := "/images/product-placeholder.jpg".

(** [getProductImage(imagePath)]; [BASE_URL] is
    [import.meta.env.VITE_BASE_URL]. *)
Definition getProductImage (BASE_URL : option string) (imagePath : option string) : string :=
  if negb (truthyStr imagePath) then FALLBACK_IMAGE
  else
    let imagePath := orStrLit imagePath "" in
    if startsWith "http" imagePath then imagePath
    else if startsWith "/uploads" imagePath then str BASE_URL ++ imagePath
    else
      let filename := pop (split "/" imagePath) in
      str BASE_URL ++ "/uploads/product/" ++ str filename.

(** [x && `${label}${x}`]: the labelled value, or the falsy [x]. *)
Definition labelled (label : string) (x : option string) : option string :=
  if truthyStr x then Some (label ++ orStrLit x "") else x.

(** [[...].filter(Boolean)] on possibly-[undefined] strings. *)
Definition filterBoolean (parts : list (option string)) : list string :=
  flat_map (fun x => if truthyStr x then [orStrLit x ""] else []) parts.

(** [formatAddress(address)] of the list. *)
Definition formatAddress (address : option OrderAddress.t) : string :=
  match address with
  | None => "Address not available"
  | Some address =>
      let parts :=
        filterBoolean
          [OrderAddress.address address;
           OrderAddress.city address;
           OrderAddress.state address;
           labelled "PIN: " (OrderAddress.pincode address);
           labelled "Phone: " (OrderAddress.phone address)] in
      orStrLit (Some (Checkout.join ", " parts)) "Address details not available"
  end.

(** [item?.product?.name?.toLowerCase().includes(searchString)] *)
Definition nameMatches (searchString : string) (item : Item.t) : bool :=
  match productField Product.name item with
  | Some name => includes (toLowerCase name) searchString
  | None => false
  end.

(** The callback of [orders.filter] in [filteredOrders]. *)
Definition listed (searchQuery filter : string) (order : option ListedOrder.t) : bool :=
  match order with
  | None => false
  | Some order =>
      let searchString := toLowerCase searchQuery in
      let matchesSearch :=
        includes (toLowerCase (orStrLit (Order._id (ListedOrder.order order)) ""))
                 searchString
        || existsb (nameMatches searchString)
                   (match Order.items (ListedOrder.order order) with
                    | Some items => items
                    | None => []
                    end) in
      if String.eqb filter "all" then matchesSearch
      else matchesSearch
           && String.eqb (toLowerCase (orStrLit (ListedOrder.status order) "")) filter
  end.

(** [filteredOrders]; the [orders] state always holds an array. *)
Definition filteredOrders (orders : list (option ListedOrder.t))
    (searchQuery filter : string) : list (option ListedOrder.t) :=
  List.filter (listed searchQuery filter) orders.

End OrderList.

(* ===================================================================== *)
(** ** The fresh-vegetables page ([FreshVegetables.jsx], the
       [FreshVegetables] component) *)
(* ===================================================================== *)

(** A product as [productsApi.getAllProducts] returns it; only the fields
    the page reads. *)
Module CatalogProduct.
Record t := mk {
  _id : option string;
  name : option string;
  category : option string;
  subcategory : option string;
  status : option string;
  stock : option Q
}.
End CatalogProduct.

Module FreshVegetables.
Import JS JSString.

(** [Set] of product ids: the ids in insertion order, each once. *)
Definition has (x : string) (s : list string) : bool := existsb (String.eqb x) s.
Definition add (x : string) (s : list string) : list string :=
  if has x s then s else (s ++ [x])%list.
Definition delete (x : string) (s : list string) : list string :=
  List.filter (fun y => negb (String.eqb x y)) s.

(** A request to the wishlist service. *)
Inductive WishlistCall :=
| addToWishlist (productId : string)
| removeFromWishlist (productId : string).

Record Shop := mkShop {
  products : list CatalogProduct.t;
  wishlist : list string;
  loading : bool;
  error : option string;
  (** [auth?.user && !auth?.loading] *)
  isAuthenticated : bool;
  toasts : list (Checkout.ToastKind * string);
  route : option string;
  (** payloads of the [ADD_TO_CART] actions dispatched *)
  addedToCart : list CatalogProduct.t;
  wishlistCalls : list WishlistCall
}.

Definition setProducts (l : list CatalogProduct.t) (s : Shop) : Shop :=
  mkShop l (wishlist s) (loading s) (error s) (isAuthenticated s) (toasts s) (route s)
         (addedToCart s) (wishlistCalls s).
Definition setWishlist (w : list string) (s : Shop) : Shop :=
  mkShop (products s) w (loading s) (error s) (isAuthenticated s) (toasts s) (route s)
         (addedToCart s) (wishlistCalls s).
Definition setLoading (b : bool) (s : Shop) : Shop :=
  mkShop (products s) (wishlist s) b (error s) (isAuthenticated s) (toasts s) (route s)
         (addedToCart s) (wishlistCalls s).
Definition setError (e : option string) (s : Shop) : Shop :=
  mkShop (products s) (wishlist s) (loading s) e (isAuthenticated s) (toasts s) (route s)
         (addedToCart s) (wishlistCalls s).
Definition toast (k : Checkout.ToastKind) (msg : string) (s : Shop) : Shop :=
  mkShop (products s) (wishlist s) (loading s) (error s) (isAuthenticated s)
         (toasts s ++ [(k, msg)]) (route s) (addedToCart s) (wishlistCalls s).
Definition navigate (path : string) (s : Shop) : Shop :=
  mkShop (products s) (wishlist s) (loading s) (error s) (isAuthenticated s) (toasts s)
         (Some path) (addedToCart s) (wishlistCalls s).
Definition dispatch_ADD_TO_CART (product : CatalogProduct.t) (s : Shop) : Shop :=
  mkShop (products s) (wishlist s) (loading s) (error s) (isAuthenticated s) (toasts s)
         (route s) (addedToCart s ++ [product]) (wishlistCalls s).
Definition callWishlist (c : WishlistCall) (s : Shop) : Shop :=
  mkShop (products s) (wishlist s) (loading s) (error s) (isAuthenticated s) (toasts s)
         (route s) (addedToCart s) (wishlistCalls s ++ [c]).

Notation "p |> f" := (f p) (at level 45, left associativity, only parsing).

(** What [productsApi.getAllProducts()] settles to. *)
Inductive Fetched :=
| FetchedArray (data : list (option CatalogProduct.t))
| FetchedOther
| FetchFailed (message : option string).

(** The callback of [allProducts.filter] in [loadProducts] on a product
    that is there. *)
Definition isFreshVegetable (product : CatalogProduct.t) : bool :=
  let hasFreshSubcategory :=
    match CatalogProduct.subcategory product with
    | Some subcategory => includes (toLowerCase subcategory) "fresh"
    | None => false
    end in
  let isVegetable :=
    match CatalogProduct.category product with
    | Some category => String.eqb (toLowerCase category) "vegetables"
    | None => false
    end in
  let isActive :=
    match CatalogProduct.status product with
    | Some status => String.eqb status "active"
    | None => false
    end in
  hasFreshSubcategory && isVegetable && isActive.

(** [allProducts.filter(...)]: the callback logs [product.name], which
    throws on an entry that is [null]; [None] is that exception. *)
Fixpoint filterFreshVegetables (allProducts : list (option CatalogProduct.t))
  : option (list CatalogProduct.t) :=
  match allProducts with
  | [] => Some []
  | None :: _ => None
  | Some product :: rest =>
      match filterFreshVegetables rest with
      | Some kept => Some (if isFreshVegetable product then product :: kept else kept)
      | None => None
      end
  end.

(** [loadProducts] with the answer of [getAllProducts];
    [typeErrorMessage] is the message of the [TypeError] the engine
    raises for [product.name] on [null]. *)
Definition loadProducts (typeErrorMessage : string) (data : Fetched) (s : Shop) : Shop :=
  let s := s |> setLoading true |> setError None in
  let failed (message : option string) :=
    s |> setError message |> setProducts []
      |> toast Checkout.ToastError "Failed to load products"
      |> setLoading false in
  match data with
  | FetchedArray allProducts =>
      match filterFreshVegetables allProducts with
      | Some kept => s |> setProducts kept |> setLoading false
      | None => failed (Some typeErrorMessage)
      end
  | FetchedOther => s |> setProducts [] |> setLoading false
  | FetchFailed message => failed message
  end.

Inductive StatusType := unavailable | out_of_stock | available.

(** [getProductStatus(product)]: the [type] of what it returns. *)
Definition getProductStatus (product : option CatalogProduct.t) : StatusType :=
  match product with
  | None => available
  | Some product =>
      if match CatalogProduct.status product with
         | Some status => String.eqb status "inactive"
         | None => false
         end
      then unavailable
      else if match CatalogProduct.stock product with
              | Some stock => Qeq_bool stock 0
              | None => false
              end
      then out_of_stock
      else available
  end.

(** The [message] of what [getProductStatus] returns. *)
Definition statusMessage (t : StatusType) : string :=
  match t with
  | unavailable => "Product is unavailable"
  | out_of_stock => "Out of stock"
  | available => "Available"
  end.

(** [handleAddToCart(product)] *)
Definition handleAddToCart (product : option CatalogProduct.t) (s : Shop) : Shop :=
  match product with
  | None => s
  | Some p =>
      if negb (isAuthenticated s) then
        s |> toast Checkout.ToastError "Please login to add items to cart"
          |> navigate "/login"
      else
        match getProductStatus product with
        | available =>
            s |> dispatch_ADD_TO_CART p
              |> toast Checkout.ToastSuccess
                   ("Added " ++ str (CatalogProduct.name p) ++ " to cart!")
        | t =>
            s |> toast Checkout.ToastError
                   ("Sorry, " ++ toLowerCase (statusMessage t) ++ "!")
        end
  end.

(** [toggleWishlist(productId)]; [answer] is what the one request it
    sends settles to. *)
Definition toggleWishlist (productId : option string) (answer : Checkout.Answer unit)
    (s : Shop) : Shop :=
  if negb (truthyStr productId) then s
  else if negb (isAuthenticated s) then
    s |> toast Checkout.ToastError "Please login to add items to wishlist"
      |> navigate "/login"
  else
    let productId := orStrLit productId "" in
    let failed (s : Shop) :=
      s |> toast Checkout.ToastError "Failed to update wishlist" in
    if has productId (wishlist s) then
      let s' := s |> callWishlist (removeFromWishlist productId) in
      match answer with
      | Checkout.Resolves _ =>
          s' |> toast Checkout.ToastSuccess "Removed from wishlist"
             |> setWishlist (delete productId (wishlist s))
      | Checkout.Rejects => failed s'
      end
    else
      let s' := s |> callWishlist (addToWishlist productId) in
      match answer with
      | Checkout.Resolves _ =>
          s' |> toast Checkout.ToastSuccess "Added to wishlist"
             |> setWishlist (add productId (wishlist s))
      | Checkout.Rejects => failed s'
      end.

End FreshVegetables.

(* ===================================================================== *)
(** ** The authentication middleware ([middleware/auth.js]) *)
(* ===================================================================== *)

Module Middleware.
Import JS JSString.

(** The payload [jwt.verify] returns. *)
Record Decoded := mkDecoded {
  userId : option string;
  id : option string
}.

(** A user document; only the field the middleware reads. *)
Record UserDoc := mkUserDoc {
  _id : string;
  role : option string
}.

(** The collaborators: [jwt.verify(token, process.env.JWT_SECRET)],
    [None] when it throws, and [User.findOne({ _id })], which rejects
    when the query fails. *)
Record Deps := mkDeps {
  verify : string -> option Decoded;
  findOne : option string -> Checkout.Answer (option UserDoc)
}.

(** How the middleware ends: a JSON reply with a status, or [next()] with
    [req.user] and [req.token] set. *)
Inductive Outcome :=
| Reply (status : Z) (message : string)
| Next (user : UserDoc) (token : string).

(** [req.header('Authorization')?.replace('Bearer ', '')] *)
Definition tokenOf (authorization : option string) : option string :=
  match authorization with
  | Some header => Some (replace "Bearer " "" header)
  | None => None
  end.

(** [exports.auth] *)
Definition auth (d : Deps) (authorization : option string) : Outcome :=
  let token := tokenOf authorization in
  if negb (truthyStr token) then Reply 401 "Authentication required"
  else
    let token := orStrLit token "" in
    match verify d token with
    | None => Reply 401 "Invalid token"
    | Some decoded =>
        let userId := orStr (userId decoded) (id decoded) in
        match findOne d userId with
        | Checkout.Rejects => Reply 401 "Invalid token"
        | Checkout.Resolves None => Reply 401 "User not found"
        | Checkout.Resolves (Some user) => Next user token
        end
    end.

(** [exports.adminAuth] *)
Definition adminAuth (d : Deps) (authorization : option string) : Outcome :=
  let token := tokenOf authorization in
  if negb (truthyStr token) then Reply 401 "Authentication required"
  else
    let token := orStrLit token "" in
    match verify d token with
    | None => Reply 403 "Access denied"
    | Some decoded =>
        let userId := orStr (userId decoded) (id decoded) in
        match findOne d userId with
        | Checkout.Rejects => Reply 403 "Access denied"
        | Checkout.Resolves None => Reply 401 "User not found"
        | Checkout.Resolves (Some user) =>
            if match role user with
               | Some role => negb (String.eqb role "admin")
               | None => true
               end
            then Reply 403 "Access denied. Admin only."
            else Next user token
        end
    end.

End Middleware.

(* ===================================================================== *)
(** ** The quantity controls of the checkout page ([config.js]) *)
(* ===================================================================== *)

(** A cart entry with the fields the quantity controls read.  [stock] is
    [None] when the entry has no [stock] field. *)
Module CartLine.
Record t := mk {
  item : CartItem.t;
  stock : option Q;
  size : option string;
  color : option string
}.
End CartLine.

Module CartControls.
Import JS.

(** The actions the page dispatches to the cart reducer. *)
Inductive CartAction :=
| UPDATE_QUANTITY (id size color : option string) (quantity : Q)
| REMOVE_FROM_CART (id size color : option string).

(** What a call of [updateQuantity] does. *)
Inductive Outcome :=
| Ignored
| ToastOnlyInStock (maxQty : Q)
| Dispatched (action : CartAction).

(** [item.id || item._id] *)
Definition lineId (l : CartLine.t) : option string :=
  orStr (CartItem.id (CartLine.item l)) (CartItem._id (CartLine.item l)).

(** [updateQuantity(item, quantity)]; [maxQty = item.stock ?? Infinity]. *)
Definition updateQuantity (l : CartLine.t) (quantity : Q) : Outcome :=
  if ltb quantity 1 then Ignored
  else
    match CartLine.stock l with
    | Some maxQty =>
        if gtb quantity maxQty then ToastOnlyInStock maxQty
        else Dispatched (UPDATE_QUANTITY (lineId l) (CartLine.size l) (CartLine.color l)
                                         quantity)
    | None =>
        Dispatched (UPDATE_QUANTITY (lineId l) (CartLine.size l) (CartLine.color l)
                                    quantity)
    end.

(** [removeItem(item)] dispatches and then shows a toast. *)
Definition removeItem (l : CartLine.t) : CartAction :=
  REMOVE_FROM_CART (lineId l) (CartLine.size l) (CartLine.color l).

(** The [-] button: [onClick={() => updateQuantity(item, item.quantity - 1)}]. *)
Definition clickMinus (l : CartLine.t) : Outcome :=
  updateQuantity l (CartItem.quantity (CartLine.item l) - 1).

(** [disabled={item.quantity >= item.stock}] of the [+] button; a
    comparison with [undefined] is false. *)
Definition plusDisabled (l : CartLine.t) : bool :=
  match CartLine.stock l with
  | Some stock => geb (CartItem.quantity (CartLine.item l)) stock
  | None => false
  end.

(** The [+] button: [onClick={() => updateQuantity(item, item.quantity + 1)}]. *)
Definition clickPlus (l : CartLine.t) : Outcome :=
  if plusDisabled l then Ignored
  else updateQuantity l (CartItem.quantity (CartLine.item l) + 1).

End CartControls.

(* ===================================================================== *)
(** ** More sample data *)
(* ===================================================================== *)

Module MoreSamples.
Import Checkout.

(** A cart of one line. *)
Definition basketOf (price quantity : Q) : list CartItem.t :=
  [ {| CartItem._id := Some "p1"; CartItem.id := None;
       CartItem.quantity := quantity; CartItem.price := price |} ].

(** The checkout page with a typed-in address whose pincode is six
    letters and whose phone number is empty. *)
Definition pageWithCustomAddress : Page :=
  {| cart := Samples.basket; user := Some Samples.shopper; paymentMethod := "cod";
     isProcessing := false; useRegisteredAddress := false;
     customAddress := ShippingAddress.mk "4 Hill Road" "Nashik" "MH" "ABCDEF" "";
     route := None; toasts := []; apiCalls := [];
     phase := Idle; pending := NothingPending |}.

(** A cart line with the given quantity and stock. *)
Definition line (quantity : Q) (stock : option Q) : CartLine.t :=
  {| CartLine.item := {| CartItem._id := Some "p1"; CartItem.id := None;
                         CartItem.quantity := quantity; CartItem.price := 150 |};
     CartLine.stock := stock; CartLine.size := None; CartLine.color := None |}.

(** An order of the list with the given id, status and product names. *)
Definition listedOrder (id : string) (status : option string) (names : list string)
  : option ListedOrder.t :=
  Some {| ListedOrder.order :=
            {| Order._id := Some id;
               Order.invoiceNumber := None; Order.invoiceOrderNumber := None;
               Order.orderNumber := None; Order.formattedOrderNumber := None;
               Order.createdAt := None;
               Order.items :=
                 Some (map (fun n =>
                              {| Item.product :=
                                   Some {| Product.name := Some n; Product.hsn := None;
                                           Product.hsnCode := None;
                                           Product.gstRate := None; Product.gst := None |};
                                 Item.quantity := 1; Item.price := 40;
                                 Item.basePrice := None; Item.gst := None;
                                 Item.gstAmount := None; Item.gstRate := None;
                                 Item.hsn := None |}) names);
               Order.discount := None; Order.discountedSubtotal := None;
               Order.gstAmount := None; Order.shippingCharge := None;
               Order.totalAmount := None; Order.couponCode := None |};
          ListedOrder.status := status;
          ListedOrder.shippingAddress := None |}.

(** Three orders and an empty slot. *)
Definition orders : list (option ListedOrder.t) :=
  [listedOrder "A1" (Some "Delivered") ["Tomato"; "Onion"];
   None;
   listedOrder "B2" (Some "pending") ["Potato"];
   listedOrder "C3" None ["Green Tomato"]].

(** A product of the catalogue with the given status and stock. *)
Definition vegetable (id : string) (status : string) (stock : option Q) : CatalogProduct.t :=
  {| CatalogProduct._id := Some id; CatalogProduct.name := Some "Tomato";
     CatalogProduct.category := Some "Vegetables";
     CatalogProduct.subcategory := Some "Fresh Vegetables";
     CatalogProduct.status := Some status; CatalogProduct.stock := stock |}.

(** The page of a signed-in shopper with one product in the wishlist. *)
Definition shop : FreshVegetables.Shop :=
  {| FreshVegetables.products := []; FreshVegetables.wishlist := ["v1"];
     FreshVegetables.loading := true; FreshVegetables.error := None;
     FreshVegetables.isAuthenticated := true; FreshVegetables.toasts := [];
     FreshVegetables.route := None; FreshVegetables.addedToCart := [];
     FreshVegetables.wishlistCalls := [] |}.

(** A token service that knows the tokens "t-user" and "t-admin", and a
    user collection with the two users. *)
Definition deps : Middleware.Deps :=
  {| Middleware.verify := fun token =>
       if String.eqb token "t-user" then Some (Middleware.mkDecoded (Some "u1") None)
       else if String.eqb token "t-admin" then Some (Middleware.mkDecoded None (Some "u2"))
       else None;
     Middleware.findOne := fun userId =>
       match userId with
       | Some "u1" => Checkout.Resolves (Some (Middleware.mkUserDoc "u1" (Some "user")))
       | Some "u2" => Checkout.Resolves (Some (Middleware.mkUserDoc "u2" (Some "admin")))
       | _ => Checkout.Resolves None
       end |}.


(** Three lines priced 99.90, 299.90 and 100.20, one unit each: the
    prices add up to 500.00. *)
Definition threePrices : list CartItem.t :=
  basketOf (999 # 10) 1 ++ basketOf (2999 # 10) 1 ++ basketOf (1002 # 10) 1.

(** The same lines, the last two swapped. *)
Definition threePricesSwapped : list CartItem.t :=
  basketOf (999 # 10) 1 ++ basketOf (1002 # 10) 1 ++ basketOf (2999 # 10) 1.

(** A stored order of the same three lines, without a stored shipping
    charge; the total stored is 575.00. *)
Definition threeLines : Order.t :=
  {| Order._id := Some Samples.orderId;
     Order.invoiceNumber := None; Order.invoiceOrderNumber := None;
     Order.orderNumber := Some 124%Z; Order.formattedOrderNumber := Some "000124";
     Order.createdAt := Some "2025-03-14T10:00:00.000Z";
     Order.items := Some [Samples.item (999 # 10) 1 None None;
                          Samples.item (2999 # 10) 1 None None;
                          Samples.item (1002 # 10) 1 None None];
     Order.discount := None; Order.discountedSubtotal := None;
     Order.gstAmount := Some 25; Order.shippingCharge := None;
     Order.totalAmount := Some 575; Order.couponCode := None |}.

End MoreSamples.

(* ===================================================================== *)
(** ** Binary64 arithmetic *)
(* ===================================================================== *)

(** A JavaScript number is a binary64 float.  Its value is a rational;
    an arithmetic operation returns the exact result rounded to the
    nearest binary64 value, a tie going to the even significand.
    Overflow to [Infinity], [NaN] and the sign of zero are left out: the
    amounts the components compute are far below 2^1024, and a division
    by zero is outside the model. *)
Module Binary64.

(** The integer nearest to [x], a tie going to the even one. *)
Definition roundEven (x : Q) : Z :=
  let f := Qfloor x in
  match Qcompare (x - inject_Z f) (1 # 2) with
  | Lt => f
  | Gt => (f + 1)%Z
  | Eq => if Z.even f then f else (f + 1)%Z
  end.

(** The exponent of the leading bit of [a], for [a > 0]. *)
Definition ilog2 (a : Q) : Z :=
  let e := (Z.log2 (Qnum a) - Z.log2 (Zpos (Qden a)))%Z in
  if Qle_bool (2 ^ e) a then e else (e - 1)%Z.

(** The binary64 value nearest to [x]: 53 significant bits, the last one
    worth no less than 2^-1074. *)
Definition round (x : Q) : Q :=
  let x := Qred x in
  if Qeq_bool x 0 then 0
  else
    let a := Qabs x in
    let e := Z.max (ilog2 a - 52) (-1074) in
    let m := roundEven (a / 2 ^ e) in
    Qred ((if Qle_bool 0 x then 1 else -1) * (inject_Z m * 2 ^ e)).

#[global] Arguments round : simpl never.

(** [x + y], [x - y], [x * y], [x / y] *)
Definition add (x y : Q) : Q := round (x + y).
Definition sub (x y : Q) : Q := round (x - y).
Definition mul (x y : Q) : Q := round (x * y).
Definition div (x y : Q) : Q := round (x / y).

(** The number a decimal denotes: a literal of the source, a number of a
    JSON document, the digits [parseFloat] reads. *)
Definition ofDecimal (x : Q) : Q := round x.

(** A field that may be [undefined]. *)
Definition num (o : option Q) : option Q := option_map ofDecimal o.

(** [Math.round(x * 100) / 100] and [Math.round(x * 10) / 10];
    [Math.round] of a binary64 value is a binary64 value. *)
Definition round2 (x : Q) : Q := div (inject_Z (JS.Math_round (mul x 100))) 100.
Definition round1 (x : Q) : Q := div (inject_Z (JS.Math_round (mul x 10))) 10.

(** [parseFloat(s)] *)
Definition parseFloat (s : string) : option Q := num (JS.parseFloat s).

(** The unit roundoff 2^-53. *)
Definition u : Q := 1 # 9007199254740992.

End Binary64.

(* ===================================================================== *)
(** ** Checkout totals in binary64 ([config.js]) *)
(* ===================================================================== *)

(** The totals of the checkout page as the browser computes them.  The
    price and the quantity of a cart line are the binary64 values of the
    decimals the cart holds. *)
Module Checkout64.
Import JS Binary64.

(** [GST_RATES] *)
Definition GST_RATES_CGST : Q := ofDecimal (25 # 10).
Definition GST_RATES_SGST : Q := ofDecimal (25 # 10).

(** [calculateSubtotal()]: a [reduce] from 0, left to right. *)
Definition calculateSubtotal (items : list CartItem.t) : Q :=
  fold_left (fun total item =>
               add total (mul (ofDecimal (CartItem.price item))
                              (ofDecimal (CartItem.quantity item))))
            items 0.

(** [calculateGST(subtotal)] *)
Definition calculateGST (subtotal : Q) : Checkout.Gst :=
  let cgst := div (mul subtotal GST_RATES_CGST) 100 in
  let sgst := div (mul subtotal GST_RATES_SGST) 100 in
  let totalGST := add cgst sgst in
  {| Checkout.cgst := round2 cgst;
     Checkout.sgst := round2 sgst;
     Checkout.totalGST := round2 totalGST |}.

(** [const shipping = subtotal >= 500 ? 0 : 50] *)
Definition shipping (subtotal : Q) : Q := if geb subtotal 500 then 0 else 50.

(** [const total = subtotal + gstCalculation.totalGST + shipping] *)
Definition total (items : list CartItem.t) : Q :=
  let subtotal := calculateSubtotal items in
  let gstCalculation := calculateGST subtotal in
  add (add subtotal (Checkout.totalGST gstCalculation)) (shipping subtotal).

(** The rows of the order summary. *)
Record Summary := mkSummary {
  subtotalRow : string;
  cgstRow : string;
  sgstRow : string;
  totalGstRow : string;
  shippingRow : string;
  totalRow : string
}.

Definition summary (items : list CartItem.t) : Summary :=
  let subtotal := calculateSubtotal items in
  let gstCalculation := calculateGST subtotal in
  let shipping := shipping subtotal in
  {| subtotalRow := toFixed 2 subtotal;
     cgstRow := toFixed 2 (Checkout.cgst gstCalculation);
     sgstRow := toFixed 2 (Checkout.sgst gstCalculation);
     totalGstRow := toFixed 2 (Checkout.totalGST gstCalculation);
     (* shipping === 0 ? 'Free' : `${shipping}`; the fee is a whole number *)
     shippingRow := if Qeq_bool shipping 0 then "Free" else String_ (Qfloor shipping);
     totalRow := toFixed 2 (total items) |}.

(** The total as the order summary shows it: [total.toFixed(2)]. *)
Definition totalDisplayed (items : list CartItem.t) : string :=
  toFixed 2 (total items).

End Checkout64.

(* ===================================================================== *)
(** ** The GST ledger and the invoice totals in binary64
       ([FreshVegetables.jsx]) *)
(* ===================================================================== *)

(** The ledger as the browser computes it.  A stored number is the
    binary64 value of the decimal the order document holds. *)
Module Orders64.
Import JS Binary64.

(** [item.price], [item.quantity] *)
Definition price (item : Item.t) : Q := ofDecimal (Item.price item).
Definition quantity (item : Item.t) : Q := ofDecimal (Item.quantity item).

(** Method 1: [parseFloat(item.gst || item.gstAmount) || 0] *)
Definition storedGstAmountPerUnit (item : Item.t) : Q :=
  orNum (parseFloatNum (or_ (num (Item.gst item)) (num (Item.gstAmount item)))) 0.

(** Method 1: the stored base price, or the price less the GST amount. *)
Definition storedBasePrice (item : Item.t) : Q :=
  let gstAmountPerUnit := storedGstAmountPerUnit item in
  let basePrice := orNum (parseFloatNum (num (Item.basePrice item))) 0 in
  if Qeq_bool basePrice 0 && truthyNum (price item) && gtb gstAmountPerUnit 0
  then sub (price item) gstAmountPerUnit
  else basePrice.

(** Method 1: the rate from the amounts, else the stored rate or 18. *)
Definition storedGstRate (item : Item.t) : Q :=
  let gstAmountPerUnit := storedGstAmountPerUnit item in
  let basePrice := storedBasePrice item in
  if gtb basePrice 0 && gtb gstAmountPerUnit 0
  then mul (div gstAmountPerUnit basePrice) 100
  else orNum (parseFloatNum (num (Item.gstRate item))) 18.

(** Method 2: [item.gst || item.product?.gstRate || item.product?.gst || 18] *)
Definition productGstRate (item : Item.t) : Q :=
  orNum (or_ (or_ (num (Item.gst item)) (num (Orders.productField Product.gstRate item)))
             (num (Orders.productField Product.gst item)))
        18.

(** The stored per-unit tax amount [g], read as
    [item.gst || item.gstAmount]. *)
Definition storedTaxAmount (item : Item.t) (g : Q) : Prop :=
  num (Item.gst item) = Some g
  \/ (truthy (num (Item.gst item)) = false /\ num (Item.gstAmount item) = Some g).

(** The base price [b]: the stored one, or the unit price less the tax
    amount [g] when none is stored. *)
Definition derivableBasePrice (item : Item.t) (g b : Q) : Prop :=
  (num (Item.basePrice item) = Some b /\ ~ b == 0)
  \/ (truthy (num (Item.basePrice item)) = false
      /\ ~ price item == 0 /\ b = sub (price item) g).

(** [getIndividualProductGST(item, orderData)] *)
Definition getIndividualProductGST (item : Item.t) (orderData : Order.t) : GstData.t :=
  if Orders.hasStoredGst item then
    (* Method 1: stored GST information *)
    let gstAmountPerUnit := storedGstAmountPerUnit item in
    let basePrice := storedBasePrice item in
    let gstRate := storedGstRate item in
    let hsn := Orders.hsnOf item in
    let totalGstAmount := mul gstAmountPerUnit (quantity item) in
    let cgstAmount := div totalGstAmount 2 in
    let sgstAmount := div totalGstAmount 2 in
    {| GstData.basePrice := toFixed 2 basePrice;
       GstData.gstRate := toFixed 1 gstRate;
       GstData.gstAmountPerUnit := toFixed 2 gstAmountPerUnit;
       GstData.totalGstAmount := toFixed 2 totalGstAmount;
       GstData.cgstAmount := toFixed 2 cgstAmount;
       GstData.sgstAmount := toFixed 2 sgstAmount;
       GstData.totalAmount := toFixed 2 (mul (price item) (quantity item));
       GstData.hsn := hsn |}
  else
    (* Method 2: the price is taken to include GST *)
    let totalItemAmount :=
      mul (orNum (Some (price item)) 0) (orNum (Some (quantity item)) 0) in
    let productGstRate := productGstRate item in
    let hsn := Orders.hsnOf item in
    let basePrice := div totalItemAmount (add 1 (div productGstRate 100)) in
    let totalGstAmount := sub totalItemAmount basePrice in
    let gstAmountPerUnit := div totalGstAmount (orNum (Some (quantity item)) 1) in
    let cgstAmount := div totalGstAmount 2 in
    let sgstAmount := div totalGstAmount 2 in
    let basePricePerUnit := div basePrice (orNum (Some (quantity item)) 1) in
    let calculatedGstRate :=
      if gtb basePricePerUnit 0 && gtb gstAmountPerUnit 0
      then mul (div gstAmountPerUnit basePricePerUnit) 100
      else productGstRate in
    {| GstData.basePrice := toFixed 2 basePrice;
       GstData.gstRate := toFixed 1 calculatedGstRate;
       GstData.gstAmountPerUnit := toFixed 2 gstAmountPerUnit;
       GstData.totalGstAmount := toFixed 2 totalGstAmount;
       GstData.cgstAmount := toFixed 2 cgstAmount;
       GstData.sgstAmount := toFixed 2 sgstAmount;
       GstData.totalAmount := toFixed 2 totalItemAmount;
       GstData.hsn := hsn |}.

(** One iteration of the [forEach] loop of [calculateGSTBreakdown]. *)
Definition addItem (orderData : Order.t) (s : Orders.Sums) (item : Item.t) : Orders.Sums :=
  let itemGstData := getIndividualProductGST item orderData in
  let itemCGST := orNum (parseFloat (GstData.cgstAmount itemGstData)) 0 in
  let itemSGST := orNum (parseFloat (GstData.sgstAmount itemGstData)) 0 in
  let itemGST := orNum (parseFloat (GstData.totalGstAmount itemGstData)) 0 in
  let itemBasePrice := orNum (parseFloat (GstData.basePrice itemGstData)) 0 in
  let gstRate := orNum (parseFloat (GstData.gstRate itemGstData)) 0 in
  let qty := orNum (Some (quantity item)) 1 in
  {| Orders.totalCGST := add (Orders.totalCGST s) itemCGST;
     Orders.totalSGST := add (Orders.totalSGST s) itemSGST;
     Orders.totalGST := add (Orders.totalGST s) itemGST;
     Orders.totalBaseAmount := add (Orders.totalBaseAmount s) (mul itemBasePrice qty);
     Orders.weightedGSTRate :=
       add (Orders.weightedGSTRate s) (mul gstRate (mul itemBasePrice qty)) |}.

(** [calculateGSTBreakdown(orderData, subtotalAfterDiscount)] *)
Definition calculateGSTBreakdown (orderData : Order.t) (subtotalAfterDiscount : Q)
  : GstBreakdown.t :=
  match Order.items orderData with
  | Some items =>
      (* first: from the individual items (any array, also an empty one) *)
      let s := fold_left (addItem orderData) items (Orders.mkSums 0 0 0 0 0) in
      let finalGSTRate :=
        if gtb (Orders.totalBaseAmount s) 0
        then div (Orders.weightedGSTRate s) (Orders.totalBaseAmount s) else 0 in
      {| GstBreakdown.cgst := round2 (Orders.totalCGST s);
         GstBreakdown.sgst := round2 (Orders.totalSGST s);
         GstBreakdown.totalGST := round2 (Orders.totalGST s);
         GstBreakdown.cgstRate := div finalGSTRate 2;
         GstBreakdown.sgstRate := div finalGSTRate 2;
         GstBreakdown.totalRate := finalGSTRate |}
  | None =>
      if truthy (num (Order.gstAmount orderData))
         && gtb (orNum (num (Order.gstAmount orderData)) 0) 0
      then
        (* second: from the order's total GST amount *)
        let totalGST := orNum (num (Order.gstAmount orderData)) 0 in
        let cgst := div totalGST 2 in
        let sgst := div totalGST 2 in
        let taxableAmount :=
          orNum (num (Order.discountedSubtotal orderData)) subtotalAfterDiscount in
        let effectiveRate :=
          if gtb taxableAmount 0 then mul (div totalGST taxableAmount) 100 else 0 in
        {| GstBreakdown.cgst := round2 cgst;
           GstBreakdown.sgst := round2 sgst;
           GstBreakdown.totalGST := round2 totalGST;
           GstBreakdown.cgstRate := round1 (div effectiveRate 2);
           GstBreakdown.sgstRate := round1 (div effectiveRate 2);
           GstBreakdown.totalRate := round1 effectiveRate |}
      else
        (* fallback: no GST data found *)
        {| GstBreakdown.cgst := 0;
           GstBreakdown.sgst := 0;
           GstBreakdown.totalGST := 0;
           GstBreakdown.cgstRate := 0;
           GstBreakdown.sgstRate := 0;
           GstBreakdown.totalRate := 0 |}
  end.

(** [itemsSubtotal]: [(orderData.items || []).reduce(...)] *)
Definition itemsSubtotal (orderData : Order.t) : Q :=
  fold_left (fun sum item => add sum (mul (price item) (quantity item)))
            (match Order.items orderData with Some l => l | None => [] end) 0.

(** [couponDiscount = orderData.discount || 0] *)
Definition couponDiscount (orderData : Order.t) : Q :=
  orNum (num (Order.discount orderData)) 0.

(** [subtotalAfterDiscount = itemsSubtotal - couponDiscount] *)
Definition subtotalAfterDiscount (orderData : Order.t) : Q :=
  sub (itemsSubtotal orderData) (couponDiscount orderData).

(** The four rows of a price breakdown: subtotal, discount (when there
    is one), shipping, total. *)
Record Rows := mkRows {
  subtotalRow : string;
  discountRow : option string;
  shippingRow : string;
  totalRow : string
}.

(** The totals block of the invoice [generateInvoicePDF] writes. *)
Definition invoiceTotals (orderData : Order.t) : Rows :=
  let itemsSubtotal := itemsSubtotal orderData in
  let couponDiscount := couponDiscount orderData in
  let subtotalAfterDiscount := subtotalAfterDiscount orderData in
  let shipping :=
    orNum (num (Order.shippingCharge orderData))
          (if geb subtotalAfterDiscount 500 then 0 else 50) in
  {| subtotalRow := toFixed 2 itemsSubtotal;
     discountRow := if gtb couponDiscount 0
                    then Some (toFixed 2 couponDiscount) else None;
     shippingRow := if Qeq_bool shipping 0 then "Free" else toFixed 2 shipping;
     totalRow := toFixed 2 (orNum (num (Order.totalAmount orderData)) 0) |}.

(** The price breakdown of an order card of the list. *)
Definition priceBreakdown (order : Order.t) : Rows :=
  let itemsSubtotal := itemsSubtotal order in
  let couponDiscount := couponDiscount order in
  let shipping := orNum (num (Order.shippingCharge order)) 0 in
  {| subtotalRow := toFixed 2 itemsSubtotal;
     discountRow := if gtb couponDiscount 0
                    then Some (toFixed 2 couponDiscount) else None;
     shippingRow := if Qeq_bool shipping 0 then "Free" else toFixed 2 shipping;
     totalRow := match num (Order.totalAmount order) with
                 | Some totalAmount => orStrLit (Some (toFixed 2 totalAmount)) "0.00"
                 | None => "0.00"
                 end |}.

End Orders64.

(* ===================================================================== *)
(** ** The checkout flow with overlapping attempts ([config.js]) *)
(* ===================================================================== *)

(** Every click on Proceed that gets past the address check starts an
    attempt.  The attempt runs the closures of the render the click met:
    [state.items], [subtotal], [gstCalculation], [total] and
    [getShippingAddress] are those of that render, whatever the shopper
    changes afterwards.  What the attempts share is the cart context, the
    [isProcessing] flag, the toasts and the router.  An attempt's
    continuation stays alive until it runs: a payment that fails inside
    the widget clears the flag while the widget stays open, so a second
    attempt can start while the first one is still to be completed.
    Amounts are binary64 ([Checkout64]).  The [phase] and [pending]
    fields of the shared page are not used here: each attempt has its
    own.  The router is not among the sources: the model does not take
    the page away after [navigate], so it allows more events than the
    browser does. *)
Module CheckoutFlow.
Import JS Checkout.

(** An attempt: the page as the click met it, the phase the attempt has
    reached and the continuation it waits on. *)
Record Attempt := mkAttempt {
  rendered : Page;
  reached : Phase;
  waitsFor : Pending
}.

Record State := mkState {
  page : Page;
  attempts : list Attempt
}.

Definition setCart (items : list CartItem.t) (p : Page) : Page :=
  mkPage items (user p) (paymentMethod p) (isProcessing p) (useRegisteredAddress p)
         (customAddress p) (route p) (toasts p) (apiCalls p) (phase p) (pending p).

Definition setPaymentMethod (m : string) (p : Page) : Page :=
  mkPage (cart p) (user p) m (isProcessing p) (useRegisteredAddress p)
         (customAddress p) (route p) (toasts p) (apiCalls p) (phase p) (pending p).

Definition setUseRegisteredAddress (b : bool) (p : Page) : Page :=
  mkPage (cart p) (user p) (paymentMethod p) (isProcessing p) b
         (customAddress p) (route p) (toasts p) (apiCalls p) (phase p) (pending p).

Definition setCustomAddress (a : ShippingAddress.t) (p : Page) : Page :=
  mkPage (cart p) (user p) (paymentMethod p) (isProcessing p) (useRegisteredAddress p)
         a (route p) (toasts p) (apiCalls p) (phase p) (pending p).

(** The fields of the address form. *)
Inductive AddressField := Faddress | Fcity | Fstate | Fpincode | Fphone.

(** [handleCustomAddressChange(field, value)] *)
Definition handleCustomAddressChange (field : AddressField) (value : string) (p : Page)
  : Page :=
  let prev := customAddress p in
  p |> setCustomAddress
         (match field with
          | Faddress =>
              ShippingAddress.mk value (ShippingAddress.city prev)
                (ShippingAddress.state prev) (ShippingAddress.pincode prev)
                (ShippingAddress.phone prev)
          | Fcity =>
              ShippingAddress.mk (ShippingAddress.address prev) value
                (ShippingAddress.state prev) (ShippingAddress.pincode prev)
                (ShippingAddress.phone prev)
          | Fstate =>
              ShippingAddress.mk (ShippingAddress.address prev) (ShippingAddress.city prev)
                value (ShippingAddress.pincode prev) (ShippingAddress.phone prev)
          | Fpincode =>
              ShippingAddress.mk (ShippingAddress.address prev) (ShippingAddress.city prev)
                (ShippingAddress.state prev) value (ShippingAddress.phone prev)
          | Fphone =>
              ShippingAddress.mk (ShippingAddress.address prev) (ShippingAddress.city prev)
                (ShippingAddress.state prev) (ShippingAddress.pincode prev) value
          end).

(** What an attempt is told. *)
Inductive Signal :=
| RazorpayOrderAnswer (orderId : Answer (option string))
| Widget (e : WidgetEvent)
| VerificationAnswer (success : Answer Value)
| CreateOrderAnswer (_id : Answer (option string)).

(** What happens to the page.  [Continue i] delivers a signal to the
    attempt started by the [i]-th accepted click (counted from 0).
    [CartChanged] is the cart context handing the page new items, after
    a dispatch of the quantity or remove buttons; the reducer is not
    among the sources, so any new list may come. *)
Inductive Event :=
| ClickProceed
| Continue (i : nat) (signal : Signal)
| CartChanged (items : list CartItem.t)
| SelectPaymentMethod (value : string)
| SelectRegisteredAddress (b : bool)
| CustomAddressChange (field : AddressField) (value : string).

(** [shipping: subtotal >= 500 ? 0 : 50] and [gst: gstCalculation.totalGST]
    of a render. *)
Definition shippingOf (r : Page) : Q :=
  if geb (Checkout64.calculateSubtotal (cart r)) 500 then 0 else 50.

Definition gstOf (r : Page) : Q :=
  totalGST (Checkout64.calculateGST (Checkout64.calculateSubtotal (cart r))).

(** [handleCODOrder] of the render [r], up to
    [await ordersApi.createOrder(...)]. *)
Definition handleCODOrder (r : Page) (p : Page) : Page * (Phase * Pending) :=
  (p |> call (CreateOrder (orderItems r) (getShippingAddress r) (shippingOf r) (gstOf r)),
   (VerificationPending, AwaitCreateOrder)).

(** [handleCODOrder], from the answer of [createOrder] on.  A response
    that is [null] or [undefined] makes [response._id] throw into the
    same [catch] as a rejection, and is a rejection here. *)
Definition handleCODOrder_resume (response : Answer (option string)) (p : Page)
  : Page * (Phase * Pending) :=
  match response with
  | Resolves _id =>
      if truthyStr _id then
        (p |> toast ToastSuccess "Order placed successfully!"
           |> dispatch_CLEAR_CART
           |> navigate "/orders"
           |> setIsProcessing false,
         (Settled, NothingPending))
      else
        (* throw new Error('Failed to create order'), caught below *)
        (p |> toast ToastError "Failed to place order. Please try again."
           |> setIsProcessing false,
         (Failed, NothingPending))
  | Rejects =>
      (p |> toast ToastError "Failed to place order. Please try again."
         |> setIsProcessing false,
       (Failed, NothingPending))
  end.

(** [handleProceedToPayment] of the render the click meets, up to its
    first [await]: the shared page afterwards, and the attempt started,
    if any.  The render is the shared page at the click.  Nothing in
    this stretch throws in the model, so the outer [catch] of the source
    ("Payment failed. Please try again.") is never entered. *)
Definition handleProceedToPayment (h : Host) (p : Page)
  : Page * option (Phase * Pending) :=
  match user p with
  | None =>
      (p |> navigate "/login" |> toast ToastError "Please login to continue", None)
  | Some _ =>
      let '(p1, valid) := validateAddress p in
      if negb valid then (p1, None)
      else
        let p1 := p1 |> setIsProcessing true in
        if String.eqb (paymentMethod p) "razorpay" then
          let razorpayKey := VITE_RAZORPAY_KEY_ID h in
          if negb (truthyStr razorpayKey)
             || negb (startsWith "rzp_" (orStrLit razorpayKey "")) then
            (p1 |> toast ToastDismiss "cart-empty"
                |> toast ToastError "Invalid Razorpay configuration. Please contact support."
                |> setIsProcessing false,
             Some (Failed, NothingPending))
          else
            let subtotal := Checkout64.calculateSubtotal (cart p) in
            let gstCalculation := Checkout64.calculateGST subtotal in
            (p1 |> call (CreateRazorpayOrder (Checkout64.total (cart p)) subtotal
                           (totalGST gstCalculation) (Checkout64.shipping subtotal)),
             Some (GatewayInitiating, AwaitRazorpayOrder (orStrLit razorpayKey "")))
        else
          let '(p2, k) := handleCODOrder p p1 in (p2, Some k)
  end.

(** [handleProceedToPayment] of the render [r], from the answer of
    [createRazorpayOrder] to [razorpay.open()]. *)
Definition handleProceedToPayment_resume (h : Host) (r : Page)
    (orderResponse : Answer (option string)) (p : Page) : Page * (Phase * Pending) :=
  let orderError :=
    (p |> toast ToastError "Failed to initiate payment. Please try again."
       |> setIsProcessing false,
     (Failed, NothingPending)) in
  match orderResponse with
  | Resolves orderId =>
      if negb (truthyStr orderId) then
        (* throw new Error('Failed to create order') *)
        orderError
      else if negb (windowRazorpay h) then
        (p |> toast ToastDismiss "cart-empty"
           |> toast ToastError "Payment system not loaded. Please refresh and try again."
           |> setIsProcessing false,
         (Failed, NothingPending))
      else
        (p |> call (OpenWidget (orStrLit orderId "")
                      (Binary64.mul (Checkout64.total (cart r)) 100)),
         (GatewayAwaitingUserAction, WidgetOpen))
  | Rejects => orderError
  end.

(** [options.handler] of the render [r], up to
    [await ordersApi.verifyPayment(...)]. *)
Definition handler (r : Page)
    (razorpay_order_id razorpay_payment_id razorpay_signature : string)
    (p : Page) : Page * (Phase * Pending) :=
  (p |> call (VerifyPayment razorpay_order_id razorpay_payment_id razorpay_signature
                (orderItems r) (getShippingAddress r) (shippingOf r) (gstOf r)),
   (VerificationPending, AwaitVerification)).

(** [options.handler], from the answer of [verifyPayment] on:
    [if (verificationResponse.success)] tests the field for truthiness.
    A response that is [null] or [undefined] makes the test throw into
    the same [catch] as a rejection, and is a rejection here. *)
Definition handler_resume (verificationResponse : Answer Value) (p : Page)
  : Page * (Phase * Pending) :=
  let error :=
    (p |> toast ToastDismiss "cart-empty"
       |> toast ToastError "Payment verification failed. Please contact support."
       |> setIsProcessing false,
     (Failed, NothingPending)) in
  match verificationResponse with
  | Resolves success =>
      if truthyValue success then
        (p |> toast ToastDismiss "cart-empty"
           |> toast ToastSuccess "Payment successful!"
           |> dispatch_CLEAR_CART
           |> navigate "/orders"
           |> setIsProcessing false,
         (Settled, NothingPending))
      else
        (* throw new Error('Payment verification failed') *)
        error
  | Rejects => error
  end.

(** [options.modal.ondismiss]: the flag is cleared; [toast.info] is not
    a function of the toast library, so the call that follows throws and
    shows nothing. *)
Definition ondismiss (p : Page) : Page * (Phase * Pending) :=
  (p |> setIsProcessing false, (Cancelled, NothingPending)).

(** [razorpay.on('payment.failed', ...)]; the widget stays open. *)
Definition payment_failed (description : string) (p : Page) : Page * (Phase * Pending) :=
  (p |> toast ToastDismiss "cart-empty"
     |> toast ToastError ("Payment failed: " ++ description)
     |> setIsProcessing false,
   (Failed, WidgetOpen)).

(** A signal delivered to an attempt: what runs, if the attempt waits on
    it. *)
Definition resume (h : Host) (a : Attempt) (signal : Signal) (p : Page)
  : option (Page * (Phase * Pending)) :=
  match signal, waitsFor a with
  | RazorpayOrderAnswer orderResponse, AwaitRazorpayOrder _ =>
      Some (handleProceedToPayment_resume h (rendered a) orderResponse p)
  | Widget (PaymentCompleted oid pid sig), WidgetOpen =>
      Some (handler (rendered a) oid pid sig p)
  | Widget (PaymentFailed description), WidgetOpen => Some (payment_failed description p)
  | Widget Dismissed, WidgetOpen => Some (ondismiss p)
  | VerificationAnswer verificationResponse, AwaitVerification =>
      Some (handler_resume verificationResponse p)
  | CreateOrderAnswer response, AwaitCreateOrder =>
      Some (handleCODOrder_resume response p)
  | _, _ => None
  end.

(** [l] with its entry [i] replaced. *)
Fixpoint replace {A : Type} (i : nat) (x : A) (l : list A) : list A :=
  match l, i with
  | [], _ => []
  | _ :: rest, O => x :: rest
  | y :: rest, S j => y :: replace j x rest
  end.

(** One event, run to completion.  A click reaches the handler only
    through an enabled button; a signal an attempt does not wait on
    changes nothing. *)
Definition step (h : Host) (s : State) (e : Event) : State :=
  match e with
  | ClickProceed =>
      if proceedButtonEnabled (page s) then
        match handleProceedToPayment h (page s) with
        | (p, Some (ph, k)) =>
            {| page := p;
               attempts := attempts s ++ [mkAttempt (page s) ph k] |}
        | (p, None) => {| page := p; attempts := attempts s |}
        end
      else s
  | Continue i signal =>
      match nth_error (attempts s) i with
      | Some a =>
          match resume h a signal (page s) with
          | Some (p, (ph, k)) =>
              {| page := p;
                 attempts := replace i (mkAttempt (rendered a) ph k) (attempts s) |}
          | None => s
          end
      | None => s
      end
  | CartChanged items => {| page := page s |> setCart items; attempts := attempts s |}
  | SelectPaymentMethod value =>
      {| page := page s |> setPaymentMethod value; attempts := attempts s |}
  | SelectRegisteredAddress b =>
      {| page := page s |> setUseRegisteredAddress b; attempts := attempts s |}
  | CustomAddressChange field value =>
      {| page := page s |> handleCustomAddressChange field value;
         attempts := attempts s |}
  end.

(** A sequence of events. *)
Definition run (h : Host) (s : State) (es : list Event) : State :=
  fold_left (step h) es s.

(** The page as the component mounts: no attempt yet. *)
Definition mount (p : Page) : State := {| page := p; attempts := [] |}.

(** The event is an answer that confirms the attempt it goes to:
    [verifyPayment] resolves with a truthy [success], or, for cash on
    delivery, [createOrder] resolves with a truthy [_id]. *)
Definition confirms (s : State) (e : Event) : bool :=
  match e with
  | Continue i signal =>
      match nth_error (attempts s) i with
      | Some a =>
          match signal, waitsFor a with
          | VerificationAnswer (Resolves success), AwaitVerification => truthyValue success
          | CreateOrderAnswer (Resolves _id), AwaitCreateOrder => truthyStr _id
          | _, _ => false
          end
      | None => false
      end
  | _ => false
  end.

(** The cart after an event that does not confirm: the shopper's new
    items, or what it was. *)
Definition cartAfter (c : list CartItem.t) (e : Event) : list CartItem.t :=
  match e with
  | CartChanged items => items
  | _ => c
  end.

(** The cart as the shopper's changes alone leave it. *)
Definition shopperCart (c : list CartItem.t) (es : list Event) : list CartItem.t :=
  fold_left cartAfter es c.

(** The attempt still has a continuation to run. *)
Definition live (a : Attempt) : bool :=
  match waitsFor a with NothingPending => false | _ => true end.

(** Number of requests of one kind in a log, and of attempts waiting on
    one kind of continuation. *)
Definition sent (kind : ApiCall -> bool) (s : State) : nat :=
  length (filter kind (apiCalls (page s))).

Definition waiting (kind : Pending -> bool) (s : State) : nat :=
  length (filter (fun a => kind (waitsFor a)) (attempts s)).

Definition isAwaitRazorpayOrder (k : Pending) : bool :=
  match k with AwaitRazorpayOrder _ => true | _ => false end.

Definition isWidgetOpen (k : Pending) : bool :=
  match k with WidgetOpen => true | _ => false end.

(** The amounts of a request are those of the render [r]. *)
Definition amountsOf (r : Page) (c : ApiCall) : Prop :=
  let subtotal := Checkout64.calculateSubtotal (cart r) in
  match c with
  | CreateRazorpayOrder amount sub gst ship =>
      amount = Checkout64.total (cart r) /\ sub = subtotal
      /\ gst = gstOf r /\ ship = Checkout64.shipping subtotal
  | OpenWidget _ amount => amount = Binary64.mul (Checkout64.total (cart r)) 100
  | VerifyPayment _ _ _ items a ship gst =>
      items = cart r /\ a = getShippingAddress r /\ ship = shippingOf r /\ gst = gstOf r
  | CreateOrder items a ship gst =>
      items = cart r /\ a = getShippingAddress r /\ ship = shippingOf r /\ gst = gstOf r
  end.

(** A render a click may start an attempt from: the button is enabled,
    a user is signed in and the address passes [validateAddress]. *)
Definition accepted (r : Page) : Prop :=
  proceedButtonEnabled r = true /\ user r <> None /\ snd (validateAddress r) = true.

(** The renders the attempts started from, oldest first. *)
Definition renders (s : State) : list Page := map rendered (attempts s).

(** The phase an event takes an attempt to, if it does. *)
Definition entered (h : Host) (s : State) (e : Event) : option Phase :=
  match e with
  | ClickProceed =>
      if proceedButtonEnabled (page s)
      then option_map fst (snd (handleProceedToPayment h (page s)))
      else None
  | Continue i signal =>
      match nth_error (attempts s) i with
      | Some a => option_map (fun r => fst (snd r)) (resume h a signal (page s))
      | None => None
      end
  | _ => None
  end.

(** The ways a click on Proceed can end before its first [await]: the
    shared page afterwards and the attempt started. *)
Inductive Click (h : Host) (p : Page) : Page * option (Phase * Pending) -> Prop :=
| ClickRefused q :
    user p = None \/ snd (validateAddress p) = false ->
    cart q = cart p -> apiCalls q = apiCalls p -> isProcessing q = isProcessing p ->
    Click h p (q, None)
| ClickMisconfigured q :
    user p <> None -> snd (validateAddress p) = true ->
    cart q = cart p -> apiCalls q = apiCalls p -> isProcessing q = false ->
    Click h p (q, Some (Failed, NothingPending))
| ClickGateway q key :
    user p <> None -> snd (validateAddress p) = true ->
    cart q = cart p ->
    apiCalls q
    = (apiCalls p
       ++ [CreateRazorpayOrder (Checkout64.total (cart p))
             (Checkout64.calculateSubtotal (cart p)) (gstOf p)
             (Checkout64.shipping (Checkout64.calculateSubtotal (cart p)))])%list ->
    isProcessing q = true ->
    Click h p (q, Some (GatewayInitiating, AwaitRazorpayOrder key))
| ClickCashOnDelivery q :
    user p <> None -> snd (validateAddress p) = true ->
    cart q = cart p ->
    apiCalls q
    = (apiCalls p
       ++ [CreateOrder (cart p) (getShippingAddress p) (shippingOf p) (gstOf p)])%list ->
    isProcessing q = true ->
    Click h p (q, Some (VerificationPending, AwaitCreateOrder)).

(** Requests by kind. *)
Definition isGatewayOrder (c : ApiCall) : bool :=
  match c with CreateRazorpayOrder _ _ _ _ => true | _ => false end.

Definition isOpenWidget (c : ApiCall) : bool :=
  match c with OpenWidget _ _ => true | _ => false end.

Definition isVerifyPayment (c : ApiCall) : bool :=
  match c with VerifyPayment _ _ _ _ _ _ _ => true | _ => false end.

(** Some attempt has settled for good. *)
Definition someSettled (s : State) : Prop :=
  exists a, In a (attempts s) /\ reached a = Settled /\ waitsFor a = NothingPending.

(** While the flag is set, some attempt still has a continuation to
    run. *)
Definition flagged (s : State) : Prop :=
  isProcessing (page s) = true -> exists a, In a (attempts s) /\ live a = true.

Definition b2n (b : bool) : nat := if b then 1%nat else 0%nat.

(** Requests come in the order gateway order, widget, verification:
    each verification sent or still to come has its widget, each widget
    opened or still to come has its gateway order. *)
Definition inOrder (s : State) : Prop :=
  (sent isVerifyPayment s + waiting isWidgetOpen s <= sent isOpenWidget s)%nat
  /\ (sent isOpenWidget s + waiting isAwaitRazorpayOrder s
      <= sent isGatewayOrder s)%nat.

(** The render [r] is the page an accepted click met, somewhere along
    the events [es] from the page [p0]. *)
Definition started (h : Host) (p0 : Page) (es : list Event) (r : Page) : Prop :=
  exists es1 es2, es = (es1 ++ ClickProceed :: es2)%list
                  /\ r = page (run h (mount p0) es1) /\ accepted r.

End CheckoutFlow.

(* ===================================================================== *)
(** ** Facts about numbers and formatting *)
(* ===================================================================== *)

Section NumberFacts.
Import JS.

Lemma ltb_true (x y : Q) : ltb x y = true <-> x < y.
Proof.
  unfold ltb. rewrite negb_true_iff, <- not_true_iff_false, Qle_bool_iff.
  split; [apply Qnot_le_lt | apply Qlt_not_le].
Qed.

Lemma gtb_true (x y : Q) : gtb x y = true <-> y < x.
Proof. apply ltb_true. Qed.

Lemma gtb_false (x y : Q) : gtb x y = false <-> x <= y.
Proof. unfold gtb, ltb. rewrite negb_false_iff. apply Qle_bool_iff. Qed.

Lemma geb_true (x y : Q) : geb x y = true <-> y <= x.
Proof. apply Qle_bool_iff. Qed.

Lemma geb_false (x y : Q) : geb x y = false <-> x < y.
Proof.
  unfold geb. rewrite <- not_true_iff_false, Qle_bool_iff.
  split; [apply Qnot_le_lt | apply Qlt_not_le].
Qed.

Lemma truthyNum_true (x : Q) : truthyNum x = true <-> ~ x == 0.
Proof.
  unfold truthyNum. rewrite negb_true_iff, <- not_true_iff_false, Qeq_bool_iff.
  reflexivity.
Qed.

Lemma truthyNum_pos (x : Q) : 0 < x -> truthyNum x = true.
Proof. intro H. apply truthyNum_true. lra. Qed.

Lemma truthyStr_Some (s : string) : s <> "" -> truthyStr (Some s) = true.
Proof. destruct s; [congruence | reflexivity]. Qed.

Lemma truthyStr_false (o : option string) :
  truthyStr o = false <-> o = None \/ o = Some "".
Proof.
  destruct o as [[| c s] |]; cbn; split; intro H; try discriminate; auto.
  destruct H as [H | H]; discriminate.
Qed.

Lemma orStrLit_Some (s d : string) : s <> "" -> orStrLit (Some s) d = s.
Proof. destruct s; [congruence | reflexivity]. Qed.

Lemma toFixed_comp (d : nat) (x y : Q) : x == y -> toFixed d x = toFixed d y.
Proof.
  intro E. unfold toFixed, toFixed_units, ltb.
  assert (Hf : Qfloor (Qabs x * inject_Z (10 ^ Z.of_nat d) + (1 # 2))
             = Qfloor (Qabs y * inject_Z (10 ^ Z.of_nat d) + (1 # 2))) by now rewrite E.
  assert (Hs : Qle_bool 0 x = Qle_bool 0 y) by now rewrite E.
  now rewrite Hf, Hs.
Qed.


(** Integers inside the rationals. *)
Lemma lt_int (n k : Z) : inject_Z n < inject_Z k -> (n < k)%Z.
Proof. rewrite <- Zlt_Qlt. trivial. Qed.

Lemma le_int (n k : Z) : inject_Z k <= inject_Z n -> (k <= n)%Z.
Proof. rewrite <- Zle_Qle. trivial. Qed.

Lemma eq0_int (n : Z) : inject_Z n == 0 -> n = 0%Z.
Proof. change 0 with (inject_Z 0). apply inject_Z_injective. Qed.

Lemma neq0_int (n : Z) : ~ inject_Z n == 0 -> n <> 0%Z.
Proof. intros H E. apply H. subst n. reflexivity. Qed.

Lemma inject_Z_eq0 (k : Z) : Qeq_bool (inject_Z k) 0 = (k =? 0)%Z.
Proof. unfold Qeq_bool, inject_Z. cbn. rewrite Z.mul_1_r. reflexivity. Qed.

Lemma index_int (l : list string) (k : Z) :
  (0 <= k)%Z -> index l (inject_Z k) = nth_error l (Z.to_nat k).
Proof.
  intro H. unfold index. rewrite Qfloor_Z.
  assert (E : Qeq_bool (inject_Z k) (inject_Z k) = true)
    by (apply Qeq_bool_iff; reflexivity).
  rewrite E. apply Z.leb_le in H. rewrite H. reflexivity.
Qed.

Lemma floor_div_int (n m : Z) :
  (0 < m)%Z -> Math_floor (inject_Z n / inject_Z m) = inject_Z (n / m).
Proof.
  intro Hm. unfold Math_floor. f_equal.
  destruct m as [| m | m]; try lia.
  unfold Qfloor, Qdiv, Qinv, Qmult, inject_Z. cbn.
  rewrite Z.mul_1_r. reflexivity.
Qed.

Lemma rem_int (n m : Z) :
  (0 <= n)%Z -> (0 < m)%Z -> rem (inject_Z n) (inject_Z m) = inject_Z (n mod m).
Proof.
  intros Hn Hm. unfold rem, trunc.
  assert (E : Qle_bool 0 (inject_Z n / inject_Z m) = true).
  { apply Qle_bool_iff. apply Qle_shift_div_l.
    - change 0 with (inject_Z 0). rewrite <- Zlt_Qlt. exact Hm.
    - rewrite Qmult_0_l. change 0 with (inject_Z 0). rewrite <- Zle_Qle. exact Hn. }
  rewrite E.
  change (inject_Z (Qfloor (inject_Z n / inject_Z m)))
    with (Math_floor (inject_Z n / inject_Z m)).
  rewrite floor_div_int by exact Hm.
  unfold Qminus, Qplus, Qopp, Qmult, inject_Z. cbn.
  f_equal. rewrite (Z.mod_eq n m) by lia. lia.
Qed.

End NumberFacts.

(* ===================================================================== *)
(** ** Invoice identity *)
(* ===================================================================== *)

Section InvoiceIdentityFacts.
Import JS Orders.
Variable getFullYear : string -> Z.
Variable currentYear : Z.

Lemma method1_skipped (o : Order.t) :
  noTenCharInvoiceNumber o ->
  truthyStr (Order.invoiceNumber o)
  && (String.length (orStrLit (Order.invoiceNumber o) "") =? 10)%nat = false.
Proof.
  unfold noTenCharInvoiceNumber. intro H.
  destruct (Order.invoiceNumber o) as [s |]; [| reflexivity].
  specialize (H s eq_refl).
  destruct s as [| c s]; [reflexivity |].
  cbn [truthyStr orStrLit andb]. apply Nat.eqb_neq. exact H.
Qed.

Lemma orderNumberTruthy_false (o : Order.t) :
  noOrderNumber o -> orderNumberTruthy (Order.orderNumber o) = false.
Proof. unfold noOrderNumber. intros [-> | ->]; reflexivity. Qed.

Lemma absent_falsy (f : option string) : absent f -> truthyStr f = false.
Proof. intro H. apply truthyStr_false. exact H. Qed.

(** C5: [getInvoiceOrderNumber] follows the stated precedence.  A stored
    invoice number of exactly 10 characters is returned unchanged, whatever
    else the order stores; otherwise the virtual [invoiceOrderNumber] wins;
    then the year of [createdAt] followed by the sequential order number
    padded with zeros to six places; then the year followed by the
    formatted order number; then the year followed by the last six
    characters of the order id; and when none applies, the current year
    followed by ["000001"]. *)
Theorem invoice_number_precedence (o : Order.t) :
  let invoice := getInvoiceOrderNumber getFullYear currentYear o in
  (forall s, Order.invoiceNumber o = Some s -> String.length s = 10%nat ->
     invoice = s)
  /\ (noTenCharInvoiceNumber o ->
      forall v, Order.invoiceOrderNumber o = Some v -> v <> "" ->
        invoice = v)
  /\ (noTenCharInvoiceNumber o -> absent (Order.invoiceOrderNumber o) ->
      forall n c, Order.orderNumber o = Some n -> n <> 0%Z ->
                  Order.createdAt o = Some c -> c <> "" ->
        invoice = String_ (getFullYear c) ++ padStart0 6 (String_ n))
  /\ (noTenCharInvoiceNumber o -> absent (Order.invoiceOrderNumber o) ->
      noOrderNumber o ->
      forall f c, Order.formattedOrderNumber o = Some f -> f <> "" ->
                  Order.createdAt o = Some c -> c <> "" ->
        invoice = String_ (getFullYear c) ++ f)
  /\ (noTenCharInvoiceNumber o -> absent (Order.invoiceOrderNumber o) ->
      noOrderNumber o -> absent (Order.formattedOrderNumber o) ->
      forall c i, Order.createdAt o = Some c -> c <> "" ->
                  Order._id o = Some i -> i <> "" ->
        invoice = String_ (getFullYear c) ++ sliceLast 6 i)
  /\ (noTenCharInvoiceNumber o -> absent (Order.invoiceOrderNumber o) ->
      absent (Order.createdAt o)
      \/ (noOrderNumber o /\ absent (Order.formattedOrderNumber o)
          /\ absent (Order._id o)) ->
        invoice = String_ currentYear ++ "000001").
Proof.
  intro invoice. subst invoice. unfold getInvoiceOrderNumber.
  repeat split.
  - intros s Hs Hlen. rewrite Hs.
    assert (s <> "") by (intros ->; discriminate).
    rewrite truthyStr_Some, orStrLit_Some by assumption.
    rewrite Hlen. reflexivity.
  - intros H1 v Hv Hne. rewrite method1_skipped by assumption.
    rewrite Hv, truthyStr_Some, orStrLit_Some by assumption. reflexivity.
  - intros H1 H2 n c Hn Hn0 Hc Hc0.
    rewrite method1_skipped, (absent_falsy _ H2) by assumption.
    rewrite Hn, Hc, truthyStr_Some, orStrLit_Some by assumption.
    cbn [orderNumberTruthy]. apply Z.eqb_neq in Hn0. rewrite Hn0. reflexivity.
  - intros H1 H2 H3 f c Hf Hf0 Hc Hc0.
    rewrite method1_skipped, (absent_falsy _ H2), orderNumberTruthy_false by assumption.
    rewrite Hf, Hc, !truthyStr_Some, !orStrLit_Some by assumption. reflexivity.
  - intros H1 H2 H3 H4 c i Hc Hc0 Hi Hi0.
    rewrite method1_skipped, (absent_falsy _ H2), orderNumberTruthy_false,
      (absent_falsy _ H4) by assumption.
    rewrite Hc, Hi, !truthyStr_Some, !orStrLit_Some by assumption. reflexivity.
  - intros H1 H2 [H3 | (H3 & H4 & H5)];
      rewrite method1_skipped, (absent_falsy _ H2) by assumption.
    + rewrite (absent_falsy _ H3), !andb_false_r. cbn. reflexivity.
    + rewrite orderNumberTruthy_false, (absent_falsy _ H4), (absent_falsy _ H5),
        !andb_false_r by assumption. reflexivity.
Qed.

End InvoiceIdentityFacts.

(** C5, at an order that stores a 10-character invoice number next to a
    sequential order number, and at the same order without the two invoice
    fields. *)
Lemma invoice_number_precedence_witness :
  Orders.getInvoiceOrderNumber Samples.yearOfStamp 2026 Samples.identified = "2025000042"
  /\ Orders.getInvoiceOrderNumber Samples.yearOfStamp 2026 (Samples.order None)
     = "2025000124".
Proof.
  destruct (invoice_number_precedence Samples.yearOfStamp 2026 Samples.identified)
    as (Hstored & _).
  destruct (invoice_number_precedence Samples.yearOfStamp 2026 (Samples.order None))
    as (_ & _ & Hseq & _).
  split.
  - apply (Hstored "2025000042"); reflexivity.
  - apply (Hseq ltac:(intros s Hs; discriminate Hs) (or_introl eq_refl)
                124%Z "2025-03-14T10:00:00.000Z");
      try reflexivity; discriminate.
Defined.

(* ===================================================================== *)
(** ** The GST ledger *)
(* ===================================================================== *)

Section LedgerFacts.
Import JS Orders.



(** C3, the code at its failing input: a line without stored tax data that
    holds two units priced 118.00 gets the base price 200.00, the amount of
    the whole line, where one unit gets 100.00; the tax amount per unit is
    18.00 in both. *)
Lemma tierB_base_price_is_the_line_amount :
  let r1 := getIndividualProductGST (Samples.item 118 1 None None) (Samples.order None) in
  let r2 := getIndividualProductGST (Samples.item 118 2 None None) (Samples.order None) in
  hasStoredGst (Samples.item 118 2 None None) = false
  /\ GstData.basePrice r1 = "100.00" /\ GstData.gstAmountPerUnit r1 = "18.00"
  /\ GstData.basePrice r2 = "200.00" /\ GstData.gstAmountPerUnit r2 = "18.00".
Proof. vm_compute. repeat split. Qed.




End LedgerFacts.

(* ===================================================================== *)
(** ** The invoice document and the amount in words *)
(* ===================================================================== *)

Section InvoiceFacts.
Import JS Orders.

(** C9, the code at its failing input: two exports of the same stored
    order, the first while the order counter stands at 125 in 2025, the
    second while it stands at 131 in 2026, print different invoice numbers,
    2025000125 and 2026000131, and so give different documents; neither is
    the number [getInvoiceOrderNumber] derives from the order itself,
    2025000124. *)
Lemma invoice_number_follows_the_counter :
  let o := Samples.order (Some [Samples.item 118 2 (Some 18) None]) in
  let first :=
    generateInvoicePDF Samples.formatDate (Samples.api o "000125" 2025) Samples.orderId in
  let second :=
    generateInvoicePDF Samples.formatDate (Samples.api o "000131" 2026) Samples.orderId in
  option_map invoiceNo first = Some "2025000125"
  /\ option_map invoiceNo second = Some "2026000131"
  /\ first <> second
  /\ getInvoiceOrderNumber Samples.yearOfStamp 2026 o = "2025000124".
Proof. vm_compute. repeat split. discriminate. Qed.

(** Apart from the invoice number, the document is a function of the
    stored order: two exports that fetch the same order agree on every
    other line. *)
Lemma invoice_is_determined_up_to_its_number
    (fmt : option string -> string) (a1 a2 : Api) (id : string) :
  getOrder a1 id = getOrder a2 id -> popupOpens a1 = popupOpens a2 ->
  option_map withoutInvoiceNo (generateInvoicePDF fmt a1 id)
  = option_map withoutInvoiceNo (generateInvoicePDF fmt a2 id).
Proof.
  intros Ho Hp. unfold generateInvoicePDF. rewrite Ho, Hp.
  destruct (getOrder a2 id) as [o |]; [| reflexivity].
  destruct (popupOpens a2); reflexivity.
Qed.

(** Two exports of one order at different counter values. *)
Lemma invoice_is_determined_up_to_its_number_witness :
  let o := Samples.order (Some [Samples.item 118 2 (Some 18) None]) in
  option_map withoutInvoiceNo
    (generateInvoicePDF Samples.formatDate (Samples.api o "000125" 2025) Samples.orderId)
  = option_map withoutInvoiceNo
      (generateInvoicePDF Samples.formatDate (Samples.api o "000131" 2026) Samples.orderId).
Proof.
  cbv zeta.
  apply (invoice_is_determined_up_to_its_number Samples.formatDate
           (Samples.api _ "000125" 2025) (Samples.api _ "000131" 2026) Samples.orderId);
    reflexivity.
Defined.

(** [convertToWords] unfolds to the chain of tests of its source. *)
Lemma convertToWords_unfold (amount : Q) :
  convertToWords amount =
  if Qeq_dec amount 0 then Some "Zero"
  else if Qlt_le_dec amount 10 then index ones amount
  else if Qlt_le_dec amount 20 then index teens (amount - 10)
  else if Qlt_le_dec amount 100 then
    Some (str (index tens (Math_floor (amount / 10))) ++
          (if negb (Qeq_bool (rem amount 10) 0)
           then " " ++ str (index ones (rem amount 10)) else ""))
  else if Qlt_le_dec amount 1000 then
    Some (str (index ones (Math_floor (amount / 100))) ++ " Hundred" ++
          (if negb (Qeq_bool (rem amount 100) 0)
           then " " ++ str (convertToWords (rem amount 100)) else ""))
  else if Qlt_le_dec amount 100000 then
    Some (str (convertToWords (Math_floor (amount / 1000))) ++ " Thousand" ++
          (if negb (Qeq_bool (rem amount 1000) 0)
           then " " ++ str (convertToWords (rem amount 1000)) else ""))
  else Some "Amount too large".
Proof.
  funelim (convertToWords amount);
    repeat match goal with
           | H : ?d = _ |- context [if ?d then _ else _] => rewrite H
           end; reflexivity.
Qed.

Lemma index_word (l : list string) (k : Z) :
  (0 <= k < Z.of_nat (List.length l))%Z ->
  index l (inject_Z k) = Some (Spec.word l k).
Proof.
  intro H. rewrite index_int by lia. unfold Spec.word.
  apply nth_error_nth'. lia.
Qed.

(** Turn the comparisons the unfolding leaves into facts on integers. *)
Ltac to_Z :=
  repeat match goal with
         | H : inject_Z _ < ?k |- _ =>
             change k with (inject_Z (Qnum k)) in H; apply lt_int in H; cbn in H
         | H : ?k <= inject_Z _ |- _ =>
             change k with (inject_Z (Qnum k)) in H; apply le_int in H; cbn in H
         | H : inject_Z _ == 0 |- _ => apply eq0_int in H
         | H : ~ inject_Z _ == 0 |- _ => apply neq0_int in H
         end.

(** Pick the branch of [convertToWords] the range of the amount selects. *)
Ltac decide_range :=
  repeat match goal with
         | |- context [Qeq_dec ?a ?b] => destruct (Qeq_dec a b); to_Z; try lia
         | |- context [Qlt_le_dec ?a ?b] => destruct (Qlt_le_dec a b); to_Z; try lia
         end.

Lemma convertToWords_belowHundred (n : Z) :
  (0 < n < 100)%Z -> convertToWords (inject_Z n) = Some (Spec.belowHundred n).
Proof.
  intro Hn. rewrite convertToWords_unfold. unfold Spec.belowHundred.
  decide_range.
  - (* ones *)
    destruct (Z.ltb_spec n 10); try lia.
    apply index_word. cbn. lia.
  - (* teens *)
    destruct (Z.ltb_spec n 10); try lia. destruct (Z.ltb_spec n 20); try lia.
    replace (inject_Z n - 10) with (inject_Z (n - 10)).
    + apply index_word. cbn. lia.
    + unfold Qminus, Qplus, Qopp, inject_Z. cbn. f_equal. lia.
  - (* tens *)
    destruct (Z.ltb_spec n 10); try lia. destruct (Z.ltb_spec n 20); try lia.
    change 10 with (inject_Z 10).
    rewrite floor_div_int, rem_int, inject_Z_eq0 by lia.
    rewrite !index_word.
    + cbn [str]. destruct (Z.eqb_spec (n mod 10) 0); reflexivity.
    + cbn. pose proof (Z.mod_pos_bound n 10). lia.
    + cbn. assert (n / 10 < 10)%Z by (apply Z.div_lt_upper_bound; lia).
      assert (0 <= n / 10)%Z by (apply Z.div_pos; lia). lia.
Qed.

Lemma convertToWords_belowThousand (n : Z) :
  (0 < n < 1000)%Z -> convertToWords (inject_Z n) = Some (Spec.belowThousand n).
Proof.
  intro Hn. unfold Spec.belowThousand.
  destruct (Z.ltb_spec n 100) as [Hlt | Hge].
  - apply convertToWords_belowHundred. lia.
  - rewrite convertToWords_unfold. decide_range.
    change 100 with (inject_Z 100).
    rewrite floor_div_int, rem_int, inject_Z_eq0 by lia.
    rewrite index_word.
    + cbn [str]. destruct (Z.eqb_spec (n mod 100) 0); [reflexivity |].
      rewrite convertToWords_belowHundred; [reflexivity |].
      pose proof (Z.mod_pos_bound n 100). lia.
    + cbn. assert (n / 100 < 10)%Z by (apply Z.div_lt_upper_bound; lia).
      assert (0 <= n / 100)%Z by (apply Z.div_pos; lia). lia.
Qed.

Lemma convertToWords_refines_spec (n : Z) :
  (0 <= n < 100000)%Z -> convertToWords (inject_Z n) = Some (Spec.amountToWords n).
Proof.
  intro Hn. unfold Spec.amountToWords.
  destruct (Z.eqb_spec n 0) as [-> | Hn0]; [reflexivity |].
  destruct (Z.ltb_spec n 1000) as [Hlt | Hge].
  - apply convertToWords_belowThousand. lia.
  - rewrite convertToWords_unfold. decide_range.
    change 1000 with (inject_Z 1000).
    rewrite floor_div_int, rem_int, inject_Z_eq0 by lia.
    rewrite convertToWords_belowHundred.
    + cbn [str]. destruct (Z.eqb_spec (n mod 1000) 0); [reflexivity |].
      rewrite convertToWords_belowThousand; [reflexivity |].
      pose proof (Z.mod_pos_bound n 1000). lia.
    + assert (n / 1000 < 100)%Z by (apply Z.div_lt_upper_bound; lia).
      assert (0 < n / 1000)%Z by (apply Z.div_str_pos; lia). lia.
Qed.

Lemma convertToWords_too_large (amount : Q) :
  100000 <= amount -> convertToWords amount = Some "Amount too large".
Proof.
  intro H. rewrite convertToWords_unfold.
  repeat match goal with
         | |- context [Qeq_dec ?a ?b] => destruct (Qeq_dec a b); try lra
         | |- context [Qlt_le_dec ?a ?b] => destruct (Qlt_le_dec a b); try lra
         end.
  reflexivity.
Qed.

Lemma wordsFrom_spec (count : nat) : forall n k : Z,
  Spec.wordsFrom count n = true -> (n <= k < n + Z.of_nat count)%Z ->
  Spec.amountToWords k <> "Amount too large".
Proof.
  induction count as [| count IH]; intros n k Hall Hk; [lia |].
  cbn [Spec.wordsFrom] in Hall. apply andb_true_iff in Hall as (Hn & Hrest).
  destruct (Z.eq_dec k n) as [-> | Hne].
  - apply negb_true_iff, String.eqb_neq in Hn. exact Hn.
  - apply (IH (n + 1)%Z); [exact Hrest | lia].
Qed.

Lemma words_below_one_lakh : Spec.wordsFrom (Z.to_nat 100000) 0 = true.
Proof. vm_compute. reflexivity. Qed.

(** C10: [convertToWords] is defined up to five digits.  For every
    integer amount from 0 to 99,999 it returns the words the
    ones/teens/tens/hundred/thousand decomposition gives; for every amount
    of 100,000 or more it returns ["Amount too large"], and the invoice of
    an order whose total reaches 100,000 prints that placeholder before
    "Rupees Only". *)
Theorem convertToWords_up_to_five_digits :
  (forall n : Z, (0 <= n < 100000)%Z ->
     convertToWords (inject_Z n) = Some (Spec.amountToWords n)
     /\ convertToWords (inject_Z n) <> Some "Amount too large")
  /\ (forall amount : Q, 100000 <= amount ->
        convertToWords amount = Some "Amount too large")
  /\ (forall (fmt : option string -> string) (api : Api) (id : string)
             (o : Order.t) (amount : Q) (doc : InvoiceDocument),
        getOrder api id = Some o -> Order.totalAmount o = Some amount ->
        100000 <= amount ->
        generateInvoicePDF fmt api id = Some doc ->
        amountInWords doc = "Amount too large Rupees Only").
Proof.
  split.
  { intros n Hn. rewrite (convertToWords_refines_spec n Hn).
    split; [reflexivity |]. intro E. injection E as E. revert E.
    apply (wordsFrom_spec (Z.to_nat 100000) 0 n words_below_one_lakh). lia. }
  split; [exact convertToWords_too_large |].
  intros fmt api id o amount doc Ho Ht Hbig Hdoc.
  unfold generateInvoicePDF in Hdoc. rewrite Ho in Hdoc.
  destruct (popupOpens api); [| discriminate].
  injection Hdoc as <-. cbn [amountInWords].
  rewrite Ht. cbn [orNum].
  assert (Htruthy : truthyNum amount = true) by (apply truthyNum_pos; lra).
  rewrite Htruthy, (convertToWords_too_large amount Hbig). reflexivity.
Qed.

(** C10, at 0, 118 and 99,999, and at one lakh. *)
Lemma convertToWords_up_to_five_digits_witness :
  convertToWords 0 = Some "Zero"
  /\ convertToWords 118 = Some "One Hundred Eighteen"
  /\ convertToWords 99999 = Some "Ninety Nine Thousand Nine Hundred Ninety Nine"
  /\ convertToWords 100000 = Some "Amount too large".
Proof.
  destruct convertToWords_up_to_five_digits as (Hwords & Hlarge & _).
  split; [apply (Hwords 0%Z); lia |].
  split; [apply (Hwords 118%Z); lia |].
  split; [apply (Hwords 99999%Z); lia |].
  apply (Hlarge 100000). apply Qle_refl.
Defined.

(** A total with paise is not put into words: the fraction reaches the
    table lookup, and the lookup is [undefined]. *)
Lemma convertToWords_with_paise :
  convertToWords (3654 # 10) = Some "Three Hundred Sixty undefined".
Proof. vm_compute. reflexivity. Qed.

End InvoiceFacts.

(* ===================================================================== *)
(** ** The checkout flow *)
(* ===================================================================== *)

Section CheckoutFacts.
Import JS Checkout.

Ltac split_ifs :=
  repeat match goal with
         | |- context [if ?c then _ else _] => destruct c eqn:?
         end.

(** [validateAddress] only adds a toast. *)
Lemma validateAddress_frame (p : Page) :
  let p' := fst (validateAddress p) in
  cart p' = cart p /\ phase p' = phase p /\ pending p' = pending p
  /\ apiCalls p' = apiCalls p /\ isProcessing p' = isProcessing p
  /\ paymentMethod p' = paymentMethod p /\ user p' = user p.
Proof.
  unfold validateAddress.
  destruct (useRegisteredAddress p), (userAddress p);
    split_ifs; cbn; repeat split; reflexivity.
Qed.




(** The gate is the button: [handleProceedToPayment] itself does not read
    the flag and, entered with the flag set, requests a gateway order. *)
Lemma handleProceedToPayment_reads_no_flag :
  let p := setIsProcessing true (Samples.page "razorpay") in
  isProcessing p = true
  /\ gatewayOrders (handleProceedToPayment Samples.host p) = S (gatewayOrders p).
Proof. vm_compute. split; reflexivity. Qed.

End CheckoutFacts.

(* ===================================================================== *)
(** ** More facts about numbers *)
(* ===================================================================== *)

Lemma le_int_inv (n k : Z) : (k <= n)%Z -> inject_Z k <= inject_Z n.
Proof. rewrite <- Zle_Qle. trivial. Qed.

Lemma lt_int_inv (n k : Z) : (n < k)%Z -> inject_Z n < inject_Z k.
Proof. rewrite <- Zlt_Qlt. trivial. Qed.

Lemma inject_Z_sub (a b : Z) : inject_Z (a - b) == inject_Z a - inject_Z b.
Proof. unfold Z.sub. rewrite inject_Z_plus, inject_Z_opp. reflexivity. Qed.

(* ===================================================================== *)
(** ** Rounding to cents *)
(* ===================================================================== *)

Section RoundingFacts.
Import JS.

(** [Math.round] is within a half of its argument. *)
Lemma Math_round_bounds (x : Q) :
  x - (1 # 2) < inject_Z (Math_round x) /\ inject_Z (Math_round x) <= x + (1 # 2).
Proof.
  unfold Math_round.
  pose proof (Qfloor_le (x + (1 # 2))) as Hle.
  pose proof (Qlt_floor (x + (1 # 2))) as Hlt.
  rewrite inject_Z_plus in Hlt. change (inject_Z 1) with 1 in Hlt.
  split; lra.
Qed.

(** Rounding to cents moves an amount by at most half a cent. *)
Lemma round2_bounds (x : Q) :
  x - (1 # 200) < round2 x /\ round2 x <= x + (1 # 200).
Proof.
  unfold round2. destruct (Math_round_bounds (x * 100)) as (Hlo & Hhi).
  set (r := inject_Z (Math_round (x * 100))) in *. clearbody r.
  split.
  - apply Qlt_shift_div_l; lra.
  - apply Qle_shift_div_r; lra.
Qed.

Lemma round2_100 (x : Q) : round2 x * 100 == inject_Z (Math_round (x * 100)).
Proof. unfold round2. field. Qed.

End RoundingFacts.

(* ===================================================================== *)
(** ** Facts about the string built-ins *)
(* ===================================================================== *)

Section StringFacts.
Import JS JSString.

Lemma append_assoc (a b c : string) : (a ++ b) ++ c = a ++ b ++ c.
Proof. induction a as [| x a IH]; cbn; [reflexivity | now rewrite IH]. Qed.

Lemma append_nil_r (a : string) : a ++ "" = a.
Proof. induction a as [| x a IH]; cbn; [reflexivity | now rewrite IH]. Qed.

Lemma prefix_spec (p : string) : forall s : string,
  String.prefix p s = true <-> exists r, s = p ++ r.
Proof.
  induction p as [| a p IH]; intro s.
  - split; [intros _; exists s; reflexivity | intros _; destruct s; reflexivity].
  - destruct s as [| b s]; cbn.
    + split; [discriminate | intros (r & E); discriminate].
    + destruct (ascii_dec a b) as [-> | Hab].
      * rewrite IH. split; intros (r & E); exists r; [now rewrite E | now injection E].
      * split; [discriminate | intros (r & E); injection E as E1 E2; congruence].
Qed.

Lemma includes_spec (s : string) : forall t : string,
  includes s t = true <-> exists a b, s = a ++ t ++ b.
Proof.
  induction s as [| c s IH]; intro t; cbn [includes].
  - rewrite orb_false_r, prefix_spec. split.
    + intros (r & E). exists "", r. exact E.
    + intros (a & b & E). destruct a; [exists b; exact E | discriminate].
  - rewrite orb_true_iff, prefix_spec, IH. split.
    + intros [(r & E) | (a & b & E)].
      * exists "", r. exact E.
      * exists (String c a), b. cbn. now rewrite E.
    + intros (a & b & E). destruct a as [| x a].
      * left. exists b. exact E.
      * right. cbn in E. injection E as _ E. exists a, b. exact E.
Qed.

Lemma includes_empty (s : string) : includes s "" = true.
Proof. apply includes_spec. exists "", s. reflexivity. Qed.

Lemma includes_trans (s t u : string) :
  includes s t = true -> includes t u = true -> includes s u = true.
Proof.
  rewrite !includes_spec. intros (a & b & ->) (a' & b' & ->).
  exists (a ++ a'), (b' ++ b). rewrite !append_assoc. reflexivity.
Qed.

Lemma lowerChar_idem (c : ascii) : lowerChar (lowerChar c) = lowerChar c.
Proof. destruct c as [[|] [|] [|] [|] [|] [|] [|] [|]]; reflexivity. Qed.

Lemma toLowerCase_idem (s : string) : toLowerCase (toLowerCase s) = toLowerCase s.
Proof.
  induction s as [| c s IH]; cbn [toLowerCase]; [reflexivity |].
  now rewrite lowerChar_idem, IH.
Qed.

Lemma toLowerCase_app (a b : string) :
  toLowerCase (a ++ b) = toLowerCase a ++ toLowerCase b.
Proof. induction a as [| c a IH]; cbn; [reflexivity | now rewrite IH]. Qed.

Lemma includes_toLowerCase (s t : string) :
  includes s t = true -> includes (toLowerCase s) (toLowerCase t) = true.
Proof.
  rewrite !includes_spec. intros (a & b & ->).
  exists (toLowerCase a), (toLowerCase b). now rewrite !toLowerCase_app.
Qed.

End StringFacts.

(* ===================================================================== *)
(** ** Binary64 rounding *)
(* ===================================================================== *)

Section Binary64Facts.
Import JS Binary64.

(** The model at values known from the browser: 0.1 is
    3602879701896397 / 2^55; 0.1 + 0.2 is 0.30000000000000004, not the
    binary64 value of 0.3; 99.9 + 299.9 + 100.2 is 499.99999999999994;
    1.15 / 2 * 100 is below 57.5; three times the smallest subnormal
    halved, a tie, goes to the even neighbour. *)
Lemma round_known_values :
  ofDecimal (1 # 10) == 3602879701896397 # 36028797018963968
  /\ add (ofDecimal (1 # 10)) (ofDecimal (2 # 10))
     == 5404319552844596 # 18014398509481984
  /\ ~ add (ofDecimal (1 # 10)) (ofDecimal (2 # 10)) == ofDecimal (3 # 10)
  /\ add (add (ofDecimal (999 # 10)) (ofDecimal (2999 # 10))) (ofDecimal (1002 # 10))
     == 500 - 2 ^ (-44)
  /\ mul (div (ofDecimal (115 # 100)) 2) 100 < 575 # 10
  /\ round (3 * 2 ^ (-1075)) == 2 * 2 ^ (-1074).
Proof. vm_compute. repeat split; discriminate. Qed.

(** Rounding reads the number, not its representation. *)
Lemma round_comp (x y : Q) : x == y -> round x = round y.
Proof. intro E. unfold round. rewrite (Qred_complete x y E). reflexivity. Qed.

Lemma roundEven_error (y : Q) : Qabs (inject_Z (roundEven y) - y) <= 1 # 2.
Proof.
  unfold roundEven.
  pose proof (Qfloor_le y) as Hlo. pose proof (Qlt_floor y) as Hhi.
  rewrite inject_Z_plus in Hhi. change (inject_Z 1) with 1 in Hhi.
  apply Qabs_Qle_condition.
  destruct (Qcompare_spec (y - inject_Z (Qfloor y)) (1 # 2)) as [E | L | G].
  - destruct (Z.even (Qfloor y));
      [| rewrite inject_Z_plus; change (inject_Z 1) with 1]; split; lra.
  - split; lra.
  - rewrite inject_Z_plus. change (inject_Z 1) with 1. split; lra.
Qed.

Lemma pow2_pos (e : Z) : 0 < 2 ^ e.
Proof. apply Qpower_0_lt. reflexivity. Qed.

Lemma ilog2_le (a : Q) : 0 < a -> 2 ^ ilog2 a <= a.
Proof.
  intro Ha. unfold ilog2.
  destruct (Qle_bool (2 ^ (Z.log2 (Qnum a) - Z.log2 (Z.pos (Qden a)))) a) eqn:E.
  - apply Qle_bool_iff. exact E.
  - clear E. destruct a as [n d]. cbn [Qnum Qden].
    assert (Hn : (0 < n)%Z).
    { unfold Qlt in Ha. cbn in Ha. lia. }
    pose proof (Z.log2_spec n Hn) as (Hn1 & _).
    pose proof (Z.log2_spec (Z.pos d) (Pos2Z.is_pos d)) as (_ & Hd2).
    pose proof (Z.log2_nonneg n) as Hln.
    pose proof (Z.log2_nonneg (Z.pos d)) as Hld.
    set (ln := Z.log2 n) in *. set (ld := Z.log2 (Z.pos d)) in *.
    replace (ln - ld - 1)%Z with (ln - Z.succ ld)%Z by lia.
    rewrite Qpower_minus by discriminate.
    rewrite <- (Zpower_Qpower 2 ln) by exact Hln.
    rewrite <- (Zpower_Qpower 2 (Z.succ ld)) by lia.
    rewrite (Qmake_Qdiv n d).
    apply le_int_inv in Hn1.
    assert (Hd : inject_Z (Z.pos d) <= inject_Z (2 ^ Z.succ ld))
      by (apply le_int_inv; lia).
    assert (Hdpos : 0 < inject_Z (Z.pos d)) by (apply (lt_int_inv 0); lia).
    assert (Hppos : 0 < inject_Z (2 ^ ln))
      by (apply (lt_int_inv 0); apply Z.pow_pos_nonneg; lia).
    set (P := inject_Z (2 ^ ln)) in *. set (D := inject_Z (2 ^ Z.succ ld)) in *.
    set (N := inject_Z n) in *. set (d' := inject_Z (Z.pos d)) in *.
    clearbody P D N d'.
    apply Qle_shift_div_r; [lra |].
    assert (E : N / d' * D == N * D / d') by (field; lra).
    rewrite E. apply Qle_shift_div_l; [lra |]. nra.
Qed.

(** A binary64 operation is off by at most one part in 2^53 of its exact
    result, and by at most 2^-1075 where the result is subnormal. *)
Lemma round_error (x : Q) : Qabs (round x - x) <= Qabs x * u + 2 ^ (-1075).
Proof.
  unfold round. pose proof (Qred_correct x) as Ex.
  set (x' := Qred x) in *. clearbody x'.
  pose proof (pow2_pos (-1075)) as Heta.
  destruct (Qeq_bool x' 0) eqn:E0.
  - apply Qeq_bool_iff in E0.
    assert (E : 0 - x == 0) by (rewrite <- Ex, E0; reflexivity).
    rewrite E. change (Qabs 0) with 0.
    pose proof (Qabs_nonneg x). unfold u. nra.
  - assert (Hx0 : ~ x' == 0).
    { intro H. apply Qeq_bool_iff in H. congruence. }
    assert (Ha : 0 < Qabs x').
    { pose proof (Qabs_nonneg x') as H.
      destruct (Qeq_dec (Qabs x') 0) as [H0 | H0]; [| lra].
      exfalso. apply Hx0. revert H0. apply Qabs_case; intros; lra. }
    pose proof (ilog2_le _ Ha) as Hlog.
    set (a := Qabs x') in *.
    set (e := Z.max (ilog2 a - 52) (-1074)).
    pose proof (pow2_pos e) as Hpe.
    pose proof (roundEven_error (a / 2 ^ e)) as Hm.
    set (m := inject_Z (roundEven (a / 2 ^ e))) in *. clearbody m.
    rewrite Qred_correct.
    (* the distance is that of the magnitudes *)
    assert (Hdist : Qabs ((if Qle_bool 0 x' then 1 else -1) * (m * 2 ^ e) - x)
                    == Qabs (m - a / 2 ^ e) * 2 ^ e).
    { rewrite <- (Qabs_pos (2 ^ e)) at 3 by lra.
      rewrite <- Qabs_Qmult.
      assert (Em : (m - a / 2 ^ e) * 2 ^ e == m * 2 ^ e - a) by (field; lra).
      rewrite Em. rewrite <- Ex. unfold a.
      destruct (Qle_bool 0 x') eqn:Es.
      - apply Qle_bool_iff in Es. rewrite (Qabs_pos x') by exact Es.
        apply Qabs_wd. ring.
      - assert (Hneg : x' <= 0).
        { destruct (Qlt_le_dec 0 x') as [H | H]; [| exact H].
          exfalso. apply Qlt_le_weak, Qle_bool_iff in H. congruence. }
        rewrite (Qabs_neg x') by exact Hneg.
        rewrite <- (Qabs_opp (m * 2 ^ e - - x')). apply Qabs_wd. ring. }
    rewrite Hdist.
    assert (Hhalf : Qabs (m - a / 2 ^ e) * 2 ^ e <= (1 # 2) * 2 ^ e).
    { apply Qmult_le_compat_r; [exact Hm | lra]. }
    assert (Hax : Qabs x == a) by (unfold a; rewrite Ex; reflexivity).
    rewrite Hax.
    destruct (Z.max_spec (ilog2 a - 52) (-1074)) as [(Hlt & He) | (Hle & He)];
      fold e in He; rewrite He in *.
    + change ((1 # 2) * 2 ^ (-1074)) with (2 ^ (-1075)) in Hhalf.
      assert (0 <= a * u) by (unfold u; nra). lra.
    + assert (E2 : (1 # 2) * 2 ^ (ilog2 a - 52) == 2 ^ ilog2 a * u).
      { rewrite Qpower_minus by discriminate. unfold u.
        change (2 ^ 52) with (4503599627370496 # 1).
        set (t := 2 ^ ilog2 a). field. }
      rewrite E2 in Hhalf.
      assert (2 ^ ilog2 a * u <= a * u) by (unfold u; nra). lra.
Qed.

(** The form used on amounts: off by at most [(|x| + 1) * u]. *)
Lemma round_close (x : Q) : Qabs (round x - x) <= (Qabs x + 1) * u.
Proof.
  pose proof (round_error x) as H.
  assert (He : 2 ^ (-1075) <= u) by (vm_compute; discriminate).
  lra.
Qed.

Lemma round_within (x M : Q) :
  Qabs x <= M -> x - (M + 1) * u <= round x <= x + (M + 1) * u.
Proof.
  intro HM. pose proof (round_close x) as H.
  apply Qabs_Qle_condition in H. unfold u in *. split; nra.
Qed.

End Binary64Facts.

(* ===================================================================== *)
(** ** Checkout totals in binary64 *)
(* ===================================================================== *)

Section Totals64Facts.
Import JS Binary64 Checkout64.

(** The threshold is tested on the running binary64 sum.  A cart of
    three lines priced 99.90, 299.90 and 100.20, one unit each: the
    prices add up to 500.00, and 500.00 is what the summary shows as the
    subtotal; the sum computed is 499.99999999999994, below the
    threshold, so the shipping fee is 50 and the total shown is 575.00.
    The same lines with the last two swapped are summed to 500 exactly:
    shipping is free and the total shown is 525.00.  At a subtotal of
    20.10 the tax computed is 1.00 (twice 0.5025 times 100 is just below
    100.5) and the total shown is 71.10. *)
Lemma running_sum_can_miss_the_threshold :
  let c := MoreSamples.threePrices in
  (999 # 10) * 1 + (2999 # 10) * 1 + (1002 # 10) * 1 == 500
  /\ calculateSubtotal c == 500 - 2 ^ (-44)
  /\ summary c = mkSummary "500.00" "12.50" "12.50" "25.00" "50" "575.00"
  /\ summary MoreSamples.threePricesSwapped
     = mkSummary "500.00" "12.50" "12.50" "25.00" "Free" "525.00"
  /\ summary (MoreSamples.basketOf (201 # 10) 1)
     = mkSummary "20.10" "0.50" "0.50" "1.00" "50" "71.10".
Proof. vm_compute. repeat split. Qed.

Lemma floor_unique (z : Q) (k : Z) :
  inject_Z k <= z -> z < inject_Z k + 1 -> Qfloor z = k.
Proof.
  intros Hlo Hhi.
  pose proof (Qfloor_le z) as H1. pose proof (Qlt_floor z) as H2.
  rewrite inject_Z_plus in H2. change (inject_Z 1) with 1 in H2.
  assert (A : (Qfloor z < k + 1)%Z).
  { apply lt_int. rewrite inject_Z_plus. change (inject_Z 1) with 1. lra. }
  assert (B : (k < Qfloor z + 1)%Z).
  { apply lt_int. rewrite inject_Z_plus. change (inject_Z 1) with 1. lra. }
  lia.
Qed.

(** A whole number of cents divided by 100 is printed as that number of
    cents. *)
Lemma cents_displayed (k : Z) :
  (0 <= k <= 10000000000)%Z ->
  toFixed_units 2 (div (inject_Z k) 100) = k
  /\ Qabs (div (inject_Z k) 100 - inject_Z k / 100) <= 1 # 10000000.
Proof.
  intros (Hk0 & Hk1). unfold div.
  pose proof (le_int_inv _ _ Hk0) as Hq0. pose proof (le_int_inv _ _ Hk1) as Hq1.
  change (inject_Z 0) with 0 in Hq0.
  change (inject_Z 10000000000) with 10000000000 in Hq1.
  set (y := inject_Z k / 100).
  assert (Hy : y * 100 == inject_Z k) by (unfold y; field).
  set (q := inject_Z k) in *.
  assert (Eq : inject_Z k = q) by reflexivity.
  assert (H1 : k <> 0%Z -> 1 <= q).
  { intro Hne. apply (le_int_inv k 1). lia. }
  assert (H0 : k = 0%Z -> q == 0).
  { intros ->. reflexivity. }
  clearbody y q.
  assert (Hr : y - (100000000 + 1) * u <= round y <= y + (100000000 + 1) * u).
  { apply round_within. apply Qabs_Qle_condition. split; lra. }
  unfold u in Hr.
  assert (Hclose : Qabs (round y - y) <= 1 # 10000000).
  { apply Qabs_Qle_condition. split; lra. }
  split; [| exact Hclose].
  unfold toFixed_units. change (inject_Z (10 ^ Z.of_nat 2)) with 100.
  assert (Hpos : 0 <= round y).
  { destruct (Z.eq_dec k 0) as [E0 | Hne].
    - specialize (H0 E0). assert (E : y == 0) by lra.
      rewrite (round_comp y 0 E). vm_compute. discriminate.
    - specialize (H1 Hne). lra. }
  rewrite (Qabs_pos _ Hpos).
  apply floor_unique; rewrite Eq; lra.
Qed.

Lemma GST_RATES_CGST_value : GST_RATES_CGST = 5 # 2.
Proof. vm_compute. reflexivity. Qed.

Lemma GST_RATES_SGST_value : GST_RATES_SGST = 5 # 2.
Proof. vm_compute. reflexivity. Qed.

(** [(subtotal * 2.5) / 100] is 2.5 per cent of the subtotal, up to the
    rounding of the two operations. *)
Lemma half_rate (s : Q) :
  0 <= s <= 1000000000 ->
  let c := div (mul s (5 # 2)) 100 in
  Qabs (c - s * (25 # 1000)) <= 1 # 100000000.
Proof.
  intros (Hs0 & Hs1) c. subst c. unfold div, mul.
  assert (Ha : s * (5 # 2) - (2500000000 + 1) * u <= round (s * (5 # 2))
               <= s * (5 # 2) + (2500000000 + 1) * u).
  { apply round_within. apply Qabs_Qle_condition. split; lra. }
  unfold u in Ha. set (a := round (s * (5 # 2))) in *. clearbody a.
  set (y := a / 100). assert (Hy : y * 100 == a) by (unfold y; field).
  clearbody y.
  assert (Hc : y - (25000001 + 1) * u <= round y <= y + (25000001 + 1) * u).
  { apply round_within. apply Qabs_Qle_condition. split; lra. }
  unfold u in Hc. apply Qabs_Qle_condition. split; lra.
Qed.

(** [Math.round(x * 100)]: the cents of an amount. *)
Lemma cents_of (x : Q) :
  - (1 # 1000) <= x <= 60000000 ->
  let k := Math_round (mul x 100) in
  Qabs (inject_Z k - x * 100) <= (1 # 2) + (1 # 1000000)
  /\ (0 <= k <= 6000000001)%Z.
Proof.
  intros (Hx0 & Hx1) k. subst k. unfold mul.
  assert (Hm : x * 100 - (6000000000 + 1) * u <= round (x * 100)
               <= x * 100 + (6000000000 + 1) * u).
  { apply round_within. apply Qabs_Qle_condition. split; lra. }
  unfold u in Hm. set (m := round (x * 100)) in *. clearbody m.
  destruct (Math_round_bounds m) as (Hlo & Hhi).
  assert (H0 : (-1 < Math_round m)%Z).
  { apply lt_int. change (inject_Z (-1)) with (-1). lra. }
  assert (H1 : (Math_round m < 6000000002)%Z).
  { apply lt_int. change (inject_Z 6000000002) with 6000000002. lra. }
  split; [| lia]. apply Qabs_Qle_condition. split; lra.
Qed.

(** What the summary prints for the tax: whole cents, each close to its
    share of the subtotal. *)
Lemma calculateGST_cents (s : Q) :
  0 <= s <= 1000000000 ->
  let g := calculateGST s in
  exists n t : Z,
    Checkout.cgst g = div (inject_Z n) 100
    /\ Checkout.totalGST g = div (inject_Z t) 100
    /\ (0 <= n <= 6000000001)%Z /\ (0 <= t <= 6000000001)%Z
    /\ Qabs (inject_Z n - s * (25 # 10)) <= (1 # 2) + (1 # 100000)
    /\ Qabs (inject_Z t - s * 5) <= (1 # 2) + (1 # 100000).
Proof.
  intros Hs g. subst g. unfold calculateGST.
  cbn [Checkout.cgst Checkout.totalGST]. rewrite GST_RATES_CGST_value, GST_RATES_SGST_value.
  pose proof (half_rate s Hs) as Hc. cbv zeta in Hc.
  set (c := div (mul s (5 # 2)) 100) in *. clearbody c.
  apply Qabs_Qle_condition in Hc. destruct Hs as (Hs0 & Hs1).
  assert (Ht : c + c - (50000001 + 1) * u <= add c c <= c + c + (50000001 + 1) * u).
  { apply round_within. apply Qabs_Qle_condition. split; lra. }
  unfold u in Ht. set (tt := add c c) in *. clearbody tt.
  destruct (cents_of c) as (Hn & Hn01); [split; lra |].
  destruct (cents_of tt) as (Hk & Hk01); [split; lra |].
  exists (Math_round (mul c 100)), (Math_round (mul tt 100)).
  unfold round2.
  set (n := inject_Z (Math_round (mul c 100))) in *.
  set (t := inject_Z (Math_round (mul tt 100))) in *. clearbody n t.
  apply Qabs_Qle_condition in Hn, Hk.
  split; [reflexivity |]. split; [reflexivity |]. split; [exact Hn01 |].
  split; [exact Hk01 |].
  split; apply Qabs_Qle_condition; split; lra.
Qed.

(** The two halves [calculateGST] returns are equal.  The summary prints
    each as a whole number [n] of cents that is within half a cent of
    2.5% of the subtotal, up to the rounding of the binary64 operations
    (a hundred-thousandth of a cent for subtotals up to 10^9), and the
    total tax as [t] cents, within the same distance of 5%.  The halves
    are rounded separately from the total, so what the summary shows as
    CGST + SGST can differ from what it shows as Total GST, by one cent
    and never more. *)
Theorem calculateGST_halves_and_total (subtotal : Q) :
  0 <= subtotal <= 1000000000 ->
  let g := calculateGST subtotal in
  let n := toFixed_units 2 (Checkout.cgst g) in
  let t := toFixed_units 2 (Checkout.totalGST g) in
  Checkout.cgst g = Checkout.sgst g
  /\ Qabs (inject_Z n - subtotal * (25 # 10)) <= (1 # 2) + (1 # 100000)
  /\ Qabs (inject_Z t - subtotal * 5) <= (1 # 2) + (1 # 100000)
  /\ (-1 <= 2 * n - t <= 1)%Z.
Proof.
  intros Hs g n t.
  destruct (calculateGST_cents subtotal Hs) as (n' & t' & En & Et & Hn01 & Ht01 & Hn & Ht).
  fold g in En, Et.
  assert (En' : n = n').
  { unfold n. rewrite En. apply cents_displayed. lia. }
  assert (Et' : t = t').
  { unfold t. rewrite Et. apply cents_displayed. lia. }
  rewrite En', Et'. clear En' Et' n t.
  split.
  { unfold g, calculateGST. cbn [Checkout.cgst Checkout.sgst].
    rewrite GST_RATES_CGST_value, GST_RATES_SGST_value. reflexivity. }
  split; [exact Hn |]. split; [exact Ht |].
  apply Qabs_Qle_condition in Hn, Ht.
  assert (H1 : (-2 < 2 * n' - t')%Z).
  { apply lt_int. rewrite inject_Z_sub, inject_Z_mult.
    change (inject_Z (-2)) with (-2). change (inject_Z 2) with 2. lra. }
  assert (H2 : (2 * n' - t' < 2)%Z).
  { apply lt_int. rewrite inject_Z_sub, inject_Z_mult.
    change (inject_Z 2) with 2. lra. }
  lia.
Qed.

(** At a subtotal of 23.00 the half computed is just below 0.575 and is
    printed as 0.57; the total tax is printed as 1.15, one cent more
    than the two halves together. *)
Lemma calculateGST_halves_and_total_witness :
  let g := calculateGST 23 in
  toFixed 2 (Checkout.cgst g) = "0.57" /\ toFixed 2 (Checkout.totalGST g) = "1.15"
  /\ (2 * toFixed_units 2 (Checkout.cgst g) - toFixed_units 2 (Checkout.totalGST g)
      = -1)%Z
  /\ Qabs (inject_Z (toFixed_units 2 (Checkout.cgst g)) - 23 * (25 # 10))
     <= (1 # 2) + (1 # 100000).
Proof.
  cbv zeta.
  assert (Hs : 0 <= 23 <= 1000000000) by (split; discriminate).
  pose proof (calculateGST_halves_and_total 23 Hs) as H.
  cbv zeta in H. destruct H as (_ & Hn & _).
  split; [vm_compute; reflexivity |]. split; [vm_compute; reflexivity |].
  split; [vm_compute; reflexivity | exact Hn].
Defined.

(** The total is the subtotal plus 5% plus the shipping fee, up to half
    a cent of tax rounding and the rounding of the binary64
    operations. *)
Lemma total_close (c : list CartItem.t) :
  0 <= calculateSubtotal c <= 1000000000 ->
  Qabs (total c - (calculateSubtotal c * (105 # 100) + shipping (calculateSubtotal c)))
  <= (1 # 200) + (1 # 1000000).
Proof.
  intro Hs. unfold total.
  destruct (calculateGST_cents _ Hs) as (n & t & _ & Et & _ & Ht01 & _ & Ht).
  cbv zeta in Et. rewrite Et.
  destruct (cents_displayed t) as (_ & Hd); [lia |].
  set (s := calculateSubtotal c) in *. clearbody s.
  set (T := div (inject_Z t) 100) in *. clearbody T.
  assert (Hy : inject_Z t / 100 * 100 == inject_Z t) by field.
  set (y := inject_Z t / 100) in *. clearbody y.
  set (q := inject_Z t) in *. clearbody q.
  apply Qabs_Qle_condition in Hd, Ht. destruct Hs as (Hs0 & Hs1).
  assert (Hsh : 0 <= shipping s <= 50).
  { unfold shipping. destruct (geb s 500); split; discriminate. }
  set (sh := shipping s) in *. clearbody sh.
  assert (H1 : s + T - (1100000000 + 1) * u <= add s T
               <= s + T + (1100000000 + 1) * u).
  { apply round_within. apply Qabs_Qle_condition. split; lra. }
  unfold u in H1. set (a := add s T) in *. clearbody a.
  assert (H2 : a + sh - (1100000000 + 1) * u <= add a sh
               <= a + sh + (1100000000 + 1) * u).
  { apply round_within. apply Qabs_Qle_condition. split; lra. }
  unfold u in H2. apply Qabs_Qle_condition. split; lra.
Qed.


Lemma shipping_comp (x y : Q) : x == y -> shipping x = shipping y.
Proof.
  intro E. unfold shipping, geb.
  assert (H : Qle_bool 500 x = Qle_bool 500 y) by (rewrite E; reflexivity).
  rewrite H. reflexivity.
Qed.



(** The free-shipping threshold is a step down: a cart whose subtotal,
    as computed, is just below 500 costs more in total than a cart whose
    subtotal is at or above 500, as long as the two subtotals are less
    than about 47.60 apart (1.05 times the difference, plus a cent of
    tax rounding and the rounding of the binary64 operations, stays
    below the 50 of shipping). *)
Theorem free_shipping_threshold_is_a_step_down (c1 c2 : list CartItem.t) :
  calculateSubtotal c1 < 500 -> 500 <= calculateSubtotal c2 ->
  (calculateSubtotal c2 - calculateSubtotal c1) * (105 # 100)
  + (1 # 100) + (1 # 100000) < 50 ->
  total c2 < total c1.
Proof.
  intros H1 H2 Hd.
  assert (B1 : 0 <= calculateSubtotal c1 <= 1000000000) by (split; lra).
  assert (B2 : 0 <= calculateSubtotal c2 <= 1000000000) by (split; lra).
  pose proof (total_close c1 B1) as T1. pose proof (total_close c2 B2) as T2.
  unfold shipping in T1, T2.
  apply geb_false in H1. apply geb_true in H2. rewrite H1 in T1. rewrite H2 in T2.
  apply geb_false in H1. apply geb_true in H2.
  apply Qabs_Qle_condition in T1, T2.
  set (s1 := calculateSubtotal c1) in *. set (s2 := calculateSubtotal c2) in *.
  set (t1 := total c1) in *. set (t2 := total c2) in *.
  clearbody s1 s2 t1 t2. lra.
Qed.

(** The three lines that add up to 500.00 but are summed to just below
    it, against a cart of two units at 250.00: the first pays shipping
    and shows 575.00, the second shows 525.00. *)
Lemma free_shipping_threshold_is_a_step_down_witness :
  total (MoreSamples.basketOf 250 2) < total MoreSamples.threePrices
  /\ totalDisplayed MoreSamples.threePrices = "575.00"
  /\ totalDisplayed (MoreSamples.basketOf 250 2) = "525.00".
Proof.
  assert (H1 : calculateSubtotal MoreSamples.threePrices < 500)
    by (vm_compute; reflexivity).
  assert (H2 : 500 <= calculateSubtotal (MoreSamples.basketOf 250 2))
    by (vm_compute; discriminate).
  assert (H3 : (calculateSubtotal (MoreSamples.basketOf 250 2)
                - calculateSubtotal MoreSamples.threePrices) * (105 # 100)
               + (1 # 100) + (1 # 100000) < 50)
    by (vm_compute; reflexivity).
  pose proof (free_shipping_threshold_is_a_step_down _ _ H1 H2 H3) as H.
  split; [exact H |]. vm_compute. split; reflexivity.
Defined.

End Totals64Facts.

(* ===================================================================== *)
(** ** The GST ledger in binary64 *)
(* ===================================================================== *)

Section Ledger64Facts.
Import JS Binary64 Orders64.

Lemma storedGstAmountPerUnit_stored (item : Item.t) (g : Q) :
  storedTaxAmount item g -> 0 < g -> storedGstAmountPerUnit item = g.
Proof.
  intros Hg Hpos. unfold storedGstAmountPerUnit, parseFloatNum, or_.
  pose proof (truthyNum_pos g Hpos) as Ht.
  destruct Hg as [-> | (-> & ->)]; cbn [truthy]; rewrite ?Ht; cbn [orNum];
    rewrite Ht; reflexivity.
Qed.

Lemma storedBasePrice_derived (item : Item.t) (g b : Q) :
  storedTaxAmount item g -> 0 < g -> derivableBasePrice item g b ->
  storedBasePrice item = b.
Proof.
  intros Hg Hpos Hb. unfold storedBasePrice.
  rewrite (storedGstAmountPerUnit_stored item g Hg Hpos).
  unfold parseFloatNum.
  destruct Hb as [(-> & Hb0) | (Hnone & Hp & ->)].
  - apply truthyNum_true in Hb0. cbn [orNum]. rewrite Hb0.
    unfold truthyNum in Hb0. apply negb_true_iff in Hb0. rewrite Hb0. reflexivity.
  - assert (E : orNum (num (Item.basePrice item)) 0 = 0).
    { destruct (num (Item.basePrice item)) as [z |]; [| reflexivity].
      cbn in Hnone |- *. rewrite Hnone. reflexivity. }
    rewrite E. apply truthyNum_true in Hp. rewrite Hp.
    apply gtb_true in Hpos. rewrite Hpos. reflexivity.
Qed.

(** C2, as amended: for a line item that passes the guard of Method 1
    and whose stored per-unit tax amount [g] and base price [b] (the
    stored one, or [price - g] when none is stored) are both positive,
    [getIndividualProductGST] returns the rate [(g / b) * 100], computed
    in binary64 and formatted to one decimal, whatever [gstRate] the
    item stores, and returns the two components each as
    [(g * quantity) / 2], computed in binary64 and formatted to two
    decimals. *)
Theorem tierA_rate_and_split (item : Item.t) (orderData : Order.t) (g b : Q) :
  Orders.hasStoredGst item = true ->
  storedTaxAmount item g -> 0 < g ->
  derivableBasePrice item g b -> 0 < b ->
  let r := getIndividualProductGST item orderData in
  GstData.gstRate r = toFixed 1 (mul (div g b) 100)
  /\ GstData.basePrice r = toFixed 2 b
  /\ GstData.gstAmountPerUnit r = toFixed 2 g
  /\ GstData.totalGstAmount r = toFixed 2 (mul g (quantity item))
  /\ GstData.cgstAmount r = toFixed 2 (div (mul g (quantity item)) 2)
  /\ GstData.sgstAmount r = toFixed 2 (div (mul g (quantity item)) 2).
Proof.
  intros Htier Hg Hgpos Hb Hbpos r. subst r.
  unfold getIndividualProductGST. rewrite Htier.
  cbn [GstData.gstRate GstData.basePrice GstData.gstAmountPerUnit
       GstData.totalGstAmount GstData.cgstAmount GstData.sgstAmount].
  unfold storedGstRate.
  rewrite (storedBasePrice_derived item g b Hg Hgpos Hb).
  rewrite (storedGstAmountPerUnit_stored item g Hg Hgpos).
  apply gtb_true in Hgpos, Hbpos. rewrite Hgpos, Hbpos. cbn [andb].
  repeat split; reflexivity.
Qed.

(** C2, at one unit priced 118.45 with a stored tax amount of 18.45 and
    a stored rate of 5: the base price is 100.00; the quotient computed
    is just below 18.45, so the rate returned is 18.4; half of 18.45 is
    just below 9.225, so each component is 9.22. *)
Lemma tierA_rate_and_split_witness :
  let item := Samples.item (11845 # 100) 1 (Some (1845 # 100)) (Some 5) in
  let r := getIndividualProductGST item (Samples.order None) in
  GstData.gstRate r = "18.4" /\ GstData.basePrice r = "100.00"
  /\ GstData.cgstAmount r = "9.22" /\ GstData.sgstAmount r = "9.22".
Proof.
  cbv zeta.
  set (item := Samples.item (11845 # 100) 1 (Some (1845 # 100)) (Some 5)).
  set (g := ofDecimal (1845 # 100)).
  assert (H1 : Orders.hasStoredGst item = true) by reflexivity.
  assert (H2 : storedTaxAmount item g) by (left; reflexivity).
  assert (H3 : 0 < g) by (vm_compute; reflexivity).
  assert (H4 : derivableBasePrice item g (sub (price item) g)).
  { right. split; [reflexivity |]. split; [vm_compute; discriminate | reflexivity]. }
  assert (H5 : 0 < sub (price item) g) by (vm_compute; reflexivity).
  pose proof (tierA_rate_and_split item (Samples.order None) g _ H1 H2 H3 H4 H5) as H.
  cbv zeta in H. destruct H as (Hr & Hb & _ & _ & Hc & Hs).
  rewrite Hr, Hb, Hc, Hs. vm_compute. repeat split.
Defined.

(** C2 as stated fails: at a unit priced 100.00 with a stored tax amount
    of 5.00 the base price is 95.00 and the rate returned is 5.3, which
    is not (5 / 95) * 100 and is off by more than 0.01. *)
Lemma tierA_rate_is_rounded_to_one_decimal :
  let r := getIndividualProductGST (Samples.item 100 1 (Some 5) None)
                                   (Samples.order None) in
  GstData.basePrice r = "95.00"
  /\ GstData.gstRate r = "5.3"
  /\ JS.parseFloat (GstData.gstRate r) = Some (5 + 3 / 10)
  /\ (1 # 100) < Qabs ((5 + 3 / 10) - (5 / 95) * 100).
Proof. vm_compute. repeat split. Qed.



(** C6, as amended: for an order whose [items] field is not an array and
    whose stored [gstAmount] [t] is positive, [calculateGSTBreakdown]
    returns each component as [t / 2] rounded to cents and the total as
    [t] rounded to cents, each rounding being
    [Math.round(x * 100) / 100] in binary64; the rate is
    [(t / taxableBase) * 100] rounded to one decimal in the same way,
    where the taxable base is the stored [discountedSubtotal] when there
    is one and else the subtotal after discount that is passed in, and
    is 0 when that base is not positive.  When the [items] field is not
    an array and no positive [gstAmount] is stored, every value is
    zero. *)
Theorem order_level_gst_fallback (o : Order.t) (subtotalAfterDiscount : Q) :
  Order.items o = None ->
  let r := calculateGSTBreakdown o subtotalAfterDiscount in
  let taxableBase := orNum (num (Order.discountedSubtotal o)) subtotalAfterDiscount in
  (forall t, num (Order.gstAmount o) = Some t -> 0 < t ->
     GstBreakdown.cgst r = round2 (div t 2)
     /\ GstBreakdown.sgst r = round2 (div t 2)
     /\ GstBreakdown.totalGST r = round2 t
     /\ (0 < taxableBase ->
         GstBreakdown.totalRate r = round1 (mul (div t taxableBase) 100)
         /\ GstBreakdown.cgstRate r = round1 (div (mul (div t taxableBase) 100) 2)
         /\ GstBreakdown.sgstRate r = round1 (div (mul (div t taxableBase) 100) 2))
     /\ (taxableBase <= 0 ->
         GstBreakdown.totalRate r == 0 /\ GstBreakdown.cgstRate r == 0
         /\ GstBreakdown.sgstRate r == 0))
  /\ ((forall t, num (Order.gstAmount o) = Some t -> t <= 0) ->
      r = GstBreakdown.mk 0 0 0 0 0 0).
Proof.
  intros Hitems r taxableBase. subst r. unfold calculateGSTBreakdown. rewrite Hitems.
  split.
  - intros t Ht Hpos. rewrite Ht. cbn [truthy orNum].
    rewrite (truthyNum_pos t Hpos). cbn [andb].
    pose proof Hpos as Hgt. apply gtb_true in Hgt. rewrite Hgt.
    fold taxableBase.
    cbn [GstBreakdown.cgst GstBreakdown.sgst GstBreakdown.totalGST
         GstBreakdown.totalRate GstBreakdown.cgstRate GstBreakdown.sgstRate].
    do 3 (split; [reflexivity |]).
    split; intros Hb.
    + apply gtb_true in Hb. rewrite Hb. repeat split; reflexivity.
    + apply gtb_false in Hb. rewrite Hb. vm_compute. repeat split; reflexivity.
  - intros Hnone. destruct (num (Order.gstAmount o)) as [t |]; [| reflexivity].
    specialize (Hnone t eq_refl). cbn [truthy orNum].
    destruct (truthyNum t); [| reflexivity]. cbn [andb].
    apply gtb_false in Hnone. rewrite Hnone. reflexivity.
Qed.

(** C6, at an order without items that stores a tax amount of 1.15 and a
    discounted subtotal of 23.00: half of 1.15 times 100 is just below
    57.5, so each component is 0.57; the rate is 5. *)
Lemma order_level_gst_fallback_witness :
  let r := calculateGSTBreakdown (Samples.orderLevel (Some (115 # 100)) (Some 23)) 0 in
  toFixed 2 (GstBreakdown.cgst r) = "0.57" /\ toFixed 2 (GstBreakdown.sgst r) = "0.57"
  /\ toFixed 2 (GstBreakdown.totalGST r) = "1.15" /\ GstBreakdown.totalRate r == 5.
Proof.
  cbv zeta.
  set (o := Samples.orderLevel (Some (115 # 100)) (Some 23)).
  assert (H1 : Order.items o = None) by reflexivity.
  pose proof (order_level_gst_fallback o 0 H1) as (H & _).
  assert (H2 : num (Order.gstAmount o) = Some (ofDecimal (115 # 100))) by reflexivity.
  assert (H3 : 0 < ofDecimal (115 # 100)) by (vm_compute; reflexivity).
  destruct (H _ H2 H3) as (Hc & Hs & Ht & Hr & _).
  assert (H4 : 0 < orNum (num (Order.discountedSubtotal o)) 0)
    by (vm_compute; reflexivity).
  destruct (Hr H4) as (Hrate & _).
  rewrite Hc, Hs, Ht, Hrate. vm_compute. repeat split.
Defined.

(** C6 as stated fails: a stored tax amount of 45.25 is split into two
    components of 22.63, not 22.625 each, and the two no longer add up to
    the stored amount. *)
Lemma order_level_split_is_rounded_to_cents :
  let r := calculateGSTBreakdown (Samples.orderLevel (Some (4525 # 100)) (Some 905)) 0 in
  GstBreakdown.cgst r == ofDecimal (2263 # 100)
  /\ toFixed 2 (GstBreakdown.cgst r) = "22.63"
  /\ ~ GstBreakdown.cgst r == (4525 # 100) / 2
  /\ ~ add (GstBreakdown.cgst r) (GstBreakdown.sgst r) == ofDecimal (4525 # 100).
Proof. vm_compute. repeat split; discriminate. Qed.

(** An order whose [items] is an empty array takes the first branch of
    [calculateGSTBreakdown]: every value is zero although a tax amount of
    45.00 is stored with the order. *)
Lemma empty_items_array_hides_order_level_gst :
  let o := Order.mk (Some Samples.orderId) None None None None None
                    (Some []) None (Some 900) (Some 45) None None None in
  let r := calculateGSTBreakdown o 900 in
  GstBreakdown.cgst r == 0 /\ GstBreakdown.sgst r == 0
  /\ GstBreakdown.totalGST r == 0 /\ GstBreakdown.totalRate r == 0.
Proof. vm_compute. repeat split. Qed.

End Ledger64Facts.

(* ===================================================================== *)
(** ** The order card against the invoice, in binary64 *)
(* ===================================================================== *)

Section OrderRowsFacts.
Import JS Binary64 Orders64.

Lemma toFixed_2_nonempty (x : Q) : toFixed 2 x <> "".
Proof.
  unfold toFixed. destruct (ltb x 0); cbn; [discriminate |].
  destruct (substring 0 _ _); discriminate.
Qed.

(** The price breakdown of an order card and the totals block of the
    invoice of the same order agree on subtotal, discount and total.
    They agree on shipping exactly when a non-zero charge is stored or
    the subtotal after discount, as computed, reaches 500: the card
    reads a missing or zero charge as "Free" ([shippingCharge || 0]),
    the invoice recomputes it from the threshold and prints 50.00 below
    it. *)
Theorem order_card_and_invoice (orderData : Order.t) :
  let card := priceBreakdown orderData in
  let doc := invoiceTotals orderData in
  subtotalRow card = subtotalRow doc
  /\ discountRow card = discountRow doc
  /\ totalRow card = totalRow doc
  /\ (shippingRow card = shippingRow doc
      <-> truthy (num (Order.shippingCharge orderData)) = true
          \/ 500 <= subtotalAfterDiscount orderData)
  /\ (truthy (num (Order.shippingCharge orderData)) = false ->
      subtotalAfterDiscount orderData < 500 ->
      shippingRow card = "Free" /\ shippingRow doc = "50.00").
Proof.
  intros card doc. subst card doc. unfold priceBreakdown, invoiceTotals.
  cbn [subtotalRow discountRow totalRow shippingRow].
  split; [reflexivity |]. split; [reflexivity |]. split.
  { destruct (num (Order.totalAmount orderData)) as [x |]; [| reflexivity].
    unfold orNum. destruct (truthyNum x) eqn:E.
    - unfold orStrLit, truthyStr. destruct (toFixed 2 x) eqn:F; [| reflexivity].
      exfalso. exact (toFixed_2_nonempty x F).
    - unfold truthyNum in E. apply negb_false_iff, Qeq_bool_iff in E.
      rewrite (toFixed_comp 2 x 0 E). reflexivity. }
  destruct (truthy (num (Order.shippingCharge orderData))) eqn:Ht.
  - assert (E : forall d, orNum (num (Order.shippingCharge orderData)) d
                          = orNum (num (Order.shippingCharge orderData)) 0).
    { intro d. unfold orNum. destruct (num (Order.shippingCharge orderData)) as [x |];
        [| discriminate]. cbn in Ht. rewrite Ht. reflexivity. }
    rewrite (E (if geb _ 500 then 0 else 50)).
    split; [split; [auto | reflexivity] | discriminate].
  - assert (E : forall d, orNum (num (Order.shippingCharge orderData)) d = d).
    { intro d. unfold orNum. destruct (num (Order.shippingCharge orderData)) as [x |];
        [| reflexivity]. cbn in Ht. rewrite Ht. reflexivity. }
    rewrite !E. change (Qeq_bool 0 0) with true. cbv iota.
    destruct (geb (subtotalAfterDiscount orderData) 500) eqn:Hg.
    + apply geb_true in Hg. split.
      * split; [auto | reflexivity].
      * intros _ Hlt. lra.
    + apply geb_false in Hg. split.
      * split; [discriminate |]. intros [H | H]; [discriminate | lra].
      * intros _ _. split; reflexivity.
Qed.

(** An order of three lines priced 99.90, 299.90 and 100.20 that stores
    no shipping charge: the card and the invoice both print a subtotal
    of 500.00; the sum as computed stays below 500, so the invoice
    prints a shipping charge of 50.00 where the card prints "Free". *)
Lemma order_card_and_invoice_witness :
  let o := MoreSamples.threeLines in
  subtotalRow (invoiceTotals o) = "500.00"
  /\ shippingRow (priceBreakdown o) = "Free"
  /\ shippingRow (invoiceTotals o) = "50.00"
  /\ totalRow (priceBreakdown o) = totalRow (invoiceTotals o).
Proof.
  cbv zeta.
  pose proof (order_card_and_invoice MoreSamples.threeLines) as H.
  cbv zeta in H. destruct H as (_ & _ & Ht & _ & Hs).
  assert (H1 : truthy (num (Order.shippingCharge MoreSamples.threeLines)) = false)
    by reflexivity.
  assert (H2 : subtotalAfterDiscount MoreSamples.threeLines < 500)
    by (vm_compute; reflexivity).
  destruct (Hs H1 H2) as (Hc & Hi).
  split; [vm_compute; reflexivity |]. split; [exact Hc |]. split; [exact Hi | exact Ht].
Defined.

End OrderRowsFacts.

(* ===================================================================== *)
(** ** The shipping address of a checkout *)
(* ===================================================================== *)

Section AddressFacts.
Import JS Checkout.

Lemma nonEmpty_true (s : string) : nonEmpty s = true -> s <> "".
Proof. destruct s; [discriminate | discriminate]. Qed.

Lemma truthyStr_orStrLit (o : option string) (d : string) :
  truthyStr o = true -> o = Some (orStrLit o d) /\ orStrLit o d <> "".
Proof. destruct o as [[| c s] |]; try discriminate. intros _. split; [reflexivity | discriminate]. Qed.

Lemma join_cons_nonempty (sep x : string) (l : list string) :
  x <> "" -> join sep (x :: l) <> "".
Proof. destruct x as [| c x]; [congruence |]. intros _. destruct l; discriminate. Qed.

(** An address that [validateAddress] accepts is complete in the form in
    which [getShippingAddress] sends it, for the registered address as
    for a custom one: address line, city and state are not empty and the
    pincode has six characters. *)
Theorem validated_address_is_complete (p : Page) :
  snd (validateAddress p) = true ->
  let a := getShippingAddress p in
  ShippingAddress.address a <> ""
  /\ ShippingAddress.city a <> ""
  /\ ShippingAddress.state a <> ""
  /\ String.length (ShippingAddress.pincode a) = 6%nat.
Proof.
  unfold validateAddress, getShippingAddress, userAddress.
  destruct (useRegisteredAddress p), (user p) as [u |];
    try destruct (User.address u) as [a |]; cbn [snd].
  1: { destruct (truthyStr (UserAddress.street a)) eqn:Hs; [| discriminate].
       destruct (truthyStr (UserAddress.city a)) eqn:Hc; [| discriminate].
       destruct (truthyStr (UserAddress.state a)) eqn:Ht; [| discriminate].
       destruct (truthyStr (UserAddress.pincode a)) eqn:Hp; [| discriminate].
       cbn [andb negb].
       destruct (String.length (orStrLit (UserAddress.pincode a) "") =? 6)%nat eqn:Hl;
         [| discriminate].
       intros _. cbn [ShippingAddress.address ShippingAddress.city ShippingAddress.state
                      ShippingAddress.pincode].
       unfold orStr. rewrite Hc, Ht, Hp.
       split; [| split; [| split]].
       - unfold formatAddress, pushIf at 1. rewrite Hs. cbn [app].
         apply join_cons_nonempty. apply (truthyStr_orStrLit _ "" Hs).
       - apply (truthyStr_orStrLit _ "" Hc).
       - apply (truthyStr_orStrLit _ "" Ht).
       - apply Nat.eqb_eq, Hl. }
  all: destruct (nonEmpty (ShippingAddress.address (customAddress p))) eqn:Ha; [| discriminate];
       destruct (nonEmpty (ShippingAddress.city (customAddress p))) eqn:Hc; [| discriminate];
       destruct (nonEmpty (ShippingAddress.state (customAddress p))) eqn:Ht; [| discriminate];
       destruct (nonEmpty (ShippingAddress.pincode (customAddress p))) eqn:Hp; [| discriminate];
       cbn [negb orb];
       destruct (String.length (ShippingAddress.pincode (customAddress p)) =? 6)%nat eqn:Hl;
         [| discriminate];
       intros _; repeat split;
         [apply nonEmpty_true, Ha | apply nonEmpty_true, Hc | apply nonEmpty_true, Ht
         | apply Nat.eqb_eq, Hl].
Qed.

(** The registered address of the sample shopper. *)
Lemma validated_address_is_complete_witness :
  let a := getShippingAddress (Samples.page "cod") in
  snd (validateAddress (Samples.page "cod")) = true
  /\ ShippingAddress.address a = "12 MG Road, Pune, MH, 411001"
  /\ ShippingAddress.city a <> ""
  /\ String.length (ShippingAddress.pincode a) = 6%nat.
Proof.
  cbv zeta.
  assert (H : snd (validateAddress (Samples.page "cod")) = true) by reflexivity.
  pose proof (validated_address_is_complete _ H) as (_ & Hc & _ & Hp).
  split; [exact H |]. split; [reflexivity |]. split; [exact Hc | exact Hp].
Defined.

(** What [validateAddress] asks of a custom address is that address line,
    city and state are not empty and that the pincode has six characters:
    the characters need not be digits, and the phone number is not
    looked at. *)
Theorem custom_pincode_is_checked_for_length_only (p : Page) :
  useRegisteredAddress p = false ->
  ShippingAddress.address (customAddress p) <> "" ->
  ShippingAddress.city (customAddress p) <> "" ->
  ShippingAddress.state (customAddress p) <> "" ->
  String.length (ShippingAddress.pincode (customAddress p)) = 6%nat ->
  validateAddress p = (p, true).
Proof.
  intros Hr Ha Hc Hs Hp. unfold validateAddress, getShippingAddress. rewrite Hr.
  assert (ne : forall s, s <> "" -> nonEmpty s = true)
    by (intros [| c s] H; [congruence | reflexivity]).
  rewrite (ne _ Ha), (ne _ Hc), (ne _ Hs).
  assert (Hn : nonEmpty (ShippingAddress.pincode (customAddress p)) = true)
    by (unfold nonEmpty; rewrite Hp; reflexivity).
  rewrite Hn, Hp. reflexivity.
Qed.

(** A pincode of six letters and no phone number pass. *)
Lemma custom_pincode_is_checked_for_length_only_witness :
  ShippingAddress.pincode (customAddress MoreSamples.pageWithCustomAddress) = "ABCDEF"
  /\ ShippingAddress.phone (customAddress MoreSamples.pageWithCustomAddress) = ""
  /\ snd (validateAddress MoreSamples.pageWithCustomAddress) = true.
Proof.
  assert (Hr : useRegisteredAddress MoreSamples.pageWithCustomAddress = false) by reflexivity.
  assert (Ha : ShippingAddress.address (customAddress MoreSamples.pageWithCustomAddress) <> "")
    by discriminate.
  assert (Hc : ShippingAddress.city (customAddress MoreSamples.pageWithCustomAddress) <> "")
    by discriminate.
  assert (Hs : ShippingAddress.state (customAddress MoreSamples.pageWithCustomAddress) <> "")
    by discriminate.
  assert (Hp : String.length
                 (ShippingAddress.pincode (customAddress MoreSamples.pageWithCustomAddress))
               = 6%nat) by reflexivity.
  pose proof (custom_pincode_is_checked_for_length_only _ Hr Ha Hc Hs Hp) as H.
  split; [reflexivity |]. split; [reflexivity |]. rewrite H. reflexivity.
Defined.

End AddressFacts.

(* ===================================================================== *)
(** ** The checkout flow with overlapping attempts *)
(* ===================================================================== *)

(** Case analysis on a signal down to the answer it carries, and on what
    the attempt waits for. *)
Ltac by_signal signal a :=
  destruct signal as [[?o |] | [?oid ?pid ?sg | ?d |] | [?v |] | [?o |]];
  destruct (CheckoutFlow.waitsFor a) eqn:?Hw.

Section CheckoutFlowFacts.
Import JS Checkout CheckoutFlow.

(** *** One click *)

Lemma handleProceedToPayment_click (h : Host) (p : Page) :
  Click h p (handleProceedToPayment h p).
Proof.
  unfold handleProceedToPayment, handleCODOrder.
  destruct (user p) as [u |] eqn:Hu.
  2: { apply ClickRefused; auto. }
  assert (Hu' : user p <> None) by (rewrite Hu; discriminate).
  pose proof (validateAddress_frame p) as (Hc & _ & _ & Ha & Hf & _).
  destruct (validateAddress p) as [q valid] eqn:Hv; cbn [fst snd] in *.
  destruct valid; cbn [negb].
  2: { apply ClickRefused; auto. right. rewrite Hv. reflexivity. }
  assert (Hval : snd (validateAddress p) = true) by (rewrite Hv; reflexivity).
  destruct (String.eqb (paymentMethod p) "razorpay").
  - destruct (negb (truthyStr (VITE_RAZORPAY_KEY_ID h))
              || negb (startsWith "rzp_" (orStrLit (VITE_RAZORPAY_KEY_ID h) ""))).
    + apply ClickMisconfigured; cbn; auto.
    + apply ClickGateway; cbn; auto. rewrite Ha. reflexivity.
  - apply ClickCashOnDelivery; cbn; auto. rewrite Ha. reflexivity.
Qed.

(** *** The cart *)

(** A step empties the cart on the confirming answer; otherwise the cart
    is what it was, or what the shopper made it. *)
Lemma step_cart (h : Host) (s : State) (e : Event) :
  cart (page (step h s e))
  = if confirms s e then [] else cartAfter (cart (page s)) e.
Proof.
  destruct e as [| i signal | items | m | b | f v]; cbn [step confirms cartAfter];
    try reflexivity.
  - destruct (proceedButtonEnabled (page s)); [| reflexivity].
    pose proof (handleProceedToPayment_click h (page s)) as C.
    destruct (handleProceedToPayment h (page s)) as [q [[ph k] |]];
      inversion C; assumption.
  - destruct (nth_error (attempts s) i) as [a |]; [| reflexivity].
    unfold resume, handleProceedToPayment_resume, handler_resume,
      handleCODOrder_resume.
    by_signal signal a; cbn; try reflexivity.
    + destruct (truthyStr o); cbn; [| reflexivity].
      destruct (windowRazorpay h); reflexivity.
    + destruct (truthyValue v); reflexivity.
    + destruct (truthyStr o); reflexivity.
Qed.

(** An attempt reaches [Settled] on the confirming answer and on no
    other event. *)
Lemma entered_Settled (h : Host) (s : State) (e : Event) :
  entered h s e = Some Settled <-> confirms s e = true.
Proof.
  destruct e as [| i signal | items | m | b | f v]; cbn [entered confirms];
    try (split; discriminate).
  - destruct (proceedButtonEnabled (page s)); [| split; discriminate].
    pose proof (handleProceedToPayment_click h (page s)) as C.
    destruct (handleProceedToPayment h (page s)) as [q [[ph k] |]];
      inversion C; subst; cbn; split; discriminate.
  - destruct (nth_error (attempts s) i) as [a |]; [| split; discriminate].
    unfold resume, handleProceedToPayment_resume, handler_resume,
      handleCODOrder_resume.
    by_signal signal a; cbn; try (split; discriminate).
    + destruct (truthyStr o); cbn; [| split; discriminate].
      destruct (windowRazorpay h); split; discriminate.
    + destruct (truthyValue v); cbn; split; auto; discriminate.
    + destruct (truthyStr o); cbn; split; auto; discriminate.
Qed.

Lemma In_replace_other {A : Type} (l : list A) : forall (i : nat) (x a b : A),
  nth_error l i = Some a -> In b l -> b <> a -> In b (replace i x l).
Proof.
  induction l as [| y l IH]; intros i x a b Hn Hin Hne; [contradiction |].
  destruct i as [| i]; cbn in *.
  - injection Hn as <-. destruct Hin as [-> | Hin]; [contradiction | right; exact Hin].
  - destruct Hin as [-> | Hin]; [left; reflexivity | right; eapply IH; eauto].
Qed.

Lemma In_replace_new {A : Type} (l : list A) : forall (i : nat) (x a : A),
  nth_error l i = Some a -> In x (replace i x l).
Proof.
  induction l as [| y l IH]; intros i x a Hn; destruct i as [| i]; cbn in *;
    try discriminate.
  - left; reflexivity.
  - right; eapply IH; eauto.
Qed.

Lemma resume_live (h : Host) (a : Attempt) (signal : Signal) (p : Page) :
  waitsFor a = NothingPending -> resume h a signal p = None.
Proof. intro Hw. unfold resume. rewrite Hw. destruct signal as [? | [? ? ? | ? |] | ? | ?]; reflexivity. Qed.

Lemma step_someSettled (h : Host) (s : State) (e : Event) :
  someSettled s -> someSettled (step h s e).
Proof.
  unfold someSettled. intros (b & Hin & Hr & Hw).
  assert (Hb : exists a, In a (attempts s) /\ reached a = Settled
                         /\ waitsFor a = NothingPending) by (exists b; auto).
  destruct e as [| i signal | items | m | t | f v]; cbn [step]; try exact Hb.
  - destruct (proceedButtonEnabled (page s)); [| exact Hb].
    destruct (handleProceedToPayment h (page s)) as [q [[ph k] |]];
      cbn [attempts]; [| exact Hb].
    exists b. split; [apply in_or_app; left; exact Hin | auto].
  - destruct (nth_error (attempts s) i) as [a |] eqn:Hn; [| exact Hb].
    destruct (resume h a signal (page s)) as [[q [ph k]] |] eqn:Hres;
      [| exact Hb].
    exists b. cbn [attempts]. split; [| auto].
    apply (In_replace_other _ _ _ a); [exact Hn | exact Hin |].
    intros ->. rewrite (resume_live h a signal (page s) Hw) in Hres. discriminate.
Qed.

Lemma step_confirms_someSettled (h : Host) (s : State) (e : Event) :
  confirms s e = true -> someSettled (step h s e).
Proof.
  destruct e as [| i signal | items | m | t | f v]; cbn [step confirms];
    try discriminate.
  destruct (nth_error (attempts s) i) as [a |] eqn:Hn; [| discriminate].
  unfold resume, handler_resume, handleCODOrder_resume.
  unfold someSettled.
  by_signal signal a; try discriminate; intro Hc; rewrite Hc; cbn [attempts];
    eexists; (split; [eapply In_replace_new; exact Hn | split; reflexivity]).
Qed.

Lemma run_someSettled (h : Host) (es : list Event) : forall s,
  someSettled s -> someSettled (run h s es).
Proof.
  unfold run. induction es as [| e es IH]; intros s H; cbn; [exact H |].
  apply IH, step_someSettled, H.
Qed.

Lemma run_cart (h : Host) (es : list Event) : forall s,
  someSettled (run h s es)
  \/ cart (page (run h s es)) = shopperCart (cart (page s)) es.
Proof.
  unfold run, shopperCart. induction es as [| e es IH]; intro s; cbn [fold_left].
  - right; reflexivity.
  - destruct (confirms s e) eqn:Hc.
    + left. apply (run_someSettled h es), step_confirms_someSettled, Hc.
    + destruct (IH (step h s e)) as [H | H]; [left; exact H | right].
      rewrite H, step_cart, Hc. reflexivity.
Qed.

(** C1, as amended.  An event empties the cart exactly when it is a
    confirming answer: [verifyPayment] resolves with a truthy [success]
    field, or [createOrder] (cash on delivery) with a truthy [_id], for
    an attempt that waits on that answer; this event, and no other,
    takes an attempt to Settled.  After any other event (a rejection, a
    falsy or missing field, [payment.failed], a dismissal, a click) the
    cart is what it was, or what the shopper's own change made of it; so
    an event that takes an attempt to Failed leaves the cart as it was.
    Along any sequence of events, as long as no attempt has reached
    Settled the cart is what the shopper's changes alone make of it. *)
Theorem cart_cleared_only_on_confirmed_settlement
    (h : Host) (s : State) (e : Event) (es : list Event) :
  (confirms s e = true <-> entered h s e = Some Settled)
  /\ (confirms s e = true -> cart (page (step h s e)) = [])
  /\ (confirms s e = false ->
      cart (page (step h s e)) = cartAfter (cart (page s)) e)
  /\ (entered h s e = Some Failed -> cart (page (step h s e)) = cart (page s))
  /\ ((forall a, In a (attempts (run h s es)) -> reached a <> Settled) ->
      cart (page (run h s es)) = shopperCart (cart (page s)) es).
Proof.
  split; [symmetry; apply entered_Settled |].
  split; [intro Hc; rewrite step_cart, Hc; reflexivity |].
  split; [intro Hc; rewrite step_cart, Hc; reflexivity |].
  split.
  - intro Hf. rewrite step_cart.
    destruct (confirms s e) eqn:Hc.
    + apply (proj2 (entered_Settled h s e)) in Hc. congruence.
    + destruct e; try reflexivity. discriminate Hf.
  - intro Hno. destruct (run_cart h es s) as [(a & Hin & Hr & _) | H]; [| exact H].
    exfalso. exact (Hno a Hin Hr).
Qed.

(** C1, at the sample checkout: a payment completed in the widget whose
    verification confirms empties the cart; the same payment with a
    verification that answers [success: false] leaves the two units in
    the cart; and a gateway order rejected after the shopper has changed
    the cart leaves the cart as the shopper made it. *)
Lemma cart_cleared_only_on_confirmed_settlement_witness :
  let paid := run Samples.host (mount (Samples.page "razorpay"))
                  [ClickProceed;
                   Continue 0 (RazorpayOrderAnswer (Resolves (Some "order_1")));
                   Continue 0 (Widget (PaymentCompleted "order_1" "pay_1" "sig_1"))] in
  let confirmed := Continue 0 (VerificationAnswer (Resolves (VBool true))) in
  let denied := Continue 0 (VerificationAnswer (Resolves (VBool false))) in
  let changed := [ClickProceed; CartChanged (MoreSamples.basketOf 99 3);
                  Continue 0 (RazorpayOrderAnswer Rejects)] in
  cart (page (step Samples.host paid confirmed)) = []
  /\ entered Samples.host paid denied = Some Failed
  /\ cart (page (step Samples.host paid denied)) = Samples.basket
  /\ cart (page (run Samples.host (mount (Samples.page "razorpay")) changed))
     = MoreSamples.basketOf 99 3.
Proof.
  cbv zeta.
  set (paid := run Samples.host (mount (Samples.page "razorpay"))
                   [ClickProceed;
                    Continue 0 (RazorpayOrderAnswer (Resolves (Some "order_1")));
                    Continue 0 (Widget (PaymentCompleted "order_1" "pay_1" "sig_1"))]).
  set (changed := [ClickProceed; CartChanged (MoreSamples.basketOf 99 3);
                   Continue 0 (RazorpayOrderAnswer Rejects)]).
  destruct (cart_cleared_only_on_confirmed_settlement Samples.host paid
              (Continue 0 (VerificationAnswer (Resolves (VBool true)))) [])
    as (_ & Hclear & _).
  destruct (cart_cleared_only_on_confirmed_settlement Samples.host paid
              (Continue 0 (VerificationAnswer (Resolves (VBool false)))) [])
    as (_ & _ & _ & Hkeep & _).
  destruct (cart_cleared_only_on_confirmed_settlement Samples.host
              (mount (Samples.page "razorpay")) ClickProceed changed)
    as (_ & _ & _ & _ & Hrun).
  assert (H1 : confirms paid (Continue 0 (VerificationAnswer (Resolves (VBool true))))
               = true) by (vm_compute; reflexivity).
  assert (H2 : entered Samples.host paid
                 (Continue 0 (VerificationAnswer (Resolves (VBool false))))
               = Some Failed) by (vm_compute; reflexivity).
  assert (H3 : forall a,
             In a (attempts (run Samples.host (mount (Samples.page "razorpay")) changed)) ->
             reached a <> Settled).
  { vm_compute. intros a [<- | []]. discriminate. }
  split; [exact (Hclear H1) |]. split; [exact H2 |].
  split; [rewrite (Hkeep H2); vm_compute; reflexivity |].
  rewrite (Hrun H3). reflexivity.
Defined.

(** C1 as stated fails.  A payment fails inside the widget, which clears
    the flag and leaves the widget open; the shopper clicks Proceed
    again; the first payment is then completed and verified, which
    empties the cart; the gateway order of the second attempt is
    rejected.  The second attempt goes to Failed and the cart is empty.
    And a verification that answers with a [success] field that is not a
    boolean, here the text "pending", empties the cart as well. *)
Lemma cart_can_be_empty_after_a_failed_attempt :
  let s0 := mount (Samples.page "razorpay") in
  let overlapping :=
    [ClickProceed;
     Continue 0 (RazorpayOrderAnswer (Resolves (Some "order_1")));
     Continue 0 (Widget (PaymentFailed "card declined"));
     ClickProceed;
     Continue 0 (Widget (PaymentCompleted "order_1" "pay_2" "sig_2"));
     Continue 0 (VerificationAnswer (Resolves (VBool true)))] in
  let s := run Samples.host s0 overlapping in
  let rejected := Continue 1 (RazorpayOrderAnswer Rejects) in
  let paid := run Samples.host s0
                  [ClickProceed;
                   Continue 0 (RazorpayOrderAnswer (Resolves (Some "order_1")));
                   Continue 0 (Widget (PaymentCompleted "order_1" "pay_1" "sig_1"))] in
  cart (page s0) = Samples.basket
  /\ map waitsFor (attempts s) = [NothingPending; AwaitRazorpayOrder "rzp_test_1"]
  /\ entered Samples.host s rejected = Some Failed
  /\ map reached (attempts (step Samples.host s rejected)) = [Settled; Failed]
  /\ cart (page (step Samples.host s rejected)) = []
  /\ cart (page (step Samples.host paid
                   (Continue 0 (VerificationAnswer (Resolves (VString "pending"))))))
     = [].
Proof. vm_compute. repeat split. Qed.

End CheckoutFlowFacts.

(* ===================================================================== *)
(** ** The checkout flow: the flag and the requests *)
(* ===================================================================== *)

Section CheckoutFlowRequestsFacts.
Import JS Checkout CheckoutFlow.

Lemma run_snoc (h : Host) (s : State) (es : list Event) (e : Event) :
  run h s (es ++ [e]) = step h (run h s es) e.
Proof. unfold run. rewrite fold_left_app. reflexivity. Qed.

(** *** The processing flag *)

Lemma resume_flag (h : Host) (a : Attempt) (signal : Signal) (p q : Page)
    (ph : Phase) (k : Pending) :
  resume h a signal p = Some (q, (ph, k)) ->
  isProcessing q = false \/ k <> NothingPending.
Proof.
  unfold resume, handleProceedToPayment_resume, handler_resume, handleCODOrder_resume,
    handler, payment_failed, ondismiss.
  by_signal signal a; try discriminate; intro E.
  - destruct (truthyStr o); cbn in E.
    + destruct (windowRazorpay h); cbn in E; injection E as <- <- <-;
        [right; discriminate | left; reflexivity].
    + injection E as <- <- <-. left; reflexivity.
  - injection E as <- <- <-. left; reflexivity.
  - injection E as <- <- <-. right; discriminate.
  - injection E as <- <- <-. left; reflexivity.
  - injection E as <- <- <-. left; reflexivity.
  - destruct (truthyValue v); injection E as <- <- <-; left; reflexivity.
  - injection E as <- <- <-. left; reflexivity.
  - destruct (truthyStr o); injection E as <- <- <-; left; reflexivity.
  - injection E as <- <- <-. left; reflexivity.
Qed.

Lemma step_flagged (h : Host) (s : State) (e : Event) :
  flagged s -> flagged (step h s e).
Proof.
  unfold flagged. intro I.
  destruct e as [| i signal | items | m | t | f v]; cbn [step]; try exact I.
  - destruct (proceedButtonEnabled (page s)) eqn:Hb; [| exact I].
    pose proof (handleProceedToPayment_click h (page s)) as C.
    destruct (handleProceedToPayment h (page s)) as [q [[ph k] |]];
      cbn [page attempts]; inversion C; subst; intro Hq.
    + congruence.
    + eexists. split; [apply in_or_app; right; left; reflexivity | reflexivity].
    + eexists. split; [apply in_or_app; right; left; reflexivity | reflexivity].
    + apply andb_true_iff in Hb. destruct Hb as (_ & Hb).
      apply negb_true_iff in Hb. congruence.
  - destruct (nth_error (attempts s) i) as [a |] eqn:Hn; [| exact I].
    destruct (resume h a signal (page s)) as [[q [ph k]] |] eqn:Hres; [| exact I].
    cbn [page attempts]. intro Hq.
    destruct (resume_flag _ _ _ _ _ _ _ Hres) as [Hf | Hk]; [congruence |].
    eexists. split; [eapply In_replace_new; exact Hn |].
    unfold live. cbn. destruct k; [contradiction | reflexivity ..].
Qed.

(** The processing flag is never stuck: along any sequence of events
    from a page that mounts with the flag clear, once no attempt has a
    continuation left to run (no answer outstanding, no widget open) the
    flag is clear and the Proceed button is enabled again. *)
Theorem processing_flag_is_never_stuck (h : Host) (p0 : Page) (es : list Event) :
  isProcessing p0 = false ->
  let s := run h (mount p0) es in
  (forall a, In a (attempts s) -> live a = false) ->
  isProcessing (page s) = false.
Proof.
  intros H0 s Hdone.
  assert (I : flagged s).
  { subst s. assert (I0 : flagged (mount p0)).
    { unfold flagged. cbn. intro E. congruence. }
    clear H0 Hdone. generalize (mount p0) I0. unfold run.
    induction es as [| e es IH]; intros s I; cbn [fold_left]; [exact I |].
    apply IH, step_flagged, I. }
  destruct (isProcessing (page s)) eqn:E; [| reflexivity].
  destruct (I E) as (a & Hin & Hl). rewrite (Hdone a Hin) in Hl. discriminate.
Qed.

(** Two attempts that overlap: the first payment fails in the widget,
    the second click's gateway order is rejected, the first widget is
    then dismissed. *)
Lemma processing_flag_is_never_stuck_witness :
  let es := [ClickProceed;
             Continue 0 (RazorpayOrderAnswer (Resolves (Some "order_1")));
             Continue 0 (Widget (PaymentFailed "card declined"));
             ClickProceed;
             Continue 1 (RazorpayOrderAnswer Rejects);
             Continue 0 (Widget Dismissed)] in
  let s := run Samples.host (mount (Samples.page "razorpay")) es in
  map reached (attempts s) = [Cancelled; Failed]
  /\ isProcessing (page s) = false.
Proof.
  cbv zeta. split; [vm_compute; reflexivity |].
  apply processing_flag_is_never_stuck; [reflexivity |].
  vm_compute. intros a [<- | [<- | []]]; reflexivity.
Defined.

(** *** The order of the requests *)

Lemma filter_snoc_length {A : Type} (f : A -> bool) (l : list A) (x : A) :
  length (filter f (l ++ [x])) = (length (filter f l) + b2n (f x))%nat.
Proof. rewrite filter_app, length_app. cbn. destruct (f x); reflexivity. Qed.

Lemma filter_replace_length {A : Type} (f : A -> bool) (l : list A) :
  forall (i : nat) (x a : A),
  nth_error l i = Some a ->
  (length (filter f (replace i x l)) + b2n (f a)
   = length (filter f l) + b2n (f x))%nat.
Proof.
  induction l as [| y l IH]; intros i x a Hn; destruct i as [| i]; cbn in *;
    try discriminate.
  - injection Hn as <-. destruct (f y), (f x); cbn; lia.
  - specialize (IH i x a Hn). destruct (f y); cbn; lia.
Qed.

Lemma step_inOrder (h : Host) (s : State) (e : Event) :
  inOrder s -> inOrder (step h s e).
Proof.
  unfold inOrder, sent, waiting. intros (I1 & I2).
  destruct e as [| i signal | items | m | t | f v]; cbn [step];
    try (split; assumption).
  - destruct (proceedButtonEnabled (page s)); [| split; assumption].
    pose proof (handleProceedToPayment_click h (page s)) as C.
    destruct (handleProceedToPayment h (page s)) as [q [[ph k] |]];
      cbn [page attempts];
      inversion C as [? ? ? Ha ? | ? ? ? ? Ha ? | ? ? ? ? ? Ha ? | ? ? ? ? Ha ?];
      subst; rewrite Ha, ?filter_snoc_length; cbn; lia.
  - destruct (nth_error (attempts s) i) as [a |] eqn:Hn; [| split; assumption].
    pose proof (fun x => filter_replace_length
                           (fun a => isWidgetOpen (waitsFor a)) (attempts s) i x a Hn)
      as RW.
    pose proof (fun x => filter_replace_length
                           (fun a => isAwaitRazorpayOrder (waitsFor a)) (attempts s) i x a Hn)
      as RA.
    unfold resume, handleProceedToPayment_resume, handler_resume,
      handleCODOrder_resume, handler, payment_failed, ondismiss.
    by_signal signal a; try (split; assumption); cbn [page attempts];
      try destruct (truthyStr o); try destruct (truthyValue v);
      cbn [negb page attempts fst snd]; try destruct (windowRazorpay h);
      cbn [negb page attempts fst snd apiCalls call setIsProcessing toast];
      match goal with
      | |- context [replace i ?x _] =>
          specialize (RW x); specialize (RA x); cbn in RW, RA; rewrite Hw in RW, RA
      end;
      rewrite ?filter_snoc_length; cbn in *; lia.
Qed.

(** Along every sequence of events of a checkout, overlapping attempts
    included, the requests go out in order: no more verifications have
    been submitted than widgets opened, and no more widgets opened than
    gateway orders requested.  In particular a verification is never
    submitted before a gateway order exists. *)
Theorem verification_follows_widget_follows_gateway_order
    (h : Host) (p0 : Page) (es : list Event) :
  apiCalls p0 = [] ->
  let s := run h (mount p0) es in
  (sent isVerifyPayment s <= sent isOpenWidget s)%nat
  /\ (sent isOpenWidget s <= sent isGatewayOrder s)%nat.
Proof.
  intros Ha s.
  assert (I : inOrder s).
  { subst s. assert (I0 : inOrder (mount p0)).
    { unfold inOrder, sent, waiting. cbn. rewrite Ha. cbn. lia. }
    clear Ha. generalize (mount p0) I0. unfold run.
    induction es as [| e es IH]; intros s I; cbn [fold_left]; [exact I |].
    apply IH, step_inOrder, I. }
  destruct I as (I1 & I2). lia.
Qed.

(** A payment that fails in the widget, a second attempt started
    meanwhile, and the first payment completed on the second try. *)
Lemma verification_follows_widget_follows_gateway_order_witness :
  let s := run Samples.host (mount (Samples.page "razorpay"))
               [ClickProceed;
                Continue 0 (RazorpayOrderAnswer (Resolves (Some "order_1")));
                Continue 0 (Widget (PaymentFailed "card declined"));
                ClickProceed;
                Continue 0 (Widget (PaymentCompleted "order_1" "pay_2" "sig_2"))] in
  sent isGatewayOrder s = 2%nat /\ sent isOpenWidget s = 1%nat
  /\ sent isVerifyPayment s = 1%nat
  /\ (sent isVerifyPayment s <= sent isOpenWidget s)%nat.
Proof.
  cbv zeta.
  assert (Ha : apiCalls (Samples.page "razorpay") = []) by reflexivity.
  pose proof (verification_follows_widget_follows_gateway_order Samples.host _
                [ClickProceed;
                 Continue 0 (RazorpayOrderAnswer (Resolves (Some "order_1")));
                 Continue 0 (Widget (PaymentFailed "card declined"));
                 ClickProceed;
                 Continue 0 (Widget (PaymentCompleted "order_1" "pay_2" "sig_2"))] Ha)
    as H.
  cbv zeta in H. destruct H as (H & _).
  split; [vm_compute; reflexivity |]. split; [vm_compute; reflexivity |].
  split; [vm_compute; reflexivity | exact H].
Defined.

End CheckoutFlowRequestsFacts.

(* ===================================================================== *)
(** ** The checkout flow: what the requests carry *)
(* ===================================================================== *)

Section CheckoutFlowAmountsFacts.
Import JS Checkout CheckoutFlow.

Lemma map_replace {A B : Type} (f : A -> B) (l : list A) :
  forall (i : nat) (x a : A),
  nth_error l i = Some a -> f x = f a -> map f (replace i x l) = map f l.
Proof.
  induction l as [| y l IH]; intros i x a Hn Hf; destruct i as [| i]; cbn in *;
    try discriminate.
  - injection Hn as <-. rewrite Hf. reflexivity.
  - rewrite (IH i x a Hn Hf). reflexivity.
Qed.

(** A step starts at most one attempt, from the page the click met. *)
Lemma step_renders (h : Host) (s : State) (e : Event) :
  renders (step h s e) = renders s
  \/ (e = ClickProceed /\ accepted (page s)
      /\ renders (step h s e) = (renders s ++ [page s])%list).
Proof.
  unfold renders.
  destruct e as [| i signal | items | m | t | f v]; cbn [step attempts];
    try (left; reflexivity).
  - destruct (proceedButtonEnabled (page s)) eqn:Hb; [| left; reflexivity].
    pose proof (handleProceedToPayment_click h (page s)) as C.
    destruct (handleProceedToPayment h (page s)) as [q [[ph k] |]];
      cbn [attempts]; inversion C; subst; [| | | left; reflexivity];
      right; (split; [reflexivity |]); (split; [split; auto |]);
      rewrite map_app; reflexivity.
  - destruct (nth_error (attempts s) i) as [a |] eqn:Hn; [| left; reflexivity].
    destruct (resume h a signal (page s)) as [[q [ph k]] |]; [| left; reflexivity].
    left. cbn [attempts]. apply (map_replace rendered _ _ _ a Hn). reflexivity.
Qed.

Lemma click_calls (h : Host) (p q : Page) (k : option (Phase * Pending)) :
  Click h p (q, k) ->
  apiCalls q = apiCalls p
  \/ exists c, apiCalls q = (apiCalls p ++ [c])%list /\ amountsOf p c /\ k <> None.
Proof.
  intro C. inversion C as [? ? ? Ha ? |? ? ? ? Ha ? |? ? ? ? ? Ha ?|? ? ? ? Ha ?]; subst;
    [left; exact Ha | left; exact Ha | right | right];
    eexists; (split; [exact Ha |]); (split; [| discriminate]);
    cbn; repeat split; reflexivity.
Qed.

Lemma resume_calls (h : Host) (a : Attempt) (signal : Signal) (p q : Page)
    (ph : Phase) (k : Pending) :
  resume h a signal p = Some (q, (ph, k)) ->
  apiCalls q = apiCalls p
  \/ exists c, apiCalls q = (apiCalls p ++ [c])%list /\ amountsOf (rendered a) c.
Proof.
  unfold resume, handleProceedToPayment_resume, handler_resume, handleCODOrder_resume,
    handler, payment_failed, ondismiss.
  by_signal signal a; try discriminate; intro E.
  - destruct (truthyStr o); cbn in E.
    + destruct (windowRazorpay h); cbn in E; injection E as <- <- <-;
        [right | left; reflexivity].
      eexists. split; reflexivity.
    + injection E as <- <- <-. left; reflexivity.
  - injection E as <- <- <-. left; reflexivity.
  - injection E as <- <- <-. right. eexists. split; [reflexivity |].
    cbn. repeat split; reflexivity.
  - injection E as <- <- <-. left; reflexivity.
  - injection E as <- <- <-. left; reflexivity.
  - destruct (truthyValue v); injection E as <- <- <-; left; reflexivity.
  - injection E as <- <- <-. left; reflexivity.
  - destruct (truthyStr o); injection E as <- <- <-; left; reflexivity.
  - injection E as <- <- <-. left; reflexivity.
Qed.

(** A step sends at most one request, with the amounts and the address
    of the render its attempt started from. *)
Lemma step_calls (h : Host) (s : State) (e : Event) :
  apiCalls (page (step h s e)) = apiCalls (page s)
  \/ exists c r, apiCalls (page (step h s e)) = (apiCalls (page s) ++ [c])%list
                 /\ In r (renders (step h s e)) /\ amountsOf r c.
Proof.
  unfold renders.
  destruct e as [| i signal | items | m | t | f v]; cbn [step page];
    try (left; reflexivity).
  - destruct (proceedButtonEnabled (page s)) eqn:Hb; [| left; reflexivity].
    pose proof (handleProceedToPayment_click h (page s)) as C.
    destruct (handleProceedToPayment h (page s)) as [q k].
    destruct (click_calls _ _ _ _ C) as [Ha | (c & Ha & Hc & Hk)].
    + destruct k as [[ph k] |]; left; exact Ha.
    + destruct k as [[ph k] |]; [| contradiction]. right.
      exists c, (page s). cbn [page attempts]. split; [exact Ha |].
      split; [| exact Hc]. rewrite map_app. apply in_or_app. right. left. reflexivity.
  - destruct (nth_error (attempts s) i) as [a |] eqn:Hn; [| left; reflexivity].
    destruct (resume h a signal (page s)) as [[q [ph k]] |] eqn:Hres;
      [| left; reflexivity].
    destruct (resume_calls _ _ _ _ _ _ _ Hres) as [Ha | (c & Ha & Hc)];
      [left; exact Ha | right].
    exists c, (rendered a). cbn [page attempts]. split; [exact Ha |].
    split; [| exact Hc].
    rewrite (map_replace rendered _ _ _ a Hn) by reflexivity.
    apply in_map. eapply nth_error_In. exact Hn.
Qed.

Lemma started_snoc (h : Host) (p0 : Page) (es : list Event) (e : Event) (r : Page) :
  started h p0 es r -> started h p0 (es ++ [e]) r.
Proof.
  intros (es1 & es2 & -> & Hr & Ha). exists es1, (es2 ++ [e])%list.
  split; [rewrite <- app_assoc; reflexivity | auto].
Qed.

Lemma run_renders (h : Host) (p0 : Page) (es : list Event) :
  Forall (started h p0 es) (renders (run h (mount p0) es)).
Proof.
  induction es as [| e es IH] using rev_ind; [constructor |].
  rewrite run_snoc.
  assert (IH' : Forall (started h p0 (es ++ [e])) (renders (run h (mount p0) es))).
  { eapply Forall_impl; [| exact IH]. intros r. apply started_snoc. }
  destruct (step_renders h (run h (mount p0) es) e) as [-> | (-> & Ha & ->)];
    [exact IH' |].
  apply Forall_app. split; [exact IH' |]. constructor; [| constructor].
  exists es, []. auto.
Qed.

Lemma run_calls (h : Host) (p0 : Page) (es : list Event) :
  apiCalls p0 = [] ->
  Forall (fun c => exists r, In r (renders (run h (mount p0) es)) /\ amountsOf r c)
         (apiCalls (page (run h (mount p0) es))).
Proof.
  intro H0. induction es as [| e es IH] using rev_ind.
  { cbn. rewrite H0. constructor. }
  rewrite run_snoc. set (s := run h (mount p0) es) in *.
  assert (IH' : Forall (fun c => exists r, In r (renders (step h s e)) /\ amountsOf r c)
                       (apiCalls (page s))).
  { eapply Forall_impl; [| exact IH]. intros c (r & Hin & Hc). exists r.
    split; [| exact Hc].
    destruct (step_renders h s e) as [-> | (_ & _ & ->)];
      [exact Hin | apply in_or_app; left; exact Hin]. }
  destruct (step_calls h s e) as [-> | (c & r & -> & Hin & Hc)]; [exact IH' |].
  apply Forall_app. split; [exact IH' |]. constructor; [| constructor].
  exists r. auto.
Qed.

(** Every request a checkout sends (gateway order, widget, verification,
    cash-on-delivery order), along any sequence of events from the
    mounted page, belongs to an attempt that an accepted click started:
    the button was enabled, a user was signed in and the address passed
    [validateAddress] on the page the click met.  The request carries
    the amounts of the cart of that page, computed in binary64, and an
    order submission carries the items and the shipping address of that
    page, whatever the shopper has changed since the click. *)
Theorem requests_of_a_checkout (h : Host) (p0 : Page) (es : list Event) (c : ApiCall) :
  apiCalls p0 = [] ->
  In c (apiCalls (page (run h (mount p0) es))) ->
  exists es1 es2 r,
    es = (es1 ++ ClickProceed :: es2)%list
    /\ r = page (run h (mount p0) es1)
    /\ accepted r
    /\ amountsOf r c.
Proof.
  intros H0 Hin.
  pose proof (run_calls h p0 es H0) as Hc. rewrite Forall_forall in Hc.
  destruct (Hc c Hin) as (r & Hr & Hamt).
  pose proof (run_renders h p0 es) as Hs. rewrite Forall_forall in Hs.
  destruct (Hs r Hr) as (es1 & es2 & E & Er & Ha).
  exists es1, es2, r. auto.
Qed.

(** A cash-on-delivery order placed for two units at 150.00; the shopper
    raises the quantity to four while the order is being created, and
    the request still carries the two units of the click. *)
Lemma requests_of_a_checkout_witness :
  let p0 := Samples.page "cod" in
  let es := [ClickProceed; CartChanged (MoreSamples.basketOf 150 4)] in
  let c := CreateOrder Samples.basket (getShippingAddress p0) 50 15 in
  In c (apiCalls (page (run Samples.host (mount p0) es)))
  /\ cart (page (run Samples.host (mount p0) es)) = MoreSamples.basketOf 150 4
  /\ amountsOf p0 c.
Proof.
  cbv zeta.
  assert (Ha : apiCalls (Samples.page "cod") = []) by reflexivity.
  assert (Hin : In (CreateOrder Samples.basket (getShippingAddress (Samples.page "cod"))
                      50 15)
                   (apiCalls (page (run Samples.host (mount (Samples.page "cod"))
                                        [ClickProceed;
                                         CartChanged (MoreSamples.basketOf 150 4)]))))
    by (left; vm_compute; reflexivity).
  destruct (requests_of_a_checkout Samples.host _ _ _ Ha Hin)
    as (es1 & es2 & r & E & Er & _ & Hamt).
  destruct es1 as [| e1 es1].
  - subst r. split; [exact Hin |]. split; [reflexivity | exact Hamt].
  - exfalso. injection E as <- E. destruct es1 as [| e2 es1]; [discriminate E |].
    injection E as _ E. destruct es1; discriminate E.
Defined.

End CheckoutFlowAmountsFacts.

(* ===================================================================== *)
(** ** The checkout flow: the flag and the handler *)
(* ===================================================================== *)

Section CheckoutRequestsFacts.
Import JS Checkout.

Lemma validateAddress_setIsProcessing (b : bool) (p : Page) :
  validateAddress (setIsProcessing b p)
  = (setIsProcessing b (fst (validateAddress p)), snd (validateAddress p)).
Proof.
  unfold validateAddress, getShippingAddress, userAddress. cbn.
  destruct (useRegisteredAddress p), (user p) as [u |];
    try destruct (User.address u);
    repeat match goal with
           | |- context [if ?c then _ else _] => destruct c eqn:?
           end; reflexivity.
Qed.

(** [handleProceedToPayment] never reads the processing flag: entered
    with the flag set or cleared it does the same, up to the flag itself
    on the two early returns (no user, address refused), which leave the
    flag as they found it.  Only the [disabled] attribute of the button
    keeps a second click out. *)
Theorem handleProceedToPayment_ignores_the_flag (h : Host) (p : Page) (b : bool) :
  handleProceedToPayment h (setIsProcessing b p) = handleProceedToPayment h p
  \/ (handleProceedToPayment h (setIsProcessing b p)
      = setIsProcessing b (handleProceedToPayment h p)
      /\ apiCalls (handleProceedToPayment h p) = apiCalls p).
Proof.
  unfold handleProceedToPayment. rewrite validateAddress_setIsProcessing.
  cbn [user setIsProcessing].
  destruct (user p) as [u |]; [| right; split; reflexivity].
  pose proof (validateAddress_frame p) as (_ & _ & _ & Ha & _).
  destruct (validateAddress p) as [q valid]; cbn [fst snd] in *.
  destruct valid; cbn [negb]; [left; reflexivity | right; split; [reflexivity | exact Ha]].
Qed.

(** A payment that fails inside the widget clears the flag while the
    widget stays open: the Proceed button is enabled again, and it stays
    enabled while a payment completed on a later try is being verified. *)
Theorem failed_payment_reenables_proceed
    (h : Host) (p : Page) (description oid pid sig : string) :
  pending p = WidgetOpen -> cart p <> [] ->
  let p1 := step h p (Widget (PaymentFailed description)) in
  let p2 := step h p1 (Widget (PaymentCompleted oid pid sig)) in
  pending p1 = WidgetOpen /\ proceedButtonEnabled p1 = true
  /\ pending p2 = AwaitVerification /\ proceedButtonEnabled p2 = true.
Proof.
  intros Hk Hc p1 p2. subst p2 p1. unfold step. rewrite Hk. cbn.
  unfold proceedButtonEnabled. cbn. destruct (cart p); [contradiction |].
  repeat split.
Qed.

(** The sample checkout after a declined card. *)
Lemma failed_payment_reenables_proceed_witness :
  let p := run Samples.host (Samples.page "razorpay")
               [ClickProceed; RazorpayOrderAnswer (Resolves (Some "order_1"))] in
  let p1 := step Samples.host p (Widget (PaymentFailed "card declined")) in
  let p2 := step Samples.host p1 (Widget (PaymentCompleted "order_1" "pay_2" "sig_2")) in
  proceedButtonEnabled p = false
  /\ proceedButtonEnabled p1 = true
  /\ phase p2 = VerificationPending /\ proceedButtonEnabled p2 = true.
Proof.
  cbv zeta.
  assert (Hk : pending (run Samples.host (Samples.page "razorpay")
                  [ClickProceed; RazorpayOrderAnswer (Resolves (Some "order_1"))])
               = WidgetOpen) by reflexivity.
  assert (Hc : cart (run Samples.host (Samples.page "razorpay")
                  [ClickProceed; RazorpayOrderAnswer (Resolves (Some "order_1"))]) <> [])
    by discriminate.
  pose proof (failed_payment_reenables_proceed Samples.host _ "card declined"
                "order_1" "pay_2" "sig_2" Hk Hc) as H.
  cbv zeta in H. destruct H as (_ & H1 & _ & H2).
  split; [reflexivity |]. split; [exact H1 |]. split; [reflexivity | exact H2].
Defined.

End CheckoutRequestsFacts.

(* ===================================================================== *)
(** ** The quantity controls *)
(* ===================================================================== *)

Section CartControlsFacts.
Import JS CartControls.

(** [updateQuantity] dispatches exactly the quantities from 1 up to the
    stock (any quantity from 1 up when the line has no [stock] field),
    and what it dispatches is [UPDATE_QUANTITY] for this line with that
    quantity. *)
Theorem updateQuantity_dispatches_within_stock (l : CartLine.t) (quantity : Q) :
  (forall a, updateQuantity l quantity = Dispatched a ->
     a = UPDATE_QUANTITY (lineId l) (CartLine.size l) (CartLine.color l) quantity
     /\ 1 <= quantity
     /\ (forall s, CartLine.stock l = Some s -> quantity <= s))
  /\ (1 <= quantity -> (forall s, CartLine.stock l = Some s -> quantity <= s) ->
      updateQuantity l quantity
      = Dispatched (UPDATE_QUANTITY (lineId l) (CartLine.size l) (CartLine.color l)
                                    quantity)).
Proof.
  unfold updateQuantity. split.
  - intro a. destruct (ltb quantity 1) eqn:H1; [discriminate |].
    assert (Hq : 1 <= quantity).
    { destruct (Qlt_le_dec quantity 1) as [H | H]; [| exact H].
      apply ltb_true in H. congruence. }
    destruct (CartLine.stock l) as [s |].
    + destruct (gtb quantity s) eqn:H2; [discriminate |].
      intro E. injection E as <-. split; [reflexivity |]. split; [exact Hq |].
      intros s' Es. injection Es as <-. apply gtb_false, H2.
    + intro E. injection E as <-. split; [reflexivity |]. split; [exact Hq |].
      intros s' Es. discriminate.
  - intros Hq Hs.
    assert (H1 : ltb quantity 1 = false).
    { destruct (ltb quantity 1) eqn:H; [| reflexivity]. apply ltb_true in H. lra. }
    rewrite H1. destruct (CartLine.stock l) as [s |]; [| reflexivity].
    assert (H2 : gtb quantity s = false) by (apply gtb_false, Hs; reflexivity).
    rewrite H2. reflexivity.
Qed.

(** A line whose quantity is more than one above its stock (the stock
    went down after the line was added) cannot be brought down with the
    buttons: [+] is disabled, and [-] asks for a quantity that is still
    above the stock, so it is refused with the "Only ... in stock" toast
    and nothing is dispatched. *)
Theorem quantity_above_stock_cannot_be_lowered (l : CartLine.t) (stock : Q) :
  CartLine.stock l = Some stock ->
  2 <= CartItem.quantity (CartLine.item l) ->
  stock + 1 < CartItem.quantity (CartLine.item l) ->
  clickMinus l = ToastOnlyInStock stock /\ clickPlus l = Ignored.
Proof.
  intros Hs H2 Hq. unfold clickMinus, clickPlus, plusDisabled, updateQuantity.
  rewrite Hs.
  assert (E1 : ltb (CartItem.quantity (CartLine.item l) - 1) 1 = false).
  { destruct (ltb _ 1) eqn:H; [| reflexivity]. apply ltb_true in H. lra. }
  assert (E2 : gtb (CartItem.quantity (CartLine.item l) - 1) stock = true)
    by (apply gtb_true; lra).
  assert (E3 : geb (CartItem.quantity (CartLine.item l)) stock = true)
    by (apply geb_true; lra).
  rewrite E1, E2, E3. split; reflexivity.
Qed.

(** Five in the cart, two in stock. *)
Lemma quantity_above_stock_cannot_be_lowered_witness :
  clickMinus (MoreSamples.line 5 (Some 2)) = ToastOnlyInStock 2
  /\ clickPlus (MoreSamples.line 5 (Some 2)) = Ignored.
Proof.
  assert (Hs : CartLine.stock (MoreSamples.line 5 (Some 2)) = Some 2) by reflexivity.
  assert (H2 : 2 <= CartItem.quantity (CartLine.item (MoreSamples.line 5 (Some 2))))
    by (vm_compute; discriminate).
  assert (Hq : 2 + 1 < CartItem.quantity (CartLine.item (MoreSamples.line 5 (Some 2))))
    by reflexivity.
  exact (quantity_above_stock_cannot_be_lowered _ _ Hs H2 Hq).
Defined.

(** With whole quantities within the stock, the buttons never meet the
    stock check of [updateQuantity]: [-] at quantity 1 does nothing, [-]
    above 1 and an enabled [+] dispatch the neighbouring quantity, and [+]
    is disabled exactly at the stock. *)
Theorem quantity_buttons_on_whole_numbers (l : CartLine.t) (quantity stock : Z) :
  CartItem.quantity (CartLine.item l) = inject_Z quantity ->
  CartLine.stock l = Some (inject_Z stock) ->
  (1 <= quantity <= stock)%Z ->
  (quantity = 1%Z -> clickMinus l = Ignored)
  /\ (quantity <> 1%Z ->
      clickMinus l = Dispatched (UPDATE_QUANTITY (lineId l) (CartLine.size l)
                                   (CartLine.color l) (inject_Z quantity - 1)))
  /\ (quantity = stock -> clickPlus l = Ignored)
  /\ (quantity <> stock ->
      clickPlus l = Dispatched (UPDATE_QUANTITY (lineId l) (CartLine.size l)
                                  (CartLine.color l) (inject_Z quantity + 1))).
Proof.
  intros Eq Es (H1 & H2).
  unfold clickMinus, clickPlus, plusDisabled. rewrite Eq, Es.
  apply le_int_inv in H1 as H1q. apply le_int_inv in H2 as H2q.
  change (inject_Z 1) with 1 in H1q.
  split; [| split; [| split]].
  - intros ->. reflexivity.
  - intro Hn. apply updateQuantity_dispatches_within_stock.
    + assert (H : (2 <= quantity)%Z) by lia. apply le_int_inv in H.
      change (inject_Z 2) with 2 in H. lra.
    + intros s E. rewrite Es in E. injection E as <-. lra.
  - intros ->. assert (E : geb (inject_Z stock) (inject_Z stock) = true)
      by (apply geb_true; lra).
    rewrite E. reflexivity.
  - intro Hn. assert (H : (quantity + 1 <= stock)%Z) by lia. apply le_int_inv in H.
    rewrite inject_Z_plus in H. change (inject_Z 1) with 1 in H.
    assert (E : geb (inject_Z quantity) (inject_Z stock) = false)
      by (apply geb_false; lra).
    rewrite E. apply updateQuantity_dispatches_within_stock.
    + lra.
    + intros s E'. rewrite Es in E'. injection E' as <-. exact H.
Qed.

(** Two in the cart, three in stock. *)
Lemma quantity_buttons_on_whole_numbers_witness :
  clickMinus (MoreSamples.line 2 (Some 3))
  = Dispatched (UPDATE_QUANTITY (Some "p1") None None (2 - 1))
  /\ clickPlus (MoreSamples.line 2 (Some 3))
     = Dispatched (UPDATE_QUANTITY (Some "p1") None None (2 + 1)).
Proof.
  assert (Eq : CartItem.quantity (CartLine.item (MoreSamples.line 2 (Some 3))) = inject_Z 2)
    by reflexivity.
  assert (Es : CartLine.stock (MoreSamples.line 2 (Some 3)) = Some (inject_Z 3))
    by reflexivity.
  assert (Hb : (1 <= 2 <= 3)%Z) by lia.
  pose proof (quantity_buttons_on_whole_numbers _ 2 3 Eq Es Hb) as (_ & Hm & _ & Hp).
  split; [apply Hm; lia | apply Hp; lia].
Defined.

End CartControlsFacts.

(* ===================================================================== *)
(** ** [parseFloat] reads back what [toFixed] wrote *)
(* ===================================================================== *)

Section NumberTextFacts.
Import JS NumberText.

Lemma allDigits_app (a b : string) :
  allDigits (a ++ b) = allDigits a && allDigits b.
Proof.
  induction a as [| c a IH]; cbn; [reflexivity |].
  destruct (digitVal c); [exact IH | reflexivity].
Qed.

Lemma readDigits_app (a b : string) : forall (acc : Z) (len : nat),
  allDigits a = true -> startsWithDigit b = false ->
  readDigits (a ++ b) acc len = (valueOf a acc, (len + String.length a)%nat, b).
Proof.
  induction a as [| c a IH]; intros acc len Ha Hb; cbn in *.
  - rewrite Nat.add_0_r. destruct b as [| c b]; [reflexivity |].
    cbn in *. destruct (digitVal c); [discriminate | reflexivity].
  - destruct (digitVal c); [| discriminate].
    rewrite IH by assumption. f_equal. f_equal. lia.
Qed.

Lemma readDigits_all (a : string) (acc : Z) (len : nat) :
  allDigits a = true ->
  readDigits a acc len = (valueOf a acc, (len + String.length a)%nat, "").
Proof.
  intro Ha. pose proof (readDigits_app a "" acc len Ha eq_refl) as H.
  revert H. replace (a ++ "") with a; [trivial |].
  clear. induction a as [| c a IH]; cbn; [reflexivity | now rewrite <- IH].
Qed.

Lemma valueOf_app (a b : string) : forall acc : Z,
  allDigits a = true -> valueOf (a ++ b) acc = valueOf b (valueOf a acc).
Proof.
  induction a as [| c a IH]; intros acc Ha; cbn in *; [reflexivity |].
  destruct (digitVal c); [apply IH, Ha | discriminate].
Qed.

Lemma valueOf_acc (b : string) : forall acc : Z,
  allDigits b = true ->
  valueOf b acc = (acc * 10 ^ Z.of_nat (String.length b) + valueOf b 0)%Z.
Proof.
  induction b as [| c b IH]; intros acc Hb; cbn [valueOf String.length allDigits] in *.
  - cbn. lia.
  - destruct (digitVal c) as [v |]; [| discriminate].
    rewrite (IH (acc * 10 + v)%Z Hb), (IH (0 * 10 + v)%Z Hb).
    rewrite Nat2Z.inj_succ, Z.pow_succ_r by lia. ring.
Qed.

Lemma zeros_digits (k : nat) :
  allDigits (zeros k) = true /\ forall s, valueOf (zeros k ++ s) 0 = valueOf s 0.
Proof.
  induction k as [| k (IH1 & IH2)]; cbn; [split; reflexivity |].
  split; [exact IH1 | exact IH2].
Qed.

Lemma uintValue_of_uint_acc (d : Decimal.uint) : forall acc : positive,
  Z.pos (Pos.of_uint_acc d acc) = uintValue d (Z.pos acc).
Proof.
  induction d; intro acc; cbn [Pos.of_uint_acc uintValue]; [reflexivity | ..];
    rewrite IHd; f_equal; lia.
Qed.

Lemma uintValue_of_uint (d : Decimal.uint) : Z.of_N (Pos.of_uint d) = uintValue d 0.
Proof.
  induction d; cbn [Pos.of_uint uintValue]; [reflexivity | exact IHd | ..];
    cbn [Z.of_N]; rewrite uintValue_of_uint_acc; reflexivity.
Qed.

Lemma string_of_uint_digits (d : Decimal.uint) :
  allDigits (NilEmpty.string_of_uint d) = true
  /\ forall acc, valueOf (NilEmpty.string_of_uint d) acc = uintValue d acc.
Proof.
  induction d as [| d (IH1 & IH2) | d (IH1 & IH2) | d (IH1 & IH2) | d (IH1 & IH2)
                    | d (IH1 & IH2) | d (IH1 & IH2) | d (IH1 & IH2) | d (IH1 & IH2)
                    | d (IH1 & IH2) | d (IH1 & IH2)];
    (split; [| intro acc]); cbn [NilEmpty.string_of_uint allDigits valueOf uintValue];
    try match goal with
        | |- context [digitVal ?c] =>
            let v := eval vm_compute in (digitVal c) in change (digitVal c) with v
        end; cbv iota; auto.
Qed.

(** [String(n)] of a non-negative integer: digits only, at least one, and
    they denote [n]. *)
Lemma digits_spec (n : Z) :
  (0 <= n)%Z ->
  allDigits (digits n) = true /\ valueOf (digits n) 0 = n
  /\ (1 <= String.length (digits n))%nat.
Proof.
  intro Hn. unfold digits.
  set (u := N.to_uint (Z.to_N n)).
  assert (Hu : uintValue u 0 = n).
  { rewrite <- uintValue_of_uint. change (Pos.of_uint u) with (N.of_uint u).
    unfold u. rewrite DecimalN.Unsigned.of_to. apply Z2N.id, Hn. }
  destruct (string_of_uint_digits u) as (H1 & H2).
  unfold NilZero.string_of_uint.
  destruct u; try (split; [exact H1 |]; split; [rewrite H2; exact Hu | cbn; lia]).
  cbn in Hu. subst n. repeat split. cbn. lia.
Qed.

Lemma substring_all (s : string) : substring 0 (String.length s) s = s.
Proof. induction s as [| c s IH]; cbn; [reflexivity | now rewrite IH]. Qed.

Lemma substring_split (k d : nat) : forall s : string,
  String.length s = (k + d)%nat ->
  substring 0 k s ++ substring k d s = s
  /\ String.length (substring 0 k s) = k
  /\ String.length (substring k d s) = d.
Proof.
  induction k as [| k IH]; intros s Hs.
  - cbn in Hs. subst d.
    assert (E : substring 0 0 s = "") by (destruct s; reflexivity).
    rewrite E, substring_all. repeat split.
  - destruct s as [| c s]; [discriminate |].
    cbn in Hs. injection Hs as Hs. destruct (IH s Hs) as (H1 & H2 & H3).
    cbn. rewrite H1, H2. repeat split. exact H3.
Qed.

Lemma string_length_app (a b : string) :
  String.length (a ++ b) = (String.length a + String.length b)%nat.
Proof. induction a as [| c a IH]; cbn; [reflexivity | now rewrite IH]. Qed.

Lemma length_zeros (k : nat) : String.length (zeros k) = k.
Proof. induction k as [| k IH]; cbn; [reflexivity | now rewrite IH]. Qed.

(** [parseFloat] on a string that starts with a digit, and on one that
    starts with a minus sign. *)
Lemma parseFloat_unsigned (c : ascii) (r : string) :
  digitVal c <> None -> parseFloat (String c r) = parseBody false (String c r).
Proof.
  intro H. unfold parseFloat, parseBody.
  destruct c as [[|] [|] [|] [|] [|] [|] [|] [|]];
    try reflexivity; exfalso; apply H; reflexivity.
Qed.

Lemma parseFloat_minus (body : string) :
  parseFloat ("-" ++ body) = parseBody true body.
Proof. reflexivity. Qed.

Lemma toFixed_units_nonneg (d : nat) (x : Q) : (0 <= toFixed_units d x)%Z.
Proof.
  unfold toFixed_units. rewrite <- (Qfloor_Z 0). apply Qfloor_resp_le.
  assert (0 <= Qabs x) by apply Qabs_nonneg.
  assert (0 < inject_Z (10 ^ Z.of_nat d)).
  { change 0 with (inject_Z 0). rewrite <- Zlt_Qlt. apply Z.pow_pos_nonneg; lia. }
  change (inject_Z 0) with 0.
  assert (0 <= Qabs x * inject_Z (10 ^ Z.of_nat d)) by (apply Qmult_le_0_compat; lra).
  lra.
Qed.

(** The digits [toFixed] lays out: [d + 1] or more of them, denoting the
    units. *)
Lemma padded_units (d : nat) (n : Z) :
  (0 <= n)%Z ->
  let m := padStart0 (S d) (digits n) in
  allDigits m = true /\ valueOf m 0 = n /\ (S d <= String.length m)%nat.
Proof.
  intros Hn m. destruct (digits_spec n Hn) as (H1 & H2 & H3).
  destruct (zeros_digits (S d - String.length (digits n))) as (Z1 & Z2).
  subst m. unfold padStart0.
  split; [rewrite allDigits_app, Z1, H1; reflexivity |].
  split; [rewrite Z2; exact H2 |].
  rewrite string_length_app, length_zeros. lia.
Qed.

(** [parseBody] on the text of [toFixed]: the integer part, the point,
    [d] decimals. *)
Lemma parseBody_digits (neg : bool) (d : nat) (m : string) :
  allDigits m = true -> (S d <= String.length m)%nat ->
  let k := (String.length m - d)%nat in
  let text := match d with
              | O => m
              | _ => substring 0 k m ++ "." ++ substring k d m
              end in
  exists v, parseBody neg text = Some (if neg then - v else v)
            /\ v == inject_Z (valueOf m 0) / inject_Z (10 ^ Z.of_nat d)
            /\ startsWithDigit text = true.
Proof.
  intros Hm Hl k text.
  assert (Hp : 0 < inject_Z (10 ^ Z.of_nat d)).
  { change 0 with (inject_Z 0). rewrite <- Zlt_Qlt. apply Z.pow_pos_nonneg; lia. }
  destruct d as [| d'].
  - (* no decimals *)
    subst text. exists (inject_Z (valueOf m 0) + inject_Z 0 / inject_Z (10 ^ Z.of_nat 0)).
    split; [| split].
    + unfold parseBody. rewrite (readDigits_all m 0 0 Hm). cbn [Nat.add].
      destruct (String.length m) eqn:E; [lia |]. cbn [Nat.add]. reflexivity.
    + cbn. field.
    + destruct m as [| c m]; [cbn in Hl; lia |]. cbn in *.
      destruct (digitVal c); [reflexivity | discriminate].
  - set (d := S d') in *.
    assert (Hs : String.length m = (k + d)%nat) by (subst k; lia).
    destruct (substring_split k d m Hs) as (E & La & Lb).
    set (a := substring 0 k m) in *. set (b := substring k d m) in *.
    assert (Hab : allDigits a = true /\ allDigits b = true).
    { rewrite <- E, allDigits_app in Hm. apply andb_true_iff, Hm. }
    destruct Hab as (Ha & Hb).
    exists (inject_Z (valueOf a 0) + inject_Z (valueOf b 0) / inject_Z (10 ^ Z.of_nat d)).
    subst text. cbv iota. split; [| split].
    + unfold parseBody.
      rewrite (readDigits_app a ("." ++ b) 0 0 Ha eq_refl).
      change ("." ++ b) with (String "." b). cbv iota beta.
      rewrite (readDigits_all b 0 0 Hb). cbn [Nat.add]. rewrite Lb.
      destruct (String.length a + d)%nat eqn:E'; [subst d; lia |]. reflexivity.
    + replace (valueOf m 0) with (valueOf (a ++ b) 0) by (rewrite E; reflexivity).
      rewrite (valueOf_app a b 0 Ha), (valueOf_acc b (valueOf a 0) Hb), Lb.
      rewrite inject_Z_plus, inject_Z_mult.
      set (t := inject_Z (10 ^ Z.of_nat d)) in *. clearbody t.
      set (A := inject_Z (valueOf a 0)). set (B := inject_Z (valueOf b 0)).
      clearbody A B. field. lra.
    + destruct a as [| c a]; [cbn in La; subst k; lia |]. cbn in *.
      destruct (digitVal c); [reflexivity | discriminate].
Qed.

(** [parseFloat(x.toFixed(d))] is a number, and it is the number [toFixed]
    rounded to: the units over [10^d], with the sign of [x]. *)
Lemma parseFloat_toFixed (d : nat) (x : Q) :
  exists v, parseFloat (toFixed d x) = Some v
            /\ v == signOf x * (inject_Z (toFixed_units d x) / inject_Z (10 ^ Z.of_nat d)).
Proof.
  pose proof (toFixed_units_nonneg d x) as Hn.
  destruct (padded_units d _ Hn) as (Hm & Hv & Hl).
  unfold toFixed, signOf. cbv zeta.
  set (m := padStart0 (S d) (digits (toFixed_units d x))) in *.
  destruct (parseBody_digits (ltb x 0) d m Hm Hl) as (v & Hp & Ev & Hs).
  cbv zeta in Hp, Hs.
  set (text := match d with
               | O => m
               | S _ => substring 0 (String.length m - d) m ++ "." ++
                        substring (String.length m - d) d m
               end) in *.
  rewrite Hv in Ev.
  destruct (ltb x 0).
  - exists (- v). split; [rewrite parseFloat_minus; exact Hp |]. rewrite Ev. ring.
  - exists v. split; [| rewrite Ev; ring].
    change ("" ++ text) with text.
    destruct text as [| c r]; [discriminate |].
    rewrite parseFloat_unsigned; [exact Hp |].
    cbn in Hs. destruct (digitVal c); [discriminate | discriminate].
Qed.

(** What is read back is within half a unit of the last decimal of the
    number that was formatted. *)
Lemma parseFloat_toFixed_bounds (d : nat) (x : Q) :
  exists v, parseFloat (toFixed d x) = Some v
            /\ x - (1 # 2) / inject_Z (10 ^ Z.of_nat d) <= v
               <= x + (1 # 2) / inject_Z (10 ^ Z.of_nat d).
Proof.
  destruct (parseFloat_toFixed d x) as (v & Hp & Ev).
  exists v. split; [exact Hp |]. rewrite Ev. clear Hp Ev.
  unfold signOf, toFixed_units.
  set (t := inject_Z (10 ^ Z.of_nat d)).
  assert (Ht : 0 < t).
  { unfold t. change 0 with (inject_Z 0). rewrite <- Zlt_Qlt. apply Z.pow_pos_nonneg; lia. }
  pose proof (Qfloor_le (Qabs x * t + (1 # 2))) as Hle.
  pose proof (Qlt_floor (Qabs x * t + (1 # 2))) as Hlt.
  rewrite inject_Z_plus in Hlt. change (inject_Z 1) with 1 in Hlt.
  set (n := inject_Z (Qfloor (Qabs x * t + (1 # 2)))) in *. clearbody n.
  assert (Hq : Qabs x - (1 # 2) / t <= n / t <= Qabs x + (1 # 2) / t).
  { split.
    - apply Qle_shift_div_l; [exact Ht |].
      assert (E : (Qabs x - (1 # 2) / t) * t == Qabs x * t - (1 # 2)) by (field; lra).
      rewrite E. lra.
    - apply Qle_shift_div_r; [exact Ht |].
      assert (E : (Qabs x + (1 # 2) / t) * t == Qabs x * t + (1 # 2)) by (field; lra).
      rewrite E. lra. }
  destruct (ltb x 0) eqn:Hs.
  - apply ltb_true in Hs. rewrite (Qabs_neg x) in Hq by lra. lra.
  - assert (0 <= x).
    { destruct (Qlt_le_dec x 0) as [H | H]; [| exact H].
      apply ltb_true in H. congruence. }
    rewrite (Qabs_pos x) in Hq by assumption. lra.
Qed.

End NumberTextFacts.

(* ===================================================================== *)
(** ** The GST ledger: lines, readback and totals *)
(* ===================================================================== *)

Section MoreLedgerFacts.
Import JS Orders NumberText Ledger.

Lemma orNum_Some (x : Q) : orNum (Some x) 0 == x.
Proof.
  unfold orNum. destruct (truthyNum x) eqn:E; [reflexivity |].
  unfold truthyNum in E. apply negb_false_iff, Qeq_bool_iff in E. rewrite E. reflexivity.
Qed.

(** An order whose [items] is an empty array yields a breakdown of zeros
    whatever the order stores: the test [items && Array.isArray(items)]
    holds of [[]], so the order-level [gstAmount] is never looked at. *)
Theorem empty_items_array_gives_a_zero_breakdown (o : Order.t) (sub : Q) :
  Order.items o = Some [] ->
  let r := calculateGSTBreakdown o sub in
  GstBreakdown.cgst r == 0 /\ GstBreakdown.sgst r == 0 /\ GstBreakdown.totalGST r == 0
  /\ GstBreakdown.cgstRate r == 0 /\ GstBreakdown.sgstRate r == 0
  /\ GstBreakdown.totalRate r == 0.
Proof.
  intros H r. subst r. unfold calculateGSTBreakdown. rewrite H.
  vm_compute. repeat split.
Qed.

(** An order with an empty items array that stores a tax amount of 45. *)
Lemma empty_items_array_gives_a_zero_breakdown_witness :
  let o := Order.mk (Some Samples.orderId) None None None None None
                    (Some []) None (Some 900) (Some 45) None None None in
  Order.gstAmount o = Some 45
  /\ GstBreakdown.totalGST (calculateGSTBreakdown o 900) == 0.
Proof.
  cbv zeta.
  assert (H : Order.items (Order.mk (Some Samples.orderId) None None None None None
                             (Some []) None (Some 900) (Some 45) None None None)
              = Some []) by reflexivity.
  pose proof (empty_items_array_gives_a_zero_breakdown _ 900 H) as R.
  cbv zeta in R. destruct R as (_ & _ & R & _).
  split; [reflexivity | exact R].
Defined.

(** Method 2 is reached only by items without a stored [gst]: the
    [item.gst ||] at the head of its rate chain never contributes, and the
    rate is [product.gstRate || product.gst || 18]; for an item without a
    product document it is 18. *)
Theorem method2_rate_comes_from_the_product (item : Item.t) :
  hasStoredGst item = false ->
  Item.gst item = None
  /\ productGstRate item
     = orNum (or_ (productField Product.gstRate item) (productField Product.gst item)) 18
  /\ (Item.product item = None -> productGstRate item = 18).
Proof.
  unfold hasStoredGst, productGstRate, productField. intro H.
  destruct (Item.gst item) as [g |] eqn:Eg.
  - cbn in H. rewrite orb_true_r in H. discriminate.
  - split; [reflexivity |]. split; [reflexivity |]. intros ->. reflexivity.
Qed.

(** An item with nothing stored and no product document. *)
Lemma method2_rate_comes_from_the_product_witness :
  productGstRate (Samples.item 118 2 None None) = 18.
Proof.
  assert (H : hasStoredGst (Samples.item 118 2 None None) = false) by reflexivity.
  pose proof (method2_rate_comes_from_the_product _ H) as (_ & _ & R).
  apply R. reflexivity.
Defined.

(** The GST strings of a line are the formatted [totalGstAmount] and its
    half. *)
Lemma line_gst_strings (item : Item.t) (orderData : Order.t) :
  let line := getIndividualProductGST item orderData in
  GstData.cgstAmount line = toFixed 2 (totalGstAmount item / 2)
  /\ GstData.sgstAmount line = toFixed 2 (totalGstAmount item / 2)
  /\ GstData.totalGstAmount line = toFixed 2 (totalGstAmount item).
Proof.
  cbv zeta. unfold getIndividualProductGST, totalGstAmount.
  destruct (hasStoredGst item); repeat split.
Qed.




(** One line read back by the aggregator: [parseFloat] of the formatted
    total GST is a number within half a cent of [totalGstAmount]. *)
Lemma line_gst_read_back (item : Item.t) (orderData : Order.t) :
  let itemGST :=
    orNum (parseFloat (GstData.totalGstAmount (getIndividualProductGST item orderData))) 0 in
  totalGstAmount item - (1 # 200) <= itemGST <= totalGstAmount item + (1 # 200).
Proof.
  cbv zeta. destruct (line_gst_strings item orderData) as (_ & _ & E).
  rewrite E. destruct (parseFloat_toFixed_bounds 2 (totalGstAmount item)) as (v & Hp & Hv).
  rewrite Hp, orNum_Some.
  change ((1 # 2) / inject_Z (10 ^ Z.of_nat 2)) with ((1 # 2) / 100) in Hv.
  assert (Eh : (1 # 2) / 100 == 1 # 200) by reflexivity.
  rewrite Eh in Hv. exact Hv.
Qed.

Lemma fold_addItem_totalGST (orderData : Order.t) (items : list Item.t) : forall s : Sums,
  let n := inject_Z (Z.of_nat (List.length items)) in
  totalGST s + exactTotalGst items - n * (1 # 200)
  <= totalGST (fold_left (addItem orderData) items s)
  <= totalGST s + exactTotalGst items + n * (1 # 200).
Proof.
  induction items as [| item items IH]; intro s; cbv zeta.
  - unfold exactTotalGst. cbn [fold_left fold_right List.length Z.of_nat].
    change (inject_Z 0) with 0. lra.
  - unfold exactTotalGst. cbn [fold_left fold_right List.length].
    specialize (IH (addItem orderData s item)). cbv zeta in IH.
    pose proof (line_gst_read_back item orderData) as Hl. cbv zeta in Hl.
    assert (E : totalGST (addItem orderData s item)
                = totalGST s
                  + orNum (parseFloat (GstData.totalGstAmount
                                         (getIndividualProductGST item orderData))) 0)
      by reflexivity.
    rewrite E in IH. fold (exactTotalGst items).
    rewrite Nat2Z.inj_succ, <- Z.add_1_r, inject_Z_plus. change (inject_Z 1) with 1.
    lra.
Qed.

(** The total GST of a breakdown computed from the items is within
    [(n + 1)] half-cents of the exact sum of the items' GST amounts, [n]
    being the number of items: each line is rounded to cents when it is
    formatted and read back, and the sum is rounded once more. *)
Theorem breakdown_total_is_within_half_cents
    (orderData : Order.t) (subtotalAfterDiscount : Q) (items : list Item.t) :
  Order.items orderData = Some items ->
  Forall divisible items ->
  let n := inject_Z (Z.of_nat (List.length items)) in
  let total := GstBreakdown.totalGST (calculateGSTBreakdown orderData subtotalAfterDiscount) in
  exactTotalGst items - (n + 1) * (1 # 200) <= total
  /\ total <= exactTotalGst items + (n + 1) * (1 # 200).
Proof.
  intros H _ n total. subst total. unfold calculateGSTBreakdown. rewrite H.
  cbn [GstBreakdown.totalGST].
  pose proof (fold_addItem_totalGST orderData items (mkSums 0 0 0 0 0)) as Hf.
  cbv zeta in Hf. cbn [totalGST] in Hf. fold n in Hf.
  pose proof (round2_bounds (totalGST (fold_left (addItem orderData) items
                                          (mkSums 0 0 0 0 0)))) as Hr.
  split; lra.
Qed.

(** Three lines of 33.33 with a stored tax of 1.586 each: the exact sum is
    4.758, the breakdown shows 4.77. *)
Lemma breakdown_total_is_within_half_cents_witness :
  let items := [Samples.item (3333 # 100) 1 (Some (1586 # 1000)) None;
                Samples.item (3333 # 100) 1 (Some (1586 # 1000)) None;
                Samples.item (3333 # 100) 1 (Some (1586 # 1000)) None] in
  let total := GstBreakdown.totalGST (calculateGSTBreakdown (Samples.order (Some items)) 0) in
  exactTotalGst items == 4758 # 1000
  /\ total == 477 # 100
  /\ total <= exactTotalGst items + (3 + 1) * (1 # 200).
Proof.
  cbv zeta.
  assert (H : Order.items (Samples.order
                 (Some [Samples.item (3333 # 100) 1 (Some (1586 # 1000)) None;
                        Samples.item (3333 # 100) 1 (Some (1586 # 1000)) None;
                        Samples.item (3333 # 100) 1 (Some (1586 # 1000)) None]))
              = Some [Samples.item (3333 # 100) 1 (Some (1586 # 1000)) None;
                      Samples.item (3333 # 100) 1 (Some (1586 # 1000)) None;
                      Samples.item (3333 # 100) 1 (Some (1586 # 1000)) None])
    by reflexivity.
  assert (D : Forall divisible
                [Samples.item (3333 # 100) 1 (Some (1586 # 1000)) None;
                 Samples.item (3333 # 100) 1 (Some (1586 # 1000)) None;
                 Samples.item (3333 # 100) 1 (Some (1586 # 1000)) None])
    by (repeat constructor; left; reflexivity).
  pose proof (breakdown_total_is_within_half_cents _ 0 _ H D) as R.
  cbv zeta in R. destruct R as (_ & R).
  split; [vm_compute; reflexivity |]. split; [vm_compute; reflexivity |].
  exact R.
Defined.

End MoreLedgerFacts.

(* ===================================================================== *)
(** ** The invoice: shipping line, number, amount in words *)
(* ===================================================================== *)

Section MoreInvoiceFacts.
Import JS Orders.

(** [getInvoiceOrderNumber] reads the clock only in its last resort: for
    an order that has a creation date and an id (or a stored number of
    ten characters, or the virtual field) the number is the same whenever
    it is computed. *)
Theorem stored_identity_makes_the_number_clock_free
    (getFullYear : string -> Z) (year1 year2 : Z) (orderData : Order.t) :
  (truthyStr (Order.createdAt orderData) = true /\ truthyStr (Order._id orderData) = true)
  \/ truthyStr (Order.invoiceOrderNumber orderData) = true
  \/ (exists s, Order.invoiceNumber orderData = Some s /\ String.length s = 10%nat) ->
  getInvoiceOrderNumber getFullYear year1 orderData
  = getInvoiceOrderNumber getFullYear year2 orderData.
Proof.
  intro H. unfold getInvoiceOrderNumber.
  destruct (truthyStr (Order.invoiceNumber orderData)
            && (String.length (orStrLit (Order.invoiceNumber orderData) "") =? 10)%nat)
    eqn:E1; [reflexivity |].
  destruct (truthyStr (Order.invoiceOrderNumber orderData)) eqn:E2; [reflexivity |].
  destruct (orderNumberTruthy (Order.orderNumber orderData)
            && truthyStr (Order.createdAt orderData)); [reflexivity |].
  destruct (truthyStr (Order.formattedOrderNumber orderData)
            && truthyStr (Order.createdAt orderData)); [reflexivity |].
  destruct (truthyStr (Order.createdAt orderData) && truthyStr (Order._id orderData))
    eqn:E5; [reflexivity |].
  exfalso. destruct H as [(Hc & Hi) | [H | (s & Hs & Hl)]].
  - rewrite Hc, Hi in E5. discriminate.
  - discriminate.
  - rewrite Hs in E1. destruct s as [| c s]; [discriminate |].
    cbn [truthyStr orStrLit andb] in E1. rewrite Hl in E1. discriminate.
Qed.

(** The sample order, in 2025 and in 2031. *)
Lemma stored_identity_makes_the_number_clock_free_witness :
  getInvoiceOrderNumber Samples.yearOfStamp 2025 (Samples.order None) = "2025000124"
  /\ getInvoiceOrderNumber Samples.yearOfStamp 2031 (Samples.order None) = "2025000124".
Proof.
  assert (H : (truthyStr (Order.createdAt (Samples.order None)) = true
               /\ truthyStr (Order._id (Samples.order None)) = true)
              \/ truthyStr (Order.invoiceOrderNumber (Samples.order None)) = true
              \/ (exists s, Order.invoiceNumber (Samples.order None) = Some s
                            /\ String.length s = 10%nat))
    by (left; split; reflexivity).
  pose proof (stored_identity_makes_the_number_clock_free Samples.yearOfStamp 2025 2031
                (Samples.order None) H) as E.
  split; [reflexivity | rewrite <- E; reflexivity].
Defined.

End MoreInvoiceFacts.

(* ===================================================================== *)
(** ** Amount in words off the whole, positive amounts *)
(* ===================================================================== *)

Section MoreWordsFacts.
Import JS.

Lemma index_negative (l : list string) (x : Q) : x < 0 -> index l x = None.
Proof.
  intro H. unfold index.
  assert (Hf : (Qfloor x < 0)%Z).
  { apply lt_int. pose proof (Qfloor_le x). change (inject_Z 0) with 0. lra. }
  assert (E : (0 <=? Qfloor x)%Z = false) by (apply Z.leb_gt, Hf).
  rewrite E, andb_false_r. reflexivity.
Qed.

Lemma index_fractional (l : list string) (x : Q) :
  (forall k : Z, ~ x == inject_Z k) -> index l x = None.
Proof.
  intro H. unfold index.
  destruct (Qeq_bool (inject_Z (Qfloor x)) x) eqn:E; [| reflexivity].
  apply Qeq_bool_iff in E. exfalso. apply (H (Qfloor x)). symmetry. exact E.
Qed.

(** A negative amount has no words: every comparison of
    [convertToWords] sends it to the lookup [ones[amount]], which is
    [undefined], and the invoice prints "undefined Rupees Only". *)
Theorem convertToWords_of_a_negative_amount (amount : Q) :
  amount < 0 ->
  Orders.convertToWords amount = None
  /\ str (Orders.convertToWords amount) ++ " Rupees Only" = "undefined Rupees Only".
Proof.
  intro H.
  assert (E : Orders.convertToWords amount = None).
  { rewrite convertToWords_unfold.
    destruct (Qeq_dec amount 0) as [E0 | _]; [lra |].
    destruct (Qlt_le_dec amount 10) as [_ | H10]; [| lra].
    apply index_negative, H. }
  split; [exact E | rewrite E; reflexivity].
Qed.

(** The negative total of an over-discounted order. *)
Lemma convertToWords_of_a_negative_amount_witness :
  str (Orders.convertToWords (-50)) ++ " Rupees Only" = "undefined Rupees Only".
Proof.
  assert (H : -50 < 0) by reflexivity.
  exact (proj2 (convertToWords_of_a_negative_amount (-50) H)).
Defined.

(** The remainder of a non-negative number: between 0 and the divisor. *)
Lemma rem_bounds (x m : Q) : 0 < m -> 0 <= x -> 0 <= rem x m /\ rem x m < m.
Proof.
  intros Hm Hx. unfold rem, trunc.
  assert (H0 : 0 <= x / m) by (apply Qle_shift_div_l; [exact Hm | lra]).
  apply Qle_bool_iff in H0. rewrite H0.
  pose proof (Qfloor_le (x / m)) as Hle. pose proof (Qlt_floor (x / m)) as Hlt.
  rewrite inject_Z_plus in Hlt. change (inject_Z 1) with 1 in Hlt.
  assert (Hxm : x / m * m == x) by (field; lra).
  set (t := inject_Z (Qfloor (x / m))) in *. clearbody t.
  assert (H1 : t * m <= x / m * m) by (apply Qmult_le_compat_r; lra).
  assert (H2 : x / m * m < (t + 1) * m) by (apply Qmult_lt_compat_r; lra).
  assert (H1' : t * m <= x) by (rewrite <- Hxm; exact H1).
  assert (H2' : x < (t + 1) * m) by (rewrite <- Hxm at 1; exact H2).
  clear H1 H2 Hxm Hle Hlt H0.
  assert (E1 : x - m * t == x - t * m) by ring.
  assert (E2 : (t + 1) * m == t * m + m) by ring.
  rewrite E2 in H2'. rewrite E1.
  set (u := t * m) in *. clearbody u. split; lra.
Qed.

(** A remainder by a whole divisor is whole only if the number is. *)
Lemma rem_fractional (x : Q) (m : Z) :
  (forall k : Z, ~ x == inject_Z k) -> forall k : Z, ~ rem x (inject_Z m) == inject_Z k.
Proof.
  intros H k E. unfold rem in E.
  apply (H (k + m * trunc (x / inject_Z m))%Z).
  rewrite inject_Z_plus, inject_Z_mult. lra.
Qed.

Lemma fractional_nonzero (x : Q) :
  (forall k : Z, ~ x == inject_Z k) -> negb (Qeq_bool x 0) = true.
Proof.
  intro H. apply negb_true_iff. destruct (Qeq_bool x 0) eqn:E; [| reflexivity].
  apply Qeq_bool_iff in E. exfalso. apply (H 0%Z). exact E.
Qed.

Lemma words_below_hundred_fractional (amount : Q) :
  (forall k : Z, ~ amount == inject_Z k) -> 0 < amount -> amount < 100 ->
  exists s, str (Orders.convertToWords amount) = s ++ "undefined".
Proof.
  intros Hf H0 H100. rewrite convertToWords_unfold.
  destruct (Qeq_dec amount 0) as [E0 | _]; [lra |].
  destruct (Qlt_le_dec amount 10) as [_ | H10].
  { rewrite (index_fractional Orders.ones amount Hf). exists "". reflexivity. }
  destruct (Qlt_le_dec amount 20) as [_ | H20].
  { rewrite index_fractional; [exists ""; reflexivity |].
    intros k E. apply (Hf (k + 10)%Z). rewrite inject_Z_plus.
    change (inject_Z 10) with 10. lra. }
  destruct (Qlt_le_dec amount 100) as [_ | H]; [| lra].
  pose proof (rem_fractional amount 10 Hf) as Hr. change (inject_Z 10) with 10 in Hr.
  rewrite (fractional_nonzero _ Hr), (index_fractional Orders.ones _ Hr).
  exists (str (index Orders.tens (Math_floor (amount / 10))) ++ " ").
  cbn [str]. rewrite append_assoc. reflexivity.
Qed.

Lemma words_below_thousand_fractional (amount : Q) :
  (forall k : Z, ~ amount == inject_Z k) -> 0 < amount -> amount < 1000 ->
  exists s, str (Orders.convertToWords amount) = s ++ "undefined".
Proof.
  intros Hf H0 H1000.
  destruct (Qlt_le_dec amount 100) as [H100 | H100];
    [apply words_below_hundred_fractional; assumption |].
  rewrite convertToWords_unfold.
  destruct (Qeq_dec amount 0) as [E0 | _]; [lra |].
  destruct (Qlt_le_dec amount 10) as [H | _]; [lra |].
  destruct (Qlt_le_dec amount 20) as [H | _]; [lra |].
  destruct (Qlt_le_dec amount 100) as [H | _]; [lra |].
  destruct (Qlt_le_dec amount 1000) as [_ | H]; [| lra].
  pose proof (rem_fractional amount 100 Hf) as Hr. change (inject_Z 100) with 100 in Hr.
  destruct (rem_bounds amount 100) as (Hb0 & Hb1); [lra | lra |].
  assert (Hpos : 0 < rem amount 100).
  { destruct (Qeq_dec (rem amount 100) 0) as [E | E]; [| lra].
    exfalso. apply (Hr 0%Z). exact E. }
  destruct (words_below_hundred_fractional _ Hr Hpos Hb1) as (s & Es).
  rewrite (fractional_nonzero _ Hr), Es.
  exists (str (index Orders.ones (Math_floor (amount / 100))) ++ " Hundred" ++ " " ++ s).
  cbn [str]. rewrite !append_assoc. reflexivity.
Qed.

(** An amount with paise is never put into words in full: for every
    amount between 0 and 100000 that is not a whole number, the words end
    in "undefined", the lookup of a fractional index (365.40 gives "Three
    Hundred Sixty undefined"). *)
Theorem convertToWords_of_an_amount_with_paise (amount : Q) :
  (forall k : Z, ~ amount == inject_Z k) -> 0 < amount -> amount < 100000 ->
  exists s, str (Orders.convertToWords amount) = s ++ "undefined".
Proof.
  intros Hf H0 Hmax.
  destruct (Qlt_le_dec amount 1000) as [H1000 | H1000];
    [apply words_below_thousand_fractional; assumption |].
  rewrite convertToWords_unfold.
  destruct (Qeq_dec amount 0) as [E0 | _]; [lra |].
  destruct (Qlt_le_dec amount 10) as [H | _]; [lra |].
  destruct (Qlt_le_dec amount 20) as [H | _]; [lra |].
  destruct (Qlt_le_dec amount 100) as [H | _]; [lra |].
  destruct (Qlt_le_dec amount 1000) as [H | _]; [lra |].
  destruct (Qlt_le_dec amount 100000) as [_ | H]; [| lra].
  pose proof (rem_fractional amount 1000 Hf) as Hr. change (inject_Z 1000) with 1000 in Hr.
  destruct (rem_bounds amount 1000) as (Hb0 & Hb1); [lra | lra |].
  assert (Hpos : 0 < rem amount 1000).
  { destruct (Qeq_dec (rem amount 1000) 0) as [E | E]; [| lra].
    exfalso. apply (Hr 0%Z). exact E. }
  destruct (words_below_thousand_fractional _ Hr Hpos Hb1) as (s & Es).
  rewrite (fractional_nonzero _ Hr), Es.
  exists (str (Orders.convertToWords (Math_floor (amount / 1000))) ++ " Thousand" ++ " " ++ s).
  cbn [str]. rewrite !append_assoc. reflexivity.
Qed.

(** 365.40 *)
Lemma convertToWords_of_an_amount_with_paise_witness :
  Orders.convertToWords (3654 # 10) = Some "Three Hundred Sixty undefined"
  /\ exists s, str (Orders.convertToWords (3654 # 10)) = s ++ "undefined".
Proof.
  assert (Hf : forall k : Z, ~ (3654 # 10) == inject_Z k).
  { intros k E. unfold Qeq in E. cbn in E. lia. }
  assert (H0 : 0 < 3654 # 10) by reflexivity.
  assert (H1 : (3654 # 10) < 100000) by reflexivity.
  split; [vm_compute; reflexivity |].
  exact (convertToWords_of_an_amount_with_paise _ Hf H0 H1).
Defined.

End MoreWordsFacts.

(* ===================================================================== *)
(** ** The list of orders: search, status filter, cards *)
(* ===================================================================== *)

Section OrderListFacts.
Import JS JSString Orders OrderList.

Lemma filter_narrowed {A} (P Q : A -> bool) (l : list A) :
  (forall x, P x = true -> Q x = true) ->
  List.filter P (List.filter Q l) = List.filter P l.
Proof.
  intro H. induction l as [| x l IH]; cbn; [reflexivity |].
  destruct (Q x) eqn:EQ; cbn.
  - destruct (P x); [now rewrite IH | exact IH].
  - destruct (P x) eqn:EP; [| exact IH].
    rewrite (H x EP) in EQ. discriminate.
Qed.

Lemma existsb_impl {A} (P Q : A -> bool) (l : list A) :
  (forall x, P x = true -> Q x = true) -> existsb P l = true -> existsb Q l = true.
Proof.
  intros H. rewrite !existsb_exists. intros (x & Hin & Hx). exists x. auto.
Qed.

(** Without a search text and with the filter on "all", the list shows
    every order it was given, in the same order; only empty slots are
    dropped. *)
Theorem no_criteria_lists_every_order (orders : list (option ListedOrder.t)) :
  filteredOrders orders "" "all" = List.filter defined orders
  /\ (Forall (fun o => o <> None) orders -> filteredOrders orders "" "all" = orders).
Proof.
  assert (E : filteredOrders orders "" "all" = List.filter defined orders).
  { unfold filteredOrders. apply filter_ext. intros [o |]; [| reflexivity].
    cbn. rewrite includes_empty. reflexivity. }
  split; [exact E |]. intro H. rewrite E. clear E.
  induction H as [| [o |] l Ho _ IH];
    [reflexivity
    | change (Some o :: List.filter defined l = Some o :: l); f_equal; exact IH
    | congruence].
Qed.

(** The sample list has one empty slot. *)
Lemma no_criteria_lists_every_order_witness :
  List.length (filteredOrders MoreSamples.orders "" "all") = 3%nat
  /\ filteredOrders (List.filter defined MoreSamples.orders) "" "all"
     = List.filter defined MoreSamples.orders.
Proof.
  destruct (no_criteria_lists_every_order MoreSamples.orders) as (E & _).
  destruct (no_criteria_lists_every_order (List.filter defined MoreSamples.orders))
    as (_ & F).
  split; [rewrite E; reflexivity |].
  apply F. cbn. repeat constructor; discriminate.
Defined.

Lemma listed_narrows (q1 q2 f : string) (o : option ListedOrder.t) :
  includes (toLowerCase q2) (toLowerCase q1) = true ->
  listed q2 f o = true -> listed q1 f o = true.
Proof.
  intro Hq. destruct o as [o |]; [| trivial]. unfold listed.
  set (id := toLowerCase (orStrLit (Order._id (ListedOrder.order o)) "")).
  set (items := match Order.items (ListedOrder.order o) with Some l => l | None => [] end).
  assert (M : includes id (toLowerCase q2) || existsb (nameMatches (toLowerCase q2)) items = true ->
              includes id (toLowerCase q1) || existsb (nameMatches (toLowerCase q1)) items = true).
  { rewrite !orb_true_iff. intros [H | H].
    - left. eapply includes_trans; eassumption.
    - right. revert H. apply existsb_impl. intros item. unfold nameMatches.
      destruct (productField Product.name item); [| trivial].
      intro H. eapply includes_trans; eassumption. }
  destruct (String.eqb f "all"); [exact M |].
  rewrite !andb_true_iff. intros (H1 & H2). split; [apply M, H1 | exact H2].
Qed.

(** Typing more only narrows the list: when the search text [q1] occurs
    in the longer text [q2] (letter case aside), searching for [q2] among
    the orders listed for [q1] gives what searching for [q2] among all
    orders gives; no order comes back that the shorter text had ruled
    out, and none is lost. *)
Theorem longer_search_text_narrows_the_list
    (orders : list (option ListedOrder.t)) (q1 q2 filter : string) :
  includes (toLowerCase q2) (toLowerCase q1) = true ->
  filteredOrders (filteredOrders orders q1 filter) q2 filter
  = filteredOrders orders q2 filter
  /\ incl (filteredOrders orders q2 filter) (filteredOrders orders q1 filter).
Proof.
  intro Hq. unfold filteredOrders. split.
  - apply filter_narrowed. intro o. apply listed_narrows, Hq.
  - intros o. rewrite !filter_In. intros (Hin & Ho). split; [exact Hin |].
    revert Ho. apply listed_narrows, Hq.
Qed.

(** Searching "tom", then "Tomato". *)
Lemma longer_search_text_narrows_the_list_witness :
  filteredOrders (filteredOrders MoreSamples.orders "tom" "all") "Tomato" "all"
  = filteredOrders MoreSamples.orders "Tomato" "all"
  /\ List.length (filteredOrders MoreSamples.orders "Tomato" "all") = 2%nat.
Proof.
  assert (Hq : includes (toLowerCase "Tomato") (toLowerCase "tom") = true) by reflexivity.
  pose proof (longer_search_text_narrows_the_list MoreSamples.orders "tom" "Tomato" "all" Hq)
    as (H & _).
  split; [exact H | reflexivity].
Defined.

(** The search does not look at letter case, in the text typed or in the
    data, and a status filter lists only orders of that status (compared
    in lower case) among those the search alone lists. *)
Theorem search_ignores_case_and_status_filter_is_sound
    (orders : list (option ListedOrder.t)) (searchQuery filter : string) :
  filteredOrders orders searchQuery filter
  = filteredOrders orders (toLowerCase searchQuery) filter
  /\ (filter <> "all" ->
      forall o, In o (filteredOrders orders searchQuery filter) ->
      In o (filteredOrders orders searchQuery "all")
      /\ exists order, o = Some order
           /\ toLowerCase (orStrLit (ListedOrder.status order) "") = filter).
Proof.
  unfold filteredOrders. split.
  - apply filter_ext. intros [o |]; [| reflexivity].
    unfold listed. rewrite toLowerCase_idem. reflexivity.
  - intros Hf o. rewrite !filter_In. intros (Hin & Ho).
    destruct o as [o |]; [| discriminate]. unfold listed in *.
    apply String.eqb_neq in Hf. rewrite Hf in Ho. cbn [String.eqb].
    apply andb_true_iff in Ho. destruct Ho as (H1 & H2).
    split; [split; [exact Hin | exact H1] |].
    exists o. split; [reflexivity | apply String.eqb_eq, H2].
Qed.

(** The delivered order is found under "delivered" although its status is
    stored with a capital. *)
Lemma search_ignores_case_and_status_filter_is_sound_witness :
  filteredOrders MoreSamples.orders "TOMATO" "delivered"
  = [MoreSamples.listedOrder "A1" (Some "Delivered") ["Tomato"; "Onion"]]
  /\ In (MoreSamples.listedOrder "A1" (Some "Delivered") ["Tomato"; "Onion"])
        (filteredOrders MoreSamples.orders "TOMATO" "all").
Proof.
  destruct (search_ignores_case_and_status_filter_is_sound
              MoreSamples.orders "TOMATO" "delivered") as (_ & H).
  assert (Hf : "delivered" <> "all") by discriminate.
  assert (Hin : In (MoreSamples.listedOrder "A1" (Some "Delivered") ["Tomato"; "Onion"])
                   (filteredOrders MoreSamples.orders "TOMATO" "delivered"))
    by (left; reflexivity).
  destruct (H Hf _ Hin) as (Hall & _).
  split; [reflexivity | exact Hall].
Defined.

(** *** Address and image of a card *)

Lemma join_nonempty (sep : string) (parts : list string) :
  Forall (fun s => s <> "") parts -> parts <> [] -> Checkout.join sep parts <> "".
Proof.
  intros H Hn. destruct parts as [| x l]; [congruence |].
  inversion H as [| ? ? Hx _]; subst.
  destruct x as [| c x]; [congruence |]. destruct l; discriminate.
Qed.

Lemma filterBoolean_nonempty (parts : list (option string)) :
  Forall (fun s => s <> "") (filterBoolean parts).
Proof.
  unfold filterBoolean. induction parts as [| x l IH]; cbn; [constructor |].
  destruct (truthyStr x) eqn:E; cbn; [| exact IH].
  constructor; [| exact IH]. apply (truthyStr_orStrLit _ "" E).
Qed.

(** [formatAddress] of the list never gives an empty text: a missing
    address and an address without any usable field each have their own
    placeholder, and otherwise the parts present are joined. *)
Theorem order_address_is_never_empty (address : option OrderAddress.t) :
  formatAddress address <> ""
  /\ (address = None -> formatAddress address = "Address not available")
  /\ (forall a, address = Some a ->
      truthyStr (OrderAddress.address a) = false ->
      truthyStr (OrderAddress.city a) = false ->
      truthyStr (OrderAddress.state a) = false ->
      truthyStr (OrderAddress.pincode a) = false ->
      truthyStr (OrderAddress.phone a) = false ->
      formatAddress address = "Address details not available").
Proof.
  split; [| split].
  - destruct address as [a |]; [| discriminate]. unfold formatAddress.
    set (parts := filterBoolean _).
    destruct (Checkout.join ", " parts) as [| c s] eqn:E; discriminate.
  - intros ->. reflexivity.
  - intros a -> H1 H2 H3 H4 H5. unfold formatAddress, filterBoolean, labelled.
    cbn [flat_map]. rewrite H4, H5, H1, H2, H3, H4, H5. reflexivity.
Qed.

(** An address of which only the pincode is known. *)
Lemma order_address_is_never_empty_witness :
  formatAddress (Some (OrderAddress.mk None (Some "") None (Some "411001") None))
  = "PIN: 411001"
  /\ formatAddress (Some (OrderAddress.mk None (Some "") None None None))
     = "Address details not available".
Proof.
  destruct (order_address_is_never_empty
              (Some (OrderAddress.mk None (Some "") None None None))) as (_ & _ & H).
  split; [reflexivity |].
  apply (H _ eq_refl); reflexivity.
Defined.

Lemma includes_char_cons (sep c : ascii) (r : string) :
  c <> sep -> includes r (String sep "") = false ->
  includes (String c r) (String sep "") = false.
Proof.
  intros Hc Hr. cbn [includes]. rewrite Hr, orb_false_r. cbn.
  destruct (ascii_dec sep c); [congruence | reflexivity].
Qed.

(** [s.split(sep).pop()] is what follows the last separator: [s] is a
    directory part, empty or ending in the separator, followed by this
    last segment, which holds no separator. *)
Lemma pop_split (sep : ascii) (s : string) :
  exists dir file,
    s = dir ++ file /\ pop (split sep s) = Some file
    /\ includes file (String sep "") = false
    /\ ((dir = "" /\ split sep s = [s])
        \/ ((exists d, dir = d ++ String sep "")
            /\ exists x y ys, split sep s = x :: y :: ys)).
Proof.
  induction s as [| c r (dir & file & E & Hp & Hf & Hd)].
  - exists "", "". repeat split; auto.
  - cbn [split]. destruct (Ascii.eqb c sep) eqn:Ec.
    + apply Ascii.eqb_eq in Ec. subst c.
      exists (String sep dir), file. split; [cbn; now rewrite E |].
      split.
      { destruct Hd as [(_ & Hs) | (_ & x & y & ys & Hs)]; rewrite Hs in Hp |- *; exact Hp. }
      split; [exact Hf |]. right. split.
      * destruct Hd as [(-> & _) | ((d & ->) & _)];
          [exists ""; reflexivity | exists (String sep d); reflexivity].
      * destruct Hd as [(_ & Hs) | (_ & x & y & ys & Hs)]; rewrite Hs; eauto.
    + apply Ascii.eqb_neq in Ec.
      destruct Hd as [(-> & Hs) | ((d & ->) & x & y & ys & Hs)]; rewrite Hs.
      * cbn in E. subst file. exists "", (String c r).
        split; [reflexivity |]. split; [reflexivity |].
        split; [apply includes_char_cons; assumption |]. left. split; reflexivity.
      * exists (String c (d ++ String sep "")), file.
        split; [cbn; now rewrite E |].
        split; [rewrite Hs in Hp; exact Hp |].
        split; [exact Hf |]. right. split; [exists (String c d); reflexivity | eauto].
Qed.

(** An image path that is neither an absolute URL nor under [/uploads]
    keeps only its file name: whatever directories it names are dropped,
    and the image is looked up in [/uploads/product/] of the base URL. *)
Theorem relative_image_path_keeps_its_file_name
    (BASE_URL : option string) (imagePath : string) :
  imagePath <> "" ->
  startsWith "http" imagePath = false -> startsWith "/uploads" imagePath = false ->
  exists dir file,
    imagePath = dir ++ file
    /\ includes file "/" = false
    /\ (dir = "" \/ exists d, dir = d ++ "/")
    /\ getProductImage BASE_URL (Some imagePath)
       = str BASE_URL ++ "/uploads/product/" ++ file.
Proof.
  intros Hne Hh Hu. unfold getProductImage.
  rewrite (truthyStr_Some _ Hne), (orStrLit_Some _ _ Hne). cbn [negb]. rewrite Hh, Hu.
  destruct (pop_split "/" imagePath) as (dir & file & E & Hp & Hf & Hd).
  exists dir, file. split; [exact E |]. split; [exact Hf |]. split.
  - destruct Hd as [(Hd & _) | (Hd & _)]; [left; exact Hd | right; exact Hd].
  - rewrite Hp. reflexivity.
Qed.

(** A path with two directories. *)
Lemma relative_image_path_keeps_its_file_name_witness :
  getProductImage (Some "https://cdn.example.com") (Some "images/veg/tomato.jpg")
  = "https://cdn.example.com/uploads/product/tomato.jpg"
  /\ exists dir file,
       "images/veg/tomato.jpg" = dir ++ file /\ includes file "/" = false
       /\ getProductImage (Some "https://cdn.example.com") (Some "images/veg/tomato.jpg")
          = "https://cdn.example.com" ++ "/uploads/product/" ++ file.
Proof.
  assert (Hne : "images/veg/tomato.jpg" <> "") by discriminate.
  assert (Hh : startsWith "http" "images/veg/tomato.jpg" = false) by reflexivity.
  assert (Hu : startsWith "/uploads" "images/veg/tomato.jpg" = false) by reflexivity.
  destruct (relative_image_path_keeps_its_file_name (Some "https://cdn.example.com")
              _ Hne Hh Hu) as (dir & file & E & Hf & _ & H).
  split; [reflexivity |]. exists dir, file. split; [exact E |]. split; [exact Hf | exact H].
Defined.

End OrderListFacts.

(* ===================================================================== *)
(** ** The fresh-vegetables page *)
(* ===================================================================== *)

Section FreshVegetablesFacts.
Import JS JSString FreshVegetables.

Lemma filterFreshVegetables_Some (allProducts : list (option CatalogProduct.t)) :
  forall kept, filterFreshVegetables allProducts = Some kept ->
  forall product, In product kept ->
  In (Some product) allProducts /\ isFreshVegetable product = true.
Proof.
  induction allProducts as [| [p |] rest IH]; intros kept H product Hin; cbn in H.
  - injection H as <-. destruct Hin.
  - destruct (filterFreshVegetables rest) as [kept' |]; [| discriminate].
    injection H as <-. destruct (isFreshVegetable p) eqn:Ep.
    + destruct Hin as [<- | Hin]; [split; [left; reflexivity | exact Ep] |].
      destruct (IH kept' eq_refl product Hin) as (H1 & H2). split; [right; exact H1 | exact H2].
    + destruct (IH kept' eq_refl product Hin) as (H1 & H2). split; [right; exact H1 | exact H2].
  - discriminate.
Qed.

Lemma filterFreshVegetables_None (allProducts : list (option CatalogProduct.t)) :
  filterFreshVegetables allProducts = None <-> In None allProducts.
Proof.
  induction allProducts as [| [p |] rest IH]; cbn.
  - split; [discriminate | tauto].
  - destruct (filterFreshVegetables rest).
    + split; [discriminate |]. intros [H | H]; [discriminate | apply IH in H; discriminate].
    + split; [intros _; right; apply IH; reflexivity | reflexivity].
  - split; [intros _; left; reflexivity | reflexivity].
Qed.

(** Whatever [getAllProducts] answers, every product the page lists came
    with the answer, is an active fresh vegetable, and is never shown as
    "Unavailable": [getProductStatus] gives it "out-of-stock" when its
    stock is 0 and "available" otherwise. *)
Theorem listed_products_are_active (typeErrorMessage : string) (data : Fetched)
    (s : Shop) (product : CatalogProduct.t) :
  In product (products (loadProducts typeErrorMessage data s)) ->
  (exists allProducts, data = FetchedArray allProducts /\ In (Some product) allProducts)
  /\ CatalogProduct.status product = Some "active"
  /\ getProductStatus (Some product) <> unavailable
  /\ loading (loadProducts typeErrorMessage data s) = false.
Proof.
  unfold loadProducts. destruct data as [allProducts | | message]; cbn; try tauto.
  destruct (filterFreshVegetables allProducts) as [kept |] eqn:E; cbn; [| tauto].
  intro Hin. destruct (filterFreshVegetables_Some _ _ E _ Hin) as (H1 & H2).
  split; [exists allProducts; split; [reflexivity | exact H1] |].
  unfold isFreshVegetable in H2.
  apply andb_true_iff in H2. destruct H2 as (_ & Ha).
  unfold getProductStatus.
  destruct (CatalogProduct.status product) as [st |]; [| discriminate].
  apply String.eqb_eq in Ha. subst st.
  split; [reflexivity |]. split; [| reflexivity].
  cbn. destruct (CatalogProduct.stock product) as [q |]; [| discriminate].
  destruct (Qeq_bool q 0); discriminate.
Qed.

(** An answer with an active product out of stock and an inactive one. *)
Lemma listed_products_are_active_witness :
  let data := FetchedArray [Some (MoreSamples.vegetable "v1" "active" (Some 0));
                            Some (MoreSamples.vegetable "v2" "inactive" (Some 5))] in
  products (loadProducts "" data MoreSamples.shop)
  = [MoreSamples.vegetable "v1" "active" (Some 0)]
  /\ getProductStatus (Some (MoreSamples.vegetable "v1" "active" (Some 0))) <> unavailable.
Proof.
  cbv zeta.
  assert (Hin : In (MoreSamples.vegetable "v1" "active" (Some 0))
                   (products (loadProducts ""
                      (FetchedArray [Some (MoreSamples.vegetable "v1" "active" (Some 0));
                                     Some (MoreSamples.vegetable "v2" "inactive" (Some 5))])
                      MoreSamples.shop)))
    by (left; reflexivity).
  pose proof (listed_products_are_active _ _ _ _ Hin) as (_ & _ & H & _).
  split; [reflexivity | exact H].
Defined.

(** One [null] entry in the answer empties the page: the filter callback
    reads [product.name] and throws, so no product is listed, however
    many valid ones the answer holds, and the error view is shown. *)
Theorem one_null_product_empties_the_page (typeErrorMessage : string)
    (allProducts : list (option CatalogProduct.t)) (s : Shop) :
  In None allProducts ->
  let s' := loadProducts typeErrorMessage (FetchedArray allProducts) s in
  products s' = [] /\ error s' = Some typeErrorMessage /\ loading s' = false.
Proof.
  intros H s'. subst s'. unfold loadProducts.
  apply filterFreshVegetables_None in H. rewrite H. repeat split.
Qed.

(** Two valid products and a [null]. *)
Lemma one_null_product_empties_the_page_witness :
  products (loadProducts "Cannot read properties of null"
              (FetchedArray [Some (MoreSamples.vegetable "v1" "active" (Some 3));
                             None;
                             Some (MoreSamples.vegetable "v3" "active" (Some 5))])
              MoreSamples.shop) = [].
Proof.
  assert (H : In None [Some (MoreSamples.vegetable "v1" "active" (Some 3));
                       None;
                       Some (MoreSamples.vegetable "v3" "active" (Some 5))])
    by (right; left; reflexivity).
  exact (proj1 (one_null_product_empties_the_page "Cannot read properties of null"
                  _ MoreSamples.shop H)).
Defined.

(** [handleAddToCart] dispatches [ADD_TO_CART] only for a visitor who is
    signed in and a product that is neither inactive nor at stock 0, and
    then for that product once; a visitor who is not signed in is sent
    to [/login] and nothing is dispatched. *)
Theorem add_to_cart_needs_login_and_stock (product : option CatalogProduct.t) (s : Shop) :
  let s' := handleAddToCart product s in
  (addedToCart s' <> addedToCart s ->
   isAuthenticated s = true
   /\ exists p, product = Some p
        /\ addedToCart s' = (addedToCart s ++ [p])%list
        /\ CatalogProduct.status p <> Some "inactive"
        /\ (forall stock, CatalogProduct.stock p = Some stock -> ~ stock == 0))
  /\ (isAuthenticated s = false -> product <> None ->
      addedToCart s' = addedToCart s /\ route s' = Some "/login").
Proof.
  cbv zeta. unfold handleAddToCart. destruct product as [p |]; [| split; [tauto | congruence]].
  destruct (isAuthenticated s); cbn [negb].
  2: { split; [cbn; tauto |]. intros _ _. split; reflexivity. }
  split; [| discriminate]. unfold getProductStatus.
  assert (Hs : (match CatalogProduct.status p with
                | Some status => String.eqb status "inactive"
                | None => false
                end) = false -> CatalogProduct.status p <> Some "inactive").
  { intros H E. rewrite E in H. discriminate. }
  assert (Hq : (match CatalogProduct.stock p with
                | Some stock => Qeq_bool stock 0
                | None => false
                end) = false ->
               forall stock, CatalogProduct.stock p = Some stock -> ~ stock == 0).
  { intros H stock E Hz. rewrite E in H. apply Qeq_bool_iff in Hz. congruence. }
  destruct (match CatalogProduct.status p with
            | Some status => String.eqb status "inactive"
            | None => false
            end); [cbn; tauto |].
  destruct (match CatalogProduct.stock p with
            | Some stock => Qeq_bool stock 0
            | None => false
            end); [cbn; tauto |].
  cbn. intros _. split; [reflexivity |]. exists p.
  split; [reflexivity |]. split; [reflexivity |]. split; [apply Hs | apply Hq]; reflexivity.
Qed.

(** A product in stock, added by the signed-in sample shopper. *)
Lemma add_to_cart_needs_login_and_stock_witness :
  let p := MoreSamples.vegetable "v1" "active" (Some 3) in
  addedToCart (handleAddToCart (Some p) MoreSamples.shop) = [p]
  /\ CatalogProduct.status p <> Some "inactive"
  /\ addedToCart (handleAddToCart (Some (MoreSamples.vegetable "v1" "active" (Some 0)))
                    MoreSamples.shop) = [].
Proof.
  cbv zeta.
  pose proof (add_to_cart_needs_login_and_stock
                (Some (MoreSamples.vegetable "v1" "active" (Some 3))) MoreSamples.shop) as H.
  cbv zeta in H. destruct H as (H & _).
  assert (Hd : addedToCart (handleAddToCart
                   (Some (MoreSamples.vegetable "v1" "active" (Some 3))) MoreSamples.shop)
               <> addedToCart MoreSamples.shop) by discriminate.
  destruct (H Hd) as (_ & p & Ep & _ & Hs & _). injection Ep as <-.
  split; [reflexivity |]. split; [exact Hs | reflexivity].
Defined.

Lemma has_add (x y : string) (w : list string) :
  has y (add x w) = String.eqb y x || has y w.
Proof.
  unfold add. destruct (has x w) eqn:E.
  - destruct (String.eqb y x) eqn:Ey; [| reflexivity].
    apply String.eqb_eq in Ey. subst y. rewrite E. reflexivity.
  - unfold has. rewrite existsb_app. cbn. rewrite orb_false_r. apply orb_comm.
Qed.

Lemma has_delete (x y : string) (w : list string) :
  has y (delete x w) = negb (String.eqb y x) && has y w.
Proof.
  unfold has, delete. induction w as [| z w IH]; cbn; [now rewrite andb_false_r |].
  destruct (String.eqb x z) eqn:Exz; cbn.
  - apply String.eqb_eq in Exz. subst z. rewrite IH.
    destruct (String.eqb y x); reflexivity.
  - rewrite IH. destruct (String.eqb y z) eqn:Eyz; cbn.
    + apply String.eqb_eq in Eyz. subst z.
      rewrite String.eqb_sym, Exz. reflexivity.
    + reflexivity.
Qed.

Lemma toggleWishlist_resolved (productId : string) (s : Shop) :
  productId <> "" -> isAuthenticated s = true ->
  let s' := toggleWishlist (Some productId) (Checkout.Resolves tt) s in
  wishlist s' = (if has productId (wishlist s) then delete productId (wishlist s)
                 else add productId (wishlist s))
  /\ isAuthenticated s' = true
  /\ wishlistCalls s'
     = (wishlistCalls s ++ [if has productId (wishlist s)
                            then removeFromWishlist productId
                            else addToWishlist productId])%list.
Proof.
  intros Hne Ha s'. subst s'. unfold toggleWishlist.
  rewrite (truthyStr_Some _ Hne), (orStrLit_Some _ _ Hne), Ha. cbn [negb].
  destruct (has productId (wishlist s)); repeat split; exact Ha.
Qed.

(** Toggling a product in the wishlist twice, both requests answered,
    sends one request of each kind (remove then add, or add then remove)
    and leaves the wishlist with the members it had; a toggle whose
    request is rejected leaves the wishlist as it was. *)
Theorem toggling_twice_restores_the_wishlist (productId : string) (s : Shop) :
  productId <> "" -> isAuthenticated s = true ->
  let once := toggleWishlist (Some productId) (Checkout.Resolves tt) s in
  let twice := toggleWishlist (Some productId) (Checkout.Resolves tt) once in
  has productId (wishlist once) = negb (has productId (wishlist s))
  /\ (forall y, has y (wishlist twice) = has y (wishlist s))
  /\ wishlistCalls twice
     = (wishlistCalls s
        ++ if has productId (wishlist s)
           then [removeFromWishlist productId; addToWishlist productId]
           else [addToWishlist productId; removeFromWishlist productId])%list
  /\ wishlist (toggleWishlist (Some productId) Checkout.Rejects s) = wishlist s.
Proof.
  intros Hne Ha once twice.
  destruct (toggleWishlist_resolved productId s Hne Ha) as (W1 & A1 & C1).
  fold once in W1, A1, C1.
  destruct (toggleWishlist_resolved productId once Hne A1) as (W2 & _ & C2).
  fold twice in W2, C2.
  assert (H1 : has productId (wishlist once) = negb (has productId (wishlist s))).
  { rewrite W1. destruct (has productId (wishlist s)) eqn:Eh.
    - rewrite has_delete, String.eqb_refl. reflexivity.
    - rewrite has_add, String.eqb_refl. reflexivity. }
  split; [exact H1 |]. split; [| split].
  - intro y. rewrite W2, H1, W1.
    destruct (has productId (wishlist s)) eqn:Eh; cbn [negb].
    + rewrite has_add, has_delete.
      destruct (String.eqb y productId) eqn:Ey; [| reflexivity].
      apply String.eqb_eq in Ey. subst y. rewrite Eh. reflexivity.
    + rewrite has_delete, has_add.
      destruct (String.eqb y productId) eqn:Ey; [| reflexivity].
      apply String.eqb_eq in Ey. subst y. rewrite Eh. reflexivity.
  - rewrite C2, C1, H1, <- app_assoc.
    destruct (has productId (wishlist s)); reflexivity.
  - unfold toggleWishlist.
    rewrite (truthyStr_Some _ Hne), (orStrLit_Some _ _ Hne), Ha. cbn [negb].
    destruct (has productId (wishlist s)); reflexivity.
Qed.

(** Product "v1" is in the sample wishlist, product "v2" is not. *)
Lemma toggling_twice_restores_the_wishlist_witness :
  wishlist (toggleWishlist (Some "v2") (Checkout.Resolves tt) MoreSamples.shop) = ["v1"; "v2"]
  /\ forall y,
       has y (wishlist (toggleWishlist (Some "v2") (Checkout.Resolves tt)
                          (toggleWishlist (Some "v2") (Checkout.Resolves tt)
                             MoreSamples.shop)))
       = has y (wishlist MoreSamples.shop).
Proof.
  assert (Hne : "v2" <> "") by discriminate.
  assert (Ha : isAuthenticated MoreSamples.shop = true) by reflexivity.
  pose proof (toggling_twice_restores_the_wishlist "v2" MoreSamples.shop Hne Ha) as H.
  cbv zeta in H. destruct H as (_ & H & _).
  split; [reflexivity | exact H].
Defined.

End FreshVegetablesFacts.

(* ===================================================================== *)
(** ** The authentication middleware *)
(* ===================================================================== *)

Section MiddlewareFacts.
Import JS JSString Middleware.

Lemma stripPrefix_spec (p : string) : forall s r : string,
  stripPrefix p s = Some r <-> s = p ++ r.
Proof.
  induction p as [| a p IH]; intros s r; cbn.
  - split; [intro E; injection E as ->; reflexivity | intros ->; reflexivity].
  - destruct s as [| b s].
    + split; discriminate.
    + destruct (Ascii.eqb a b) eqn:E.
      * apply Ascii.eqb_eq in E. subst b. rewrite IH.
        split; [intros ->; reflexivity | intro H; injection H as ->; reflexivity].
      * apply Ascii.eqb_neq in E. split; [discriminate |].
        intro H. injection H as H1 H2. congruence.
Qed.

Lemma replace_at_head (pat rep t : string) : replace pat rep (pat ++ t) = rep ++ t.
Proof.
  assert (E : stripPrefix pat (pat ++ t) = Some t) by (apply stripPrefix_spec; reflexivity).
  destruct (pat ++ t); cbn [replace]; rewrite E; reflexivity.
Qed.

Lemma replace_absent (pat rep : string) : forall s : string,
  includes s pat = false -> replace pat rep s = s.
Proof.
  induction s as [| c s IH]; intro H; cbn [includes] in H; apply orb_false_iff in H;
    destruct H as (Hp & Hs).
  - cbn [replace]. destruct (stripPrefix pat "") as [r |] eqn:E; [| reflexivity].
    apply stripPrefix_spec in E. exfalso.
    assert (String.prefix pat "" = true) by (apply prefix_spec; exists r; exact E).
    congruence.
  - cbn [replace]. destruct (stripPrefix pat (String c s)) as [r |] eqn:E.
    + apply stripPrefix_spec in E. exfalso.
      assert (String.prefix pat (String c s) = true)
        by (apply prefix_spec; exists r; exact E).
      congruence.
    + now rewrite (IH Hs).
Qed.

(** The scheme is not required: a header that is just the token is read
    like the same token after "Bearer ", by [auth] and by [adminAuth]
    (for a token that does not itself contain "Bearer "). *)
Theorem bearer_prefix_is_optional (d : Deps) (token : string) :
  includes token "Bearer " = false ->
  tokenOf (Some ("Bearer " ++ token)) = Some token
  /\ auth d (Some token) = auth d (Some ("Bearer " ++ token))
  /\ adminAuth d (Some token) = adminAuth d (Some ("Bearer " ++ token)).
Proof.
  intro H.
  assert (E1 : tokenOf (Some ("Bearer " ++ token)) = Some token).
  { unfold tokenOf. rewrite replace_at_head. reflexivity. }
  assert (E2 : tokenOf (Some token) = Some token).
  { unfold tokenOf. rewrite (replace_absent _ _ _ H). reflexivity. }
  split; [exact E1 |]. unfold auth, adminAuth. rewrite E1, E2. split; reflexivity.
Qed.

(** The sample user's token with and without the scheme. *)
Lemma bearer_prefix_is_optional_witness :
  auth MoreSamples.deps (Some "t-user") = auth MoreSamples.deps (Some "Bearer t-user")
  /\ auth MoreSamples.deps (Some "t-user") = Next (mkUserDoc "u1" (Some "user")) "t-user".
Proof.
  assert (H : includes "t-user" "Bearer " = false) by reflexivity.
  destruct (bearer_prefix_is_optional MoreSamples.deps "t-user" H) as (_ & E & _).
  split; [exact E | reflexivity].
Defined.

(** [adminAuth] lets through exactly the requests that [auth] lets
    through and whose user has the role "admin", with the same user and
    token; a request [auth] lets through for another user is answered
    403 "Access denied. Admin only.". *)
Theorem adminAuth_is_auth_with_the_admin_role
    (d : Deps) (authorization : option string) (user : UserDoc) (token : string) :
  (adminAuth d authorization = Next user token <->
   auth d authorization = Next user token /\ role user = Some "admin")
  /\ (auth d authorization = Next user token -> role user <> Some "admin" ->
      adminAuth d authorization = Reply 403 "Access denied. Admin only.").
Proof.
  unfold auth, adminAuth.
  destruct (negb (truthyStr (tokenOf authorization))).
  { split; [split; [discriminate | intros (H & _); discriminate] | discriminate]. }
  destruct (verify d (orStrLit (tokenOf authorization) "")) as [decoded |].
  2: { split; [split; [discriminate | intros (H & _); discriminate] | discriminate]. }
  destruct (findOne d (orStr (userId decoded) (id decoded))) as [[u |] |].
  2, 3: split; [split; [discriminate | intros (H & _); discriminate] | discriminate].
  destruct (role u) as [r |] eqn:Er.
  - destruct (String.eqb r "admin") eqn:E; cbn [negb].
    + apply String.eqb_eq in E. subst r. split.
      * split; [intro H; injection H as <- <-; split; [reflexivity | exact Er]
               | intros (H & _); exact H].
      * intros H Hn. injection H as <- <-. congruence.
    + apply String.eqb_neq in E. split.
      * split; [discriminate |]. intros (H & Hr). injection H as <- <-. congruence.
      * reflexivity.
  - split.
    + split; [discriminate |]. intros (H & Hr). injection H as <- <-. congruence.
    + reflexivity.
Qed.

(** The sample user's token is let through by [auth] and refused by
    [adminAuth]. *)
Lemma adminAuth_is_auth_with_the_admin_role_witness :
  auth MoreSamples.deps (Some "Bearer t-user") = Next (mkUserDoc "u1" (Some "user")) "t-user"
  /\ adminAuth MoreSamples.deps (Some "Bearer t-user")
     = Reply 403 "Access denied. Admin only."
  /\ adminAuth MoreSamples.deps (Some "Bearer t-admin")
     = Next (mkUserDoc "u2" (Some "admin")) "t-admin".
Proof.
  destruct (adminAuth_is_auth_with_the_admin_role MoreSamples.deps (Some "Bearer t-user")
              (mkUserDoc "u1" (Some "user")) "t-user") as (_ & H).
  assert (Ha : auth MoreSamples.deps (Some "Bearer t-user")
               = Next (mkUserDoc "u1" (Some "user")) "t-user") by reflexivity.
  assert (Hr : role (mkUserDoc "u1" (Some "user")) <> Some "admin") by discriminate.
  split; [exact Ha |]. split; [exact (H Ha Hr) | reflexivity].
Defined.

(** How the two middlewares refuse: [auth] only ever answers 401;
    [adminAuth] answers 401 for a missing token or an unknown user and
    403 otherwise; and a token that does not verify is "Invalid token"
    with 401 from [auth] but "Access denied" with 403 from [adminAuth]. *)
Theorem refusal_statuses (d : Deps) (authorization : option string) :
  (forall status message, auth d authorization = Reply status message -> status = 401%Z)
  /\ (forall status message, adminAuth d authorization = Reply status message ->
      status = 401%Z \/ status = 403%Z)
  /\ (forall token, tokenOf authorization = Some token -> token <> "" ->
      verify d token = None ->
      auth d authorization = Reply 401 "Invalid token"
      /\ adminAuth d authorization = Reply 403 "Access denied").
Proof.
  unfold auth, adminAuth. split; [| split].
  - intros status message.
    destruct (negb (truthyStr (tokenOf authorization))); [intro H; injection H as <- _; reflexivity |].
    destruct (verify d _); [| intro H; injection H as <- _; reflexivity].
    destruct (findOne d _) as [[u |] |]; [discriminate | |];
      intro H; injection H as <- _; reflexivity.
  - intros status message.
    destruct (negb (truthyStr (tokenOf authorization))); [intro H; injection H as <- _; auto |].
    destruct (verify d _); [| intro H; injection H as <- _; auto].
    destruct (findOne d _) as [[u |] |]; [| intro H; injection H as <- _; auto ..].
    destruct (match role u with Some r => negb (String.eqb r "admin") | None => true end);
      [intro H; injection H as <- _; auto | discriminate].
  - intros token E Hne Hv. rewrite E, (truthyStr_Some _ Hne), (orStrLit_Some _ _ Hne), Hv.
    split; reflexivity.
Qed.

End MiddlewareFacts.
